(** * Ingestion loop of the closed-group Telegram parser

    A shallow embedding of [tg_bot/main.py], [tg_bot/src/helpers.py] and
    [tg_bot/src/database/operations.py], with the tables of
    [tg_bot/src/database/models.py] as records.

    Python integers are [Z], strings are [string] (the UTF-8 bytes of the
    Python text), [Optional[T]] is [option T], a Python [set] is a [gset],
    the [telegram_links] table is a [gmap] keyed by the primary key, and the
    stateful, fallible coroutines run in a state-and-exception monad over the
    record [World]. *)

From Stdlib Require Import ZArith String Ascii List Lia QArith Sorted.
From stdpp Require Import base gmap sets list strings pretty sorting.

Local Open Scope Z_scope.

(** ** Python primitives *)

(** Truth value of a [str], an [int] and an [Optional]. *)
Definition truthy_str (s : string) : bool :=
  match s with EmptyString => false | String _ _ => true end.

Definition truthy_int (z : Z) : bool := negb (z =? 0).

Definition truthy_opt {A} (truthy : A -> bool) (o : option A) : bool :=
  match o with None => false | Some a => truthy a end.

(** [s.startswith(p)] *)
Definition startswith (s p : string) : bool := String.prefix p s.

(** [s.removeprefix(p)] *)
Definition removeprefix (s p : string) : string :=
  if String.prefix p s
  then String.substring (String.length p) (String.length s - String.length p) s
  else s.

(** [needle in hay] on strings. *)
Fixpoint str_in (needle hay : string) : bool :=
  String.prefix needle hay ||
  match hay with
  | EmptyString => false
  | String _ hay' => str_in needle hay'
  end.

(** [s.split(sep)[0]] for a non-empty [sep]: the text before the first
    occurrence of [sep], the whole of [s] when there is none. *)
Fixpoint split_head (sep s : string) : string :=
  if String.prefix sep s then EmptyString
  else match s with
       | EmptyString => EmptyString
       | String c s' => String c (split_head sep s')
       end.

Definition dquote : string := String (ascii_of_nat 34) EmptyString.
Definition newline : string := String (ascii_of_nat 10) EmptyString.

(** The separator of [check_duplicate]: the opening of an anchor tag up to
    and including the quote that starts the address. *)
Definition anchor_open : string := "<a href=" +:+ dquote.

(** ** models.py *)

(** Seconds since the epoch stand for [datetime]. *)
Abbreviation datetime := Z (only parsing).

Record Category := {
  cat_id : Z;
  cat_name : string;
  cat_global_search : Z
}.

Record Keyword := {
  kw_id : string;
  kw_keyword : string;
  kw_category_id : Z
}.

Record CategoryTelegramLinkLink := {
  ctl_category_id : Z;
  ctl_telegram_link_id : string
}.

Record CategoryMessageLink := {
  cml_category_id : Z;
  cml_message_id : string;
  cml_created_at : datetime
}.

(** Row of the [messages] table. *)
Record MessageRow := {
  row_id : string;
  row_text : string;
  row_created_at : datetime;
  row_updated_at : datetime;
  row_from_user_id : option Z;
  row_from_username : option string;
  row_chat_id : option Z;
  row_link : option string;
  row_date : option datetime
}.

Record TelegramLink := {
  tl_id : string;
  tl_link : option string;
  tl_chat_id : option Z;
  tl_last_check_at : option datetime;
  tl_last_message_id : option Z;
  tl_invalid : option bool;
  tl_parser_account : option string
}.

Definition set_chat_id (v : option Z) (t : TelegramLink) : TelegramLink :=
  {| tl_id := tl_id t; tl_link := tl_link t; tl_chat_id := v;
     tl_last_check_at := tl_last_check_at t;
     tl_last_message_id := tl_last_message_id t;
     tl_invalid := tl_invalid t; tl_parser_account := tl_parser_account t |}.

Definition set_parser_account (v : option string) (t : TelegramLink) : TelegramLink :=
  {| tl_id := tl_id t; tl_link := tl_link t; tl_chat_id := tl_chat_id t;
     tl_last_check_at := tl_last_check_at t;
     tl_last_message_id := tl_last_message_id t;
     tl_invalid := tl_invalid t; tl_parser_account := v |}.

Definition set_last_check_at (v : option datetime) (t : TelegramLink) : TelegramLink :=
  {| tl_id := tl_id t; tl_link := tl_link t; tl_chat_id := tl_chat_id t;
     tl_last_check_at := v;
     tl_last_message_id := tl_last_message_id t;
     tl_invalid := tl_invalid t; tl_parser_account := tl_parser_account t |}.

Definition set_last_message_id (v : option Z) (t : TelegramLink) : TelegramLink :=
  {| tl_id := tl_id t; tl_link := tl_link t; tl_chat_id := tl_chat_id t;
     tl_last_check_at := tl_last_check_at t;
     tl_last_message_id := v;
     tl_invalid := tl_invalid t; tl_parser_account := tl_parser_account t |}.

Definition set_invalid (v : option bool) (t : TelegramLink) : TelegramLink :=
  {| tl_id := tl_id t; tl_link := tl_link t; tl_chat_id := tl_chat_id t;
     tl_last_check_at := tl_last_check_at t;
     tl_last_message_id := tl_last_message_id t;
     tl_invalid := v; tl_parser_account := tl_parser_account t |}.

(** ** The platform's objects (pyrogram) *)

Record Chat := {
  chat_ident : Z;
  chat_title : string
}.

Record User := {
  user_ident : Z;
  user_username : option string
}.

(** [pyrogram.types.Message]: the fields the parser reads.  [text], [chat]
    and [from_user] are optional on the platform's side. *)
Record Message := {
  msg_id : Z;
  msg_text : option string;
  msg_date : option datetime;
  msg_chat : option Chat;
  msg_from_user : option User;
  msg_link : string
}.

(** What [extract_chat] returns: a handle or invite link, or a numeric id. *)
Inductive ChatRef :=
| ChatStr (s : string)
| ChatInt (z : Z).

Definition truthy_chat (c : ChatRef) : bool :=
  match c with ChatStr s => truthy_str s | ChatInt z => truthy_int z end.

Record ChatInfo := {
  info_id : Z;
  info_type : string;
  info_is_accessible : bool
}.

(** The exceptions of the program; every one of them is a subclass of
    [Exception]. *)
Inductive exn :=
| FloodWait (value : Z)
| UsernameInvalid
| UsernameNotOccupied
| ChannelInvalid
| BadRequest
| AttributeError
| OtherError (what : string).

(** [isinstance(e, BadRequest)]: the three username and channel errors are
    subclasses of [BadRequest] in pyrogram. *)
Definition is_bad_request (e : exn) : bool :=
  match e with
  | UsernameInvalid | UsernameNotOccupied | ChannelInvalid | BadRequest => true
  | _ => false
  end.

Definition is_flood_wait (e : exn) : option Z :=
  match e with FloodWait v => Some v | _ => None end.

(** ** helpers.py: the pure parts *)

Definition extract_chat (telegram_link : TelegramLink) : option ChatRef :=
  match tl_link telegram_link with
  | None => None
  | Some l =>
      if negb (truthy_str l) then None
      else if startswith l "t.me/+" then Some (ChatStr l)
      else if startswith l "t.me/" then Some (ChatStr (removeprefix l "t.me/"))
      else match tl_chat_id telegram_link with
           | Some c => Some (ChatInt c)
           | None => None
           end
  end.

(** The two pieces [get_text_with_link] appends. *)
Definition anchor_line (link title : string) : string :=
  newline +:+ newline +:+ "<a href=" +:+ dquote +:+ link +:+ dquote +:+ ">"
  +:+ "Переслано из " +:+ title +:+ "</a>".

Definition attribution_line (username : string) : string :=
  newline +:+ newline +:+ "👉 @" +:+ username.

(** The public username of the author, when there is one:
    [message.from_user and message.from_user.username]. *)
Definition public_username (message : Message) : option string :=
  match msg_from_user message with
  | Some u =>
      match user_username u with
      | Some n => if truthy_str n then Some n else None
      | None => None
      end
  | None => None
  end.

(** [get_text_with_link]; it is reached with a message that has a text, and
    [message.chat.title] raises [AttributeError] when the chat is missing. *)
Definition get_text_with_link (message : Message) : exn + string :=
  match msg_chat message with
  | None => inl AttributeError
  | Some chat =>
      let text := default EmptyString (msg_text message) in
      let text := text +:+ anchor_line (msg_link message) (chat_title chat) in
      match public_username message with
      | Some username => inr (text +:+ attribution_line username)
      | None => inr text
      end
  end.

(** ** What the program takes from outside the repository *)

(** The Python runtime and the libraries the parser calls, and the one
    setting the duplicate check reads.  [tfidf_cosine a b] stands for
    [cosine_similarity(TfidfVectorizer().fit_transform([a, b]))[0][1]]; the
    vectorizer raises on an empty vocabulary, hence the sum. *)
Class Runtime := {
  str_lower : string -> string;
  bs_text : string -> string;
  tfidf_cosine : string -> string -> exn + Q;
  uuid4 : nat -> string;
  random_uniform : nat -> Z;
  func_rand : list TelegramLink -> list TelegramLink;
  MAX_LEVEL_OF_DUPLICATE_SIMILARITY : Q
}.

(** [pyrogram.Client]: the three calls of the parser.  The history of a chat
    is the messages it yields, followed by the exception that ends the
    iteration early, if any. *)
Record Client := {
  get_chat : ChatRef -> exn + ChatInfo;
  join_chat : string -> option exn;
  get_chat_history : ChatRef -> Z -> nat -> list Message * option exn
}.

(** ** The store, the clock and the caches *)

Record CacheEntry (K V : Type) := {
  ce_key : K;
  ce_value : V;
  ce_expires : Z
}.
Arguments ce_key {K V} _.
Arguments ce_value {K V} _.
Arguments ce_expires {K V} _.

(** A call of an [async def] that was built and never awaited: the call of
    [update_telegram_link_last_check] with its three arguments. *)
Record PendingUpdate := {
  pu_link : TelegramLink;
  pu_last_check_at : datetime;
  pu_last_message_id : Z
}.

Record World := {
  w_now : Z;
  w_telegram_links : gmap string TelegramLink;
  w_messages : list MessageRow;
  w_category_message : list CategoryMessageLink;
  w_keywords : list Keyword;
  w_categories : list Category;
  w_category_telegram_link : list CategoryTelegramLinkLink;
  w_check_duplicate_cache : list (CacheEntry string bool);
  w_keyword_rows_cache : list (CacheEntry string (list Keyword));
  w_uuids : nat;
  w_draws : nat;
  w_never_awaited : list PendingUpdate
}.

Definition with_now (v : Z) (w : World) : World :=
  {| w_now := v; w_telegram_links := w_telegram_links w;
     w_messages := w_messages w; w_category_message := w_category_message w;
     w_keywords := w_keywords w; w_categories := w_categories w;
     w_category_telegram_link := w_category_telegram_link w;
     w_check_duplicate_cache := w_check_duplicate_cache w;
     w_keyword_rows_cache := w_keyword_rows_cache w;
     w_uuids := w_uuids w; w_draws := w_draws w;
     w_never_awaited := w_never_awaited w |}.

Definition with_telegram_links (v : gmap string TelegramLink) (w : World) : World :=
  {| w_now := w_now w; w_telegram_links := v;
     w_messages := w_messages w; w_category_message := w_category_message w;
     w_keywords := w_keywords w; w_categories := w_categories w;
     w_category_telegram_link := w_category_telegram_link w;
     w_check_duplicate_cache := w_check_duplicate_cache w;
     w_keyword_rows_cache := w_keyword_rows_cache w;
     w_uuids := w_uuids w; w_draws := w_draws w;
     w_never_awaited := w_never_awaited w |}.

Definition with_messages (v : list MessageRow) (l : list CategoryMessageLink)
    (u : nat) (w : World) : World :=
  {| w_now := w_now w; w_telegram_links := w_telegram_links w;
     w_messages := v; w_category_message := l;
     w_keywords := w_keywords w; w_categories := w_categories w;
     w_category_telegram_link := w_category_telegram_link w;
     w_check_duplicate_cache := w_check_duplicate_cache w;
     w_keyword_rows_cache := w_keyword_rows_cache w;
     w_uuids := u; w_draws := w_draws w;
     w_never_awaited := w_never_awaited w |}.

Definition with_check_duplicate_cache (v : list (CacheEntry string bool)) (w : World) : World :=
  {| w_now := w_now w; w_telegram_links := w_telegram_links w;
     w_messages := w_messages w; w_category_message := w_category_message w;
     w_keywords := w_keywords w; w_categories := w_categories w;
     w_category_telegram_link := w_category_telegram_link w;
     w_check_duplicate_cache := v;
     w_keyword_rows_cache := w_keyword_rows_cache w;
     w_uuids := w_uuids w; w_draws := w_draws w;
     w_never_awaited := w_never_awaited w |}.

Definition with_keyword_rows_cache (v : list (CacheEntry string (list Keyword))) (w : World) : World :=
  {| w_now := w_now w; w_telegram_links := w_telegram_links w;
     w_messages := w_messages w; w_category_message := w_category_message w;
     w_keywords := w_keywords w; w_categories := w_categories w;
     w_category_telegram_link := w_category_telegram_link w;
     w_check_duplicate_cache := w_check_duplicate_cache w;
     w_keyword_rows_cache := v;
     w_uuids := w_uuids w; w_draws := w_draws w;
     w_never_awaited := w_never_awaited w |}.

Definition with_draws (v : nat) (w : World) : World :=
  {| w_now := w_now w; w_telegram_links := w_telegram_links w;
     w_messages := w_messages w; w_category_message := w_category_message w;
     w_keywords := w_keywords w; w_categories := w_categories w;
     w_category_telegram_link := w_category_telegram_link w;
     w_check_duplicate_cache := w_check_duplicate_cache w;
     w_keyword_rows_cache := w_keyword_rows_cache w;
     w_uuids := w_uuids w; w_draws := v;
     w_never_awaited := w_never_awaited w |}.

Definition with_never_awaited (v : list PendingUpdate) (w : World) : World :=
  {| w_now := w_now w; w_telegram_links := w_telegram_links w;
     w_messages := w_messages w; w_category_message := w_category_message w;
     w_keywords := w_keywords w; w_categories := w_categories w;
     w_category_telegram_link := w_category_telegram_link w;
     w_check_duplicate_cache := w_check_duplicate_cache w;
     w_keyword_rows_cache := w_keyword_rows_cache w;
     w_uuids := w_uuids w; w_draws := w_draws w;
     w_never_awaited := v |}.

(** ** Coroutines: state and exceptions *)

Inductive result (A : Type) :=
| Return (a : A)
| Raise (e : exn).
Arguments Return {A} a.
Arguments Raise {A} e.

Definition M (St A : Type) : Type := St -> result A * St.

#[global] Instance M_ret {St} : MRet (M St) := fun A a s => (Return a, s).

#[global] Instance M_bind {St} : MBind (M St) := fun A B f m s =>
  match m s with
  | (Return a, s') => f a s'
  | (Raise e, s') => (Raise e, s')
  end.

Definition get_state {St} : M St St := fun s => (Return s, s).
Definition modify {St} (f : St -> St) : M St unit := fun s => (Return tt, f s).
Definition raise {St A} (e : exn) : M St A := fun s => (Raise e, s).

(** [try: body except Exception as e: handler e] *)
Definition try_except {St A} (body : M St A) (handler : exn -> M St A) : M St A :=
  fun s =>
    match body s with
    | (Return a, s') => (Return a, s')
    | (Raise e, s') => handler e s'
    end.

(** [try: body finally: final] *)
Definition try_finally {St A} (body : M St A) (final : M St unit) : M St A :=
  fun s =>
    let '(r, s') := body s in
    match final s' with
    | (Return _, s'') => (r, s'')
    | (Raise e, s'') => (Raise e, s'')
    end.

(** A fallible pure call inside a coroutine. *)
Definition lift_sum {St A} (r : exn + A) : M St A :=
  match r with inl e => raise e | inr a => mret a end.

(** [datetime.utcnow()] *)
Definition utcnow : M World datetime := fun w => (Return (w_now w), w).

(** [await asyncio.sleep(seconds)] *)
Definition sleep (seconds : Z) : M World unit :=
  modify (fun w => with_now (w_now w + Z.max 0 seconds) w).

(** Building the coroutine of [update_telegram_link_last_check] without
    awaiting it: the body does not run, and the interpreter reports the
    coroutine as never awaited when it drops it. *)
Definition call_without_await {A} (call : PendingUpdate) (body : M World A) : M World unit :=
  modify (fun w => with_never_awaited (w_never_awaited w ++ [call]) w).

(** ** async_lru: [@alru_cache(ttl=...)] *)

Definition alru_maxsize : nat := 128.

(** The entries a timer has not yet removed at time [now]. *)
Definition cache_live {K V} (now : Z) (c : list (CacheEntry K V)) : list (CacheEntry K V) :=
  List.filter (fun e => now <? ce_expires e) c.

Fixpoint cache_lookup {K V} `{EqDecision K} (k : K) (c : list (CacheEntry K V))
    : option (CacheEntry K V) :=
  match c with
  | [] => None
  | e :: c' => if decide (ce_key e = k) then Some e else cache_lookup k c'
  end.

Definition cache_remove {K V} `{EqDecision K} (k : K) (c : list (CacheEntry K V))
    : list (CacheEntry K V) :=
  List.filter (fun e => negb (bool_decide (ce_key e = k))) c.

(** The decorated coroutine.  The cache keeps its entries most recently used
    first; a hit returns the stored value without running the body, a miss
    runs the body and stores its value for [ttl] seconds, dropping the least
    recently used entry beyond [alru_maxsize].  A raised exception is not
    stored. *)
Definition alru_cache {K V} `{EqDecision K} (ttl : Z)
    (getc : World -> list (CacheEntry K V))
    (setc : list (CacheEntry K V) -> World -> World)
    (f : K -> M World V) (k : K) : M World V :=
  w ← get_state;
  let live := cache_live (w_now w) (getc w) in
  match cache_lookup k live with
  | Some e =>
      _ ← modify (setc (e :: cache_remove k live));
      mret (ce_value e)
  | None =>
      _ ← modify (setc live);
      v ← f k;
      _ ← modify (fun w' =>
             setc (take alru_maxsize
                     ({| ce_key := k; ce_value := v; ce_expires := w_now w' + ttl |}
                        :: getc w')) w');
      mret v
  end.

Section Program.

Context `{rt : Runtime}.

(** ** operations.py *)

(** The query of [get_keyword_rows]: the keywords joined to their category
    and to the category's source links, kept when the link is the source's
    or the category is global; one row per keyword. *)
Definition get_keyword_rows_query (telegram_link_id : string) (w : World) : list Keyword :=
  List.filter
    (fun k =>
       existsb
         (fun c =>
            (cat_id c =? kw_category_id k) &&
            existsb
              (fun l =>
                 (ctl_category_id l =? cat_id c) &&
                 (String.eqb (ctl_telegram_link_id l) telegram_link_id
                  || (cat_global_search c =? 1)))
              (w_category_telegram_link w))
         (w_categories w))
    (w_keywords w).

Definition get_keyword_rows : string -> M World (list Keyword) :=
  alru_cache 300 w_keyword_rows_cache with_keyword_rows_cache
    (fun telegram_link_id => w ← get_state; mret (get_keyword_rows_query telegram_link_id w)).

Definition save_message (text : string) (date : option datetime) (categories : list Z)
    (from_user_id : option Z) (from_username : option string)
    (chat_id : option Z) (link : option string) : M World unit :=
  modify (fun w =>
    let message_id := uuid4 (w_uuids w) in
    let message_row :=
      {| row_id := message_id; row_text := text;
         row_created_at := w_now w; row_updated_at := w_now w;
         row_from_user_id := from_user_id; row_from_username := from_username;
         row_chat_id := chat_id; row_link := link; row_date := date |} in
    with_messages
      (w_messages w ++ [message_row])
      (w_category_message w ++
         map (fun category_id =>
                {| cml_category_id := category_id; cml_message_id := message_id;
                   cml_created_at := w_now w |}) categories)
      (S (w_uuids w)) w).

(** The key of [ORDER BY CASE WHEN last_check_at IS NULL THEN 1 ELSE 0 END,
    last_check_at ASC]: the rows with a poll timestamp come before those
    without. *)
Definition order_key (t : TelegramLink) : Z * Z :=
  match tl_last_check_at t with
  | None => (1, 0)
  | Some at_ => (0, at_)
  end.

Definition order_leb (a b : TelegramLink) : bool :=
  let '(ca, ta) := order_key a in
  let '(cb, tb) := order_key b in
  (ca <? cb) || ((ca =? cb) && (ta <=? tb)).

Fixpoint insert_by (leb : TelegramLink -> TelegramLink -> bool) (x : TelegramLink)
    (l : list TelegramLink) : list TelegramLink :=
  match l with
  | [] => [x]
  | y :: l' => if leb x y then x :: l else y :: insert_by leb x l'
  end.

Definition order_by (leb : TelegramLink -> TelegramLink -> bool) (l : list TelegramLink)
    : list TelegramLink :=
  fold_right (insert_by leb) [] l.

Definition owned_or_unclaimed (session_name : option string) (t : TelegramLink) : bool :=
  bool_decide (tl_parser_account t = session_name) || bool_decide (tl_parser_account t = None).

(** [get_tg_links]: the rows of the table, in the store's own order,
    filtered, ordered and limited as the two queries say.  The store of the
    model does not fail, so the handler that answers the empty list has no
    case here. *)
Definition get_tg_links (exclude_unknown_chats : bool) (session_name : option string)
    : M World (list TelegramLink) :=
  w ← get_state;
  let rows := (map_to_list (w_telegram_links w)).*2 in
  if exclude_unknown_chats then
    mret (take 30
            (order_by order_leb
               (List.filter
                  (fun t => bool_decide (tl_chat_id t ≠ None) && owned_or_unclaimed session_name t)
                  rows)))
  else
    mret (take 1
            (func_rand
               (List.filter
                  (fun t => bool_decide (tl_chat_id t = None)
                            && owned_or_unclaimed session_name t
                            && (bool_decide (tl_invalid t = Some false)
                                || bool_decide (tl_invalid t = None)))
                  rows))).

(** The loop of [check_duplicate] over the stored texts. *)
Fixpoint scan_sent_texts (text : string) (messages_texts : list string) : exn + bool :=
  match messages_texts with
  | [] => inr true
  | sent_text :: rest =>
      let sent_text := bs_text (split_head anchor_open sent_text) in
      match tfidf_cosine text sent_text with
      | inl e => inl e
      | inr similarity =>
          if Qle_bool MAX_LEVEL_OF_DUPLICATE_SIMILARITY similarity then inr false
          else scan_sent_texts text rest
      end
  end.

(** The body of [check_duplicate], under its decorator below.  [true] lets
    the message through, [false] is the verdict that it is a duplicate. *)
Definition check_duplicate_body (text : string) : M World bool :=
  if negb (truthy_str text) then mret true
  else
    try_except
      (let text := bs_text (split_head anchor_open text) in
       w ← get_state;
       let yesterday := w_now w - 86400 in
       let messages_texts :=
         map row_text (List.filter (fun r => yesterday <? row_created_at r) (w_messages w)) in
       lift_sum (scan_sent_texts text messages_texts))
      (fun _ => mret true).

Definition check_duplicate : string -> M World bool :=
  alru_cache 300 w_check_duplicate_cache with_check_duplicate_cache check_duplicate_body.

(** [session.merge(telegram_link)] and [session.commit()]: the row of the
    primary key takes the state of the object. *)
Definition merge_commit (telegram_link : TelegramLink) : M World unit :=
  modify (fun w =>
    with_telegram_links (<[ tl_id telegram_link := telegram_link ]> (w_telegram_links w)) w).

(** [save_chat_id]; the object it may change is returned. *)
Definition save_chat_id (telegram_link : TelegramLink) (chat_id : Z)
    (session_name : option string) : M World TelegramLink :=
  if truthy_opt truthy_int (tl_chat_id telegram_link) then mret telegram_link
  else
    let telegram_link := set_chat_id (Some chat_id) telegram_link in
    let telegram_link := set_parser_account session_name telegram_link in
    _ ← merge_commit telegram_link;
    mret telegram_link.

Definition update_telegram_link_last_check (telegram_link : TelegramLink)
    (last_check_at : datetime) (last_message_id : Z) : M World TelegramLink :=
  let telegram_link := set_last_check_at (Some last_check_at) telegram_link in
  let telegram_link := set_last_message_id (Some last_message_id) telegram_link in
  _ ← merge_commit telegram_link;
  mret telegram_link.

(** [set_telegram_link_invalid] *)
Definition set_telegram_link_invalid (telegram_link : TelegramLink) : M World TelegramLink :=
  let telegram_link := set_invalid (Some true) telegram_link in
  _ ← merge_commit telegram_link;
  mret telegram_link.

(** [set_telegram_link_chat_id_null]: only the worker that owns the source
    unbinds it, and the account [velinapp] never does. *)
Definition set_telegram_link_chat_id_null (telegram_link : TelegramLink)
    (session_name : option string) : M World TelegramLink :=
  if negb (bool_decide (tl_parser_account telegram_link = session_name)) then mret telegram_link
  else if bool_decide (tl_parser_account telegram_link = Some "velinapp"%string)
  then mret telegram_link
  else
    let telegram_link := set_chat_id None telegram_link in
    _ ← merge_commit telegram_link;
    mret telegram_link.

(** ** helpers.py: the categorizer *)

(** The loop of [find_message_categories] over the keyword rows; a row
    reaches its category through [category_id].  Only the message text is
    lower-cased. *)
Definition find_in_rows (keyword_rows : list Keyword) (text : string) : gset Z :=
  if negb (truthy_str text) then ∅
  else
    let text_lowercase := str_lower text in
    fold_left
      (fun (categories : gset Z) keyword_row =>
         if str_in (kw_keyword keyword_row) text_lowercase
         then {[ kw_category_id keyword_row ]} ∪ categories
         else categories)
      keyword_rows ∅.

Definition find_message_categories (text : string) (telegram_link : TelegramLink)
    : M World (gset Z) :=
  keyword_rows ← get_keyword_rows (tl_id telegram_link);
  mret (find_in_rows keyword_rows text).


(** ** main.py *)

Record ParserConfig := {
  MAX_MESSAGES_PER_CHAT : Z;
  MESSAGE_LOG_INTERVAL : Z;
  MIN_DELAY : Z;
  MAX_DELAY : Z;
  PAUSE_AFTER_FULL_PARSING : Z
}.

Definition default_config : ParserConfig :=
  {| MAX_MESSAGES_PER_CHAT := 300; MESSAGE_LOG_INTERVAL := 50;
     MIN_DELAY := 1; MAX_DELAY := 5;
     PAUSE_AFTER_FULL_PARSING := 6 * 60 * 60 |}.

Record ParserStats := {
  st_session_name : string;
  st_exclude_unknown_chats : bool;
  st_message_count : Z;
  st_chats_count : Z;
  st_relevant_messages : Z;
  st_start_time : datetime
}.

Definition new_stats (session_name : string) (exclude_unknown_chats : bool)
    (start_time : datetime) : ParserStats :=
  {| st_session_name := session_name; st_exclude_unknown_chats := exclude_unknown_chats;
     st_message_count := 0; st_chats_count := 0; st_relevant_messages := 0;
     st_start_time := start_time |}.

Definition incr_message_count (s : ParserStats) : ParserStats :=
  {| st_session_name := st_session_name s;
     st_exclude_unknown_chats := st_exclude_unknown_chats s;
     st_message_count := st_message_count s + 1; st_chats_count := st_chats_count s;
     st_relevant_messages := st_relevant_messages s; st_start_time := st_start_time s |}.

Definition incr_chats_count (s : ParserStats) : ParserStats :=
  {| st_session_name := st_session_name s;
     st_exclude_unknown_chats := st_exclude_unknown_chats s;
     st_message_count := st_message_count s; st_chats_count := st_chats_count s + 1;
     st_relevant_messages := st_relevant_messages s; st_start_time := st_start_time s |}.

Definition incr_relevant_messages (s : ParserStats) : ParserStats :=
  {| st_session_name := st_session_name s;
     st_exclude_unknown_chats := st_exclude_unknown_chats s;
     st_message_count := st_message_count s; st_chats_count := st_chats_count s;
     st_relevant_messages := st_relevant_messages s + 1; st_start_time := st_start_time s |}.

Record TelegramParser := {
  client : Client;
  config : ParserConfig;
  session_name : string
}.

(** [_save_relevant_message]; the message object itself is always true. *)
Definition _save_relevant_message (message : Message) (text_with_link : string)
    (categories : gset Z) : M World unit :=
  if negb (truthy_str text_with_link) || bool_decide (categories = ∅) then mret tt
  else
    match msg_chat message with
    | None => raise AttributeError
    | Some chat =>
        save_message text_with_link (msg_date message) (elements categories)
          (user_ident <$> msg_from_user message)
          (msg_from_user message ≫= user_username)
          (Some (chat_ident chat))
          (Some (msg_link message))
    end.

(** [process_message]: the id it returns, or [None], and the statistics it
    updates in place. *)
Definition process_message (message : Message) (chat_id : Z) (stats : ParserStats)
    (telegram_link : TelegramLink) : M World (option Z * ParserStats) :=
  match msg_text message with
  | None => mret (None, stats)
  | Some text =>
      if negb (truthy_str text) then mret (None, stats)
      else
        passed ← check_duplicate text;
        if negb passed then mret (None, stats)
        else
          categories ← find_message_categories text telegram_link;
          if bool_decide (categories = ∅) then mret (Some (msg_id message), stats)
          else
            match get_text_with_link message with
            | inl _ => mret (Some (msg_id message), stats)
            | inr text_with_link =>
                _ ← _save_relevant_message message text_with_link categories;
                mret (Some (msg_id message), incr_relevant_messages stats)
            end
  end.

(** [_get_chat_messages]: the generator handles every exception of the
    client itself, so it yields the messages the history gives before an
    exception and then ends. *)
Definition _get_chat_messages (self : TelegramParser) (chat : ChatRef) (min_id : Z)
    : list Message :=
  if negb (truthy_chat chat) then []
  else
    let resolved :=
      match chat with
      | ChatStr s =>
          if startswith s "t.me/+" then
            match get_chat (client self) chat with
            | inr chat_info => Some (ChatInt (info_id chat_info))
            | inl _ => None
            end
          else Some chat
      | ChatInt _ => Some chat
      end in
    match resolved with
    | None => []
    | Some chat => fst (get_chat_history (client self) chat min_id 100)
    end.

(** The local variables of [process_chat] that its loop changes and its
    [finally] clause reads. *)
Record Frame := {
  f_telegram_link : TelegramLink;
  f_stats : ParserStats;
  f_max_id : Z;
  f_messages_in_chat : Z
}.

(** A coroutine of the store, run from the frame of [process_chat]. *)
Definition in_world {A} (m : M World A) : M (Frame * World) A :=
  fun '(fr, w) => let '(r, w') := m w in (r, (fr, w')).

Definition get_frame : M (Frame * World) Frame := fun s => (Return (fst s), s).

Definition set_frame (fr : Frame) : M (Frame * World) unit :=
  fun s => (Return tt, (fr, snd s)).

(** The body of the [async for] loop of [process_chat] for one message;
    [false] is the [break] at the message limit. *)
Definition process_chat_step (self : TelegramParser) (message : Message)
    : M (Frame * World) bool :=
  fr ← get_frame;
  let messages_in_chat := f_messages_in_chat fr + 1 in
  _ ← set_frame {| f_telegram_link := f_telegram_link fr; f_stats := f_stats fr;
                   f_max_id := f_max_id fr; f_messages_in_chat := messages_in_chat |};
  if MAX_MESSAGES_PER_CHAT (config self) <? messages_in_chat then mret false
  else
    match msg_chat message with
    | None => raise AttributeError
    | Some chat =>
        telegram_link ← in_world (save_chat_id (f_telegram_link fr) (chat_ident chat)
                                    (Some (session_name self)));
        let stats := incr_message_count (f_stats fr) in
        _ ← set_frame {| f_telegram_link := telegram_link; f_stats := stats;
                         f_max_id := f_max_id fr;
                         f_messages_in_chat := messages_in_chat |};
        '(new_max_id, stats) ← in_world (process_message message (chat_ident chat)
                                           stats telegram_link);
        _ ← set_frame {| f_telegram_link := telegram_link; f_stats := stats;
                         f_max_id := f_max_id fr;
                         f_messages_in_chat := messages_in_chat |};
        _ ← (if truthy_opt truthy_int new_max_id then
               now ← in_world utcnow;
               set_frame {| f_telegram_link := set_last_check_at (Some now) telegram_link;
                            f_stats := stats;
                            f_max_id := Z.max (default 0 new_max_id) (f_max_id fr);
                            f_messages_in_chat := messages_in_chat |}
             else mret tt);
        w ← in_world get_state;
        _ ← in_world (modify (with_draws (S (w_draws w))));
        _ ← in_world (sleep (random_uniform (w_draws w)));
        mret true
    end.

(** The [async for] loop of [process_chat]. *)
Fixpoint process_messages (self : TelegramParser) (messages : list Message)
    : M (Frame * World) unit :=
  match messages with
  | [] => mret tt
  | message :: rest =>
      continue ← process_chat_step self message;
      if continue : bool then process_messages self rest else mret tt
  end.

(** The body of the [try] statement of [process_chat]. *)
Definition process_chat_try (self : TelegramParser) (chat : ChatRef)
    : M (Frame * World) unit :=
  fr ← get_frame;
  let telegram_link := f_telegram_link fr in
  match get_chat (client self) chat with
  | inl e => if is_bad_request e then mret tt else raise e
  | inr chat_info =>
      let restricted :=
        bool_decide (info_type chat_info ∈ ["group"; "supergroup"; "channel"]%string)
        && negb (info_is_accessible chat_info) in
      let link := default EmptyString (tl_link telegram_link) in
      if restricted && negb (startswith link "t.me/+") then mret tt
      else
        _ ← (if restricted then
               match join_chat (client self) link with
               | Some e => raise e
               | None => mret tt
               end
             else mret tt);
        process_messages self (_get_chat_messages self chat (f_max_id fr))
  end.

(** Running the [try] statement of [process_chat] on its local variables
    and handing back the two objects it changed. *)
Definition run_frame (statement : M (Frame * World) unit) (fr : Frame)
    : M World (TelegramLink * ParserStats) :=
  fun w =>
    let '(r, (fr', w')) := statement (fr, w) in
    match r with
    | Return _ => (Return (f_telegram_link fr', f_stats fr'), w')
    | Raise e => (Raise e, w')
    end.

(** The [except] clauses of [process_chat]. *)
Definition process_chat_except (e : exn) : M (Frame * World) unit :=
  match is_flood_wait e with
  | Some value => in_world (sleep value)
  | None => mret tt
  end.

(** The [finally] clause of [process_chat]: the coroutine of
    [update_telegram_link_last_check] is built and not awaited. *)
Definition process_chat_finally (last_check_at : datetime) : M (Frame * World) unit :=
  fr ← get_frame;
  in_world
    (call_without_await
       {| pu_link := f_telegram_link fr; pu_last_check_at := last_check_at;
          pu_last_message_id := f_max_id fr |}
       (update_telegram_link_last_check (f_telegram_link fr) last_check_at (f_max_id fr))).

(** [process_chat]: the object and the statistics it changes are returned. *)
Definition process_chat (self : TelegramParser) (telegram_link : TelegramLink)
    (stats : ParserStats) : M World (TelegramLink * ParserStats) :=
  match extract_chat telegram_link with
  | None => mret (telegram_link, stats)
  | Some chat =>
      if negb (truthy_chat chat) then mret (telegram_link, stats)
      else
        let max_id := default 0 (tl_last_message_id telegram_link) in
        last_check_at ← utcnow;
        run_frame
          (try_finally
             (try_except (process_chat_try self chat) process_chat_except)
             (process_chat_finally last_check_at))
          {| f_telegram_link := telegram_link; f_stats := stats;
             f_max_id := max_id; f_messages_in_chat := 0 |}
  end.

(** [self.process_chat(telegram_link, stats)] as [run] calls it: a coroutine
    on the store and on the statistics object it is handed.  The loop of
    [run] is written over any such coroutine, as it handles whatever the
    bound method raises. *)
Definition Poll : Type := TelegramLink -> M (ParserStats * World) unit.

Definition poll_of (self : TelegramParser) : Poll :=
  fun telegram_link '(stats, w) =>
    match process_chat self telegram_link stats w with
    | (Return (_, stats'), w') => (Return tt, (stats', w'))
    | (Raise e, w') => (Raise e, (stats, w'))
    end.

(** The [for] loop of [run] over the selected links.  Next to the set of
    inaccessible chats it gives the links it handed to [process_chat], in
    order, each with the exception the call raised, if any. *)
Fixpoint run_links (poll : Poll) (links : list TelegramLink)
    (inaccessible_chats : gset (option string))
    : M (ParserStats * World) (gset (option string) * list (TelegramLink * option exn)) :=
  match links with
  | [] => mret (inaccessible_chats, [])
  | telegram_link :: rest =>
      if bool_decide (tl_link telegram_link ∈ inaccessible_chats)
      then run_links poll rest inaccessible_chats
      else
        _ ← modify (fun s : ParserStats * World => (incr_chats_count (fst s), snd s));
        '(inaccessible_chats, raised) ←
          try_except
            (_ ← poll telegram_link;
             mret (if bool_decide (tl_link telegram_link ∈ inaccessible_chats)
                   then inaccessible_chats ∖ {[ tl_link telegram_link ]}
                   else inaccessible_chats, None))
            (fun e => mret ({[ tl_link telegram_link ]} ∪ inaccessible_chats, Some e));
        '(inaccessible_chats, polled) ← run_links poll rest inaccessible_chats;
        mret (inaccessible_chats, (telegram_link, raised) :: polled)
  end.

(** One pass through the body of the [while True] loop of [run]. *)
Definition run_iteration (self : TelegramParser) (poll : Poll)
    (exclude_unknown_chats : bool) (inaccessible_chats : gset (option string))
    : M World (gset (option string) * list (TelegramLink * option exn)) :=
  now ← utcnow;
  let stats := new_stats (session_name self) exclude_unknown_chats now in
  links ← get_tg_links exclude_unknown_chats (Some (session_name self));
  match links with
  | [] => _ ← sleep 300; mret (inaccessible_chats, [])
  | _ :: _ =>
      fun w =>
        match run_links poll links inaccessible_chats (stats, w) with
        | (Return r, (_, w')) => (sleep (PAUSE_AFTER_FULL_PARSING (config self)) ≫= (fun _ => mret r)) w'
        | (Raise e, (_, w')) => (Raise e, w')
        end
  end.

(** The first [n] passes of the loop of [run], which never ends on its own.
    The set of inaccessible chats is created once, before the loop; the
    result lists, per pass, the links that were handed to [process_chat]. *)
Fixpoint run_loop (self : TelegramParser) (poll : Poll) (exclude_unknown_chats : bool)
    (n : nat) (inaccessible_chats : gset (option string))
    : M World (gset (option string) * list (list (TelegramLink * option exn))) :=
  match n with
  | O => mret (inaccessible_chats, [])
  | S n' =>
      '(inaccessible_chats, polled) ←
        run_iteration self poll exclude_unknown_chats inaccessible_chats;
      '(inaccessible_chats, trace) ←
        run_loop self poll exclude_unknown_chats n' inaccessible_chats;
      mret (inaccessible_chats, polled :: trace)
  end.

(** [run] with the coroutine that stands for [self.process_chat] left open. *)
Definition run_with (self : TelegramParser) (poll : Poll) (exclude_unknown_chats : bool)
    (n : nat) : M World (gset (option string) * list (list (TelegramLink * option exn))) :=
  let inaccessible_chats : gset (option string) := ∅ in
  run_loop self poll exclude_unknown_chats n inaccessible_chats.

Definition run (self : TelegramParser) (exclude_unknown_chats : bool) (n : nat)
    : M World (gset (option string) * list (list (TelegramLink * option exn))) :=
  run_with self (poll_of self) exclude_unknown_chats n.

End Program.

(** ** Vocabulary of the statements *)

(** Changes to the caches only. *)
Record only_caches (w w' : World) : Prop := {
  oc_now : w_now w' = w_now w;
  oc_links : w_telegram_links w' = w_telegram_links w;
  oc_messages : w_messages w' = w_messages w;
  oc_category_message : w_category_message w' = w_category_message w;
  oc_keywords : w_keywords w' = w_keywords w;
  oc_categories : w_categories w' = w_categories w;
  oc_ctl : w_category_telegram_link w' = w_category_telegram_link w;
  oc_uuids : w_uuids w' = w_uuids w;
  oc_draws : w_draws w' = w_draws w;
  oc_never_awaited : w_never_awaited w' = w_never_awaited w
}.

(** The cursor the store holds for a source. *)
Definition cursor_of (id : string) (w : World) : option (option Z) :=
  tl_last_message_id <$> (w_telegram_links w !! id).

(** What the loop of [process_chat] keeps true of its local variables and
    of the store: the in-memory cursor does not go below [m0], the object
    keeps its key and its stored cursor [c0], the row of the source holds
    [c0], and nothing is added to the coroutines that were never awaited. *)
Definition poll_inv (id0 : string) (c0 : option Z) (m0 : Z) (na : list PendingUpdate)
    (s : Frame * World) : Prop :=
  m0 <= f_max_id (fst s) /\
  tl_id (f_telegram_link (fst s)) = id0 /\
  tl_last_message_id (f_telegram_link (fst s)) = c0 /\
  cursor_of id0 (snd s) = Some c0 /\
  w_never_awaited (snd s) = na.

(** The order of the query of [get_tg_links]: a polled source comes before
    a source polled later and before every source that was never polled. *)
Definition polled_first (a b : TelegramLink) : Prop :=
  match tl_last_check_at a, tl_last_check_at b with
  | Some ta, Some tb => ta <= tb
  | Some _, None => True
  | None, Some _ => False
  | None, None => True
  end.

(** Every row of [telegram_links] sits under its own primary key. *)
Definition well_keyed (w : World) : Prop :=
  forall k t, w_telegram_links w !! k = Some t -> tl_id t = k.

(** What the loop of [process_chat] keeps true of its counters, from the
    statistics [stats0] and the store [w0] it started with: the relevant
    messages counted are the rows added, they are no more than the messages
    seen, and those are no more than the turns of the loop and the limit. *)
Definition count_inv (stats0 : ParserStats) (w0 : World) (limit : Z) (s : Frame * World) : Prop :=
  let stats := f_stats (fst s) in
  let seen := st_message_count stats - st_message_count stats0 in
  let kept := st_relevant_messages stats - st_relevant_messages stats0 in
  0 <= f_messages_in_chat (fst s) /\
  0 <= kept /\ kept <= seen /\ seen <= Z.min (f_messages_in_chat (fst s)) limit /\
  kept = Z.of_nat (length (w_messages (snd s))) - Z.of_nat (length (w_messages w0)).

(** ** A concrete runtime, store and platform

    Stand-ins for the runtime and the libraries, and a small store, on which
    the definitions above are evaluated in the examples below. *)

Module Sample.

Definition lower_ascii (c : ascii) : ascii :=
  let n := nat_of_ascii c in
  if (Nat.leb 65 n && Nat.leb n 90)%bool then ascii_of_nat (n + 32) else c.

(** [str.lower] on ASCII text. *)
Fixpoint ascii_lower (s : string) : string :=
  match s with
  | EmptyString => EmptyString
  | String c s' => String (lower_ascii c) (ascii_lower s')
  end.

(** Markup is left as it is, and two texts score 1 when they are equal and 0
    otherwise; two empty texts have no vocabulary. *)
Definition runtime : Runtime := {|
  str_lower := ascii_lower;
  bs_text := fun s => s;
  tfidf_cosine := fun a b =>
    if negb (truthy_str a) && negb (truthy_str b) then inl (OtherError "empty vocabulary")
    else if String.eqb a b then inr 1%Q else inr 0%Q;
  uuid4 := fun n => "uuid-" +:+ pretty n;
  random_uniform := fun _ => 1;
  func_rand := fun l => l;
  MAX_LEVEL_OF_DUPLICATE_SIMILARITY := (7 # 10)%Q
|}.

Definition keyword (text : string) (category : Z) : Keyword :=
  {| kw_id := text; kw_keyword := text; kw_category_id := category |}.

(** A source polled before, with cursor 10. *)
Definition source : TelegramLink :=
  {| tl_id := "L1"; tl_link := Some "t.me/chan"; tl_chat_id := Some (-100);
     tl_last_check_at := Some 50; tl_last_message_id := Some 10;
     tl_invalid := None; tl_parser_account := None |}.

(** A bound source that was never polled. *)
Definition fresh_source : TelegramLink :=
  {| tl_id := "L2"; tl_link := Some "t.me/other"; tl_chat_id := Some (-200);
     tl_last_check_at := None; tl_last_message_id := None;
     tl_invalid := None; tl_parser_account := None |}.

(** A source that is not bound to a chat yet. *)
Definition unbound_source : TelegramLink :=
  {| tl_id := "L3"; tl_link := Some "t.me/+invite"; tl_chat_id := None;
     tl_last_check_at := None; tl_last_message_id := None;
     tl_invalid := None; tl_parser_account := None |}.

Definition chat : Chat := {| chat_ident := -100; chat_title := "Chan" |}.

Definition message (id : Z) (text : string) : Message :=
  {| msg_id := id; msg_text := Some text; msg_date := Some 5; msg_chat := Some chat;
     msg_from_user := Some {| user_ident := 9; user_username := Some "bob" |};
     msg_link := "https://t.me/chan/1" |}.

(** A platform on which every chat is an accessible channel with the given
    history. *)
Definition platform (history : list Message) : Client :=
  {| get_chat := fun _ =>
       inr {| info_id := -100; info_type := "channel"; info_is_accessible := true |};
     join_chat := fun _ => None;
     get_chat_history := fun _ _ _ => (history, None) |}.

Definition parser (history : list Message) : TelegramParser :=
  {| client := platform history; config := default_config; session_name := "me" |}.

(** A store at time 1000 with the given keywords of the global category 7
    and the given sources, and no message. *)
Definition store (keywords : list Keyword) (sources : list TelegramLink) : World :=
  {| w_now := 1000;
     w_telegram_links := list_to_map (map (fun t => (tl_id t, t)) sources);
     w_messages := []; w_category_message := [];
     w_keywords := keywords;
     w_categories := [ {| cat_id := 7; cat_name := "offers"; cat_global_search := 1 |} ];
     w_category_telegram_link := [ {| ctl_category_id := 7; ctl_telegram_link_id := "L1" |} ];
     w_check_duplicate_cache := []; w_keyword_rows_cache := [];
     w_uuids := 0; w_draws := 0; w_never_awaited := [] |}.

(** The store with the keyword [sale]. *)
Definition world (sources : list TelegramLink) : World :=
  store [keyword "sale" 7] sources.

Definition stats : ParserStats := new_stats "me" true 1000.

(** A text whose part before the anchor is [sale now ]. *)
Definition repeated_text : string :=
  "sale now " +:+ anchor_open +:+ "https://shop" +:+ dquote +:+ ">shop</a>".

(** A second source that is not bound to a chat yet. *)
Definition unbound_source2 : TelegramLink :=
  {| tl_id := "L4"; tl_link := Some "t.me/+other"; tl_chat_id := None;
     tl_last_check_at := None; tl_last_message_id := None;
     tl_invalid := None; tl_parser_account := None |}.

(** A source whose link names no chat. *)
Definition bare_source : TelegramLink :=
  {| tl_id := "L5"; tl_link := Some "t.me/"; tl_chat_id := Some (-300);
     tl_last_check_at := None; tl_last_message_id := None;
     tl_invalid := None; tl_parser_account := None |}.

(** A platform on which resolving a chat raises [e]. *)
Definition failing_platform (e : exn) : Client :=
  {| get_chat := fun _ => inl e;
     join_chat := fun _ => None;
     get_chat_history := fun _ _ _ => ([], None) |}.

Definition failing_parser (e : exn) : TelegramParser :=
  {| client := failing_platform e; config := default_config; session_name := "me" |}.

(** A row of the messages table with the given text and time of storing. *)
Definition stored (text : string) (created_at : datetime) : MessageRow :=
  {| row_id := "uuid-stored"; row_text := text;
     row_created_at := created_at; row_updated_at := created_at;
     row_from_user_id := None; row_from_username := None;
     row_chat_id := Some (-100); row_link := None; row_date := None |}.

(** The store of [world] holding the given rows of messages. *)
Definition world_with_rows (rows : list MessageRow) : World :=
  with_messages rows [] 0 (world [source]).

(** A text that starts with an anchor: nothing is left of it before the
    anchor. *)
Definition anchor_only_text : string :=
  anchor_open +:+ "https://shop" +:+ dquote +:+ ">shop</a>".

End Sample.

(** * Properties *)

(** ** Strings *)

Lemma append_nil_l (s : string) : EmptyString +:+ s = s.
Proof. reflexivity. Qed.

Lemma append_cons (c : ascii) (a b : string) : String c a +:+ b = String c (a +:+ b).
Proof. reflexivity. Qed.

Lemma append_assoc (a b c : string) : (a +:+ b) +:+ c = a +:+ (b +:+ c).
Proof.
  induction a as [|x a IH]; [reflexivity|].
  by rewrite !append_cons, IH.
Qed.

Lemma append_length (a b : string) :
  String.length (a +:+ b) = (String.length a + String.length b)%nat.
Proof.
  induction a as [|x a IH]; [reflexivity|].
  rewrite append_cons. simpl. by rewrite IH.
Qed.

Lemma prefix_spec (p s : string) :
  String.prefix p s = true <-> exists t, s = p +:+ t.
Proof.
  revert s. induction p as [|a p IH]; intros s.
  - split; [intros _; exists s; reflexivity | intros _; by destruct s].
  - destruct s as [|b s]; simpl.
    + split; [done | intros [t Ht]; rewrite append_cons in Ht; discriminate].
    + destruct (ascii_dec a b) as [->|Hne].
      * rewrite IH. split; intros [t Ht]; exists t.
        -- by rewrite append_cons, Ht.
        -- rewrite append_cons in Ht. by injection Ht.
      * split; [done | intros [t Ht]; rewrite append_cons in Ht; congruence].
Qed.

Lemma str_in_nil (needle : string) :
  str_in needle EmptyString = String.prefix needle EmptyString || false.
Proof. reflexivity. Qed.

Lemma str_in_cons (needle : string) (c : ascii) (hay : string) :
  str_in needle (String c hay) = String.prefix needle (String c hay) || str_in needle hay.
Proof. reflexivity. Qed.

Lemma str_in_spec (needle hay : string) :
  str_in needle hay = true <-> exists pre post, hay = pre +:+ needle +:+ post.
Proof.
  induction hay as [|c hay IH].
  - rewrite str_in_nil, orb_false_r, prefix_spec. split.
    + intros [t Ht]. by exists EmptyString, t.
    + intros [pre [post H]]. destruct pre; [by exists post | rewrite append_cons in H; discriminate].
  - rewrite str_in_cons, orb_true_iff, prefix_spec, IH. split.
    + intros [[t Ht] | [pre [post H]]].
      * by exists EmptyString, t.
      * exists (String c pre), post. by rewrite append_cons, H.
    + intros [pre [post H]]. destruct pre as [|d pre].
      * left. by exists post.
      * right. exists pre, post. rewrite append_cons in H. congruence.
Qed.

Section Proofs.

Context `{rt : Runtime}.

Lemma find_in_rows_fold (rows : list Keyword) (low : string) (acc : gset Z) (c : Z) :
  c ∈ fold_left
      (fun (categories : gset Z) keyword_row =>
         if str_in (kw_keyword keyword_row) low
         then {[ kw_category_id keyword_row ]} ∪ categories
         else categories) rows acc
  <-> c ∈ acc \/ exists k, k ∈ rows /\ kw_category_id k = c /\ str_in (kw_keyword k) low = true.
Proof.
  revert acc. induction rows as [|k rows IH]; intros acc; simpl.
  - split; [by left | intros [H | [k [Hk _]]]; [done | by apply elem_of_nil in Hk]].
  - rewrite IH. split.
    + intros [H | [k' [Hin [Hc Hm]]]].
      * destruct (str_in (kw_keyword k) low) eqn:E.
        -- apply elem_of_union in H as [H | H]; [|by left].
           apply elem_of_singleton in H. right. exists k. split; [by left | done].
        -- by left.
      * right. exists k'. split; [by right | done].
    + intros [H | [k' [Hin [Hc Hm]]]].
      * left. destruct (str_in (kw_keyword k) low); [apply elem_of_union; by right | done].
      * apply elem_of_cons in Hin as [Heq | Hin]; [subst k'|].
        left. rewrite Hm. apply elem_of_union. left. by apply elem_of_singleton.
        right. by exists k'.
Qed.

Lemma find_in_rows_spec (rows : list Keyword) (text : string) (c : Z) :
  c ∈ find_in_rows rows text <->
  text <> EmptyString /\
  exists k, k ∈ rows /\ kw_category_id k = c /\ str_in (kw_keyword k) (str_lower text) = true.
Proof.
  unfold find_in_rows. destruct text as [|a text]; simpl.
  - split; [intros H; by apply not_elem_of_empty in H | intros [H _]; done].
  - rewrite find_in_rows_fold. split.
    + intros [H | H]; [by apply not_elem_of_empty in H | done].
    + intros [_ H]. by right.
Qed.

Lemma only_caches_refl w : only_caches w w.
Proof. by split. Qed.

Lemma only_caches_trans w1 w2 w3 :
  only_caches w1 w2 -> only_caches w2 w3 -> only_caches w1 w3.
Proof. intros [] []. split; congruence. Qed.

Lemma bind_run {St A B} (m : M St A) (f : A -> M St B) (s : St) :
  (m ≫= f) s =
  match m s with
  | (Return a, s') => f a s'
  | (Raise e, s') => (Raise e, s')
  end.
Proof. reflexivity. Qed.

Lemma alru_cache_run {K V} `{EqDecision K} (ttl : Z)
    (getc : World -> list (CacheEntry K V)) (setc : list (CacheEntry K V) -> World -> World)
    (f : K -> M World V) (k : K) (w : World) :
  alru_cache ttl getc setc f k w =
  let live := cache_live (w_now w) (getc w) in
  match cache_lookup k live with
  | Some e => (Return (ce_value e), setc (e :: cache_remove k live) w)
  | None =>
      match f k (setc live w) with
      | (Return v, w') =>
          (Return v,
           setc (take alru_maxsize
                   ({| ce_key := k; ce_value := v; ce_expires := w_now w' + ttl |} :: getc w')) w')
      | (Raise e, w') => (Raise e, w')
      end
  end.
Proof.
  unfold alru_cache. rewrite bind_run. simpl.
  destruct (cache_lookup k (cache_live (w_now w) (getc w))); [reflexivity|].
  rewrite bind_run. simpl. rewrite bind_run.
  destruct (f k _) as [[v|e] w']; reflexivity.
Qed.

Lemma check_duplicate_body_returns (text : string) (w : World) :
  exists passed, check_duplicate_body text w = (Return passed, w).
Proof.
  unfold check_duplicate_body. destruct (negb (truthy_str text)); [by exists true|].
  unfold try_except. rewrite bind_run. simpl.
  destruct (scan_sent_texts _ _) as [e|passed]; simpl; eauto.
Qed.

Lemma check_duplicate_returns (text : string) (w : World) :
  exists passed w', check_duplicate text w = (Return passed, w') /\ only_caches w w'.
Proof.
  unfold check_duplicate. rewrite alru_cache_run. simpl.
  destruct (cache_lookup _ _) as [e|].
  - eexists _, _. split; [reflexivity|]. by split.
  - destruct (check_duplicate_body_returns text
                (with_check_duplicate_cache
                   (cache_live (w_now w) (w_check_duplicate_cache w)) w)) as [passed Hb].
    rewrite Hb. eexists _, _. split; [reflexivity|]. by split.
Qed.

Lemma get_keyword_rows_returns (telegram_link_id : string) (w : World) :
  exists rows w', get_keyword_rows telegram_link_id w = (Return rows, w') /\ only_caches w w'.
Proof.
  unfold get_keyword_rows. rewrite alru_cache_run. simpl.
  destruct (cache_lookup _ _) as [e|].
  - eexists _, _. split; [reflexivity|]. by split.
  - eexists _, _. split; [reflexivity|]. by split.
Qed.

Lemma find_message_categories_run (text : string) (telegram_link : TelegramLink) (w : World) :
  exists rows w',
    get_keyword_rows (tl_id telegram_link) w = (Return rows, w') /\
    find_message_categories text telegram_link w = (Return (find_in_rows rows text), w') /\
    only_caches w w'.
Proof.
  destruct (get_keyword_rows_returns (tl_id telegram_link) w) as (rows & w' & Hr & Hoc).
  exists rows, w'. split; [done|]. split; [|done].
  unfold find_message_categories. by rewrite bind_run, Hr.
Qed.

Lemma save_chat_id_run (telegram_link : TelegramLink) (chat_id : Z)
    (session : option string) (w : World) :
  save_chat_id telegram_link chat_id session w =
  if truthy_opt truthy_int (tl_chat_id telegram_link) then (Return telegram_link, w)
  else
    let telegram_link' := set_parser_account session (set_chat_id (Some chat_id) telegram_link) in
    (Return telegram_link',
     with_telegram_links (<[ tl_id telegram_link := telegram_link' ]> (w_telegram_links w)) w).
Proof.
  unfold save_chat_id. destruct (truthy_opt truthy_int (tl_chat_id telegram_link)); reflexivity.
Qed.

Lemma process_message_run (message : Message) (chat_id : Z) (stats : ParserStats)
    (telegram_link : TelegramLink) (w : World) (text : string) :
  msg_text message = Some text -> text <> EmptyString ->
  process_message message chat_id stats telegram_link w =
  match check_duplicate text w with
  | (Return passed, w1) =>
      if negb passed then (Return (None, stats), w1)
      else
        match find_message_categories text telegram_link w1 with
        | (Return categories, w2) =>
            if bool_decide (categories = ∅) then (Return (Some (msg_id message), stats), w2)
            else
              match get_text_with_link message with
              | inl _ => (Return (Some (msg_id message), stats), w2)
              | inr text_with_link =>
                  match _save_relevant_message message text_with_link categories w2 with
                  | (Return _, w3) =>
                      (Return (Some (msg_id message), incr_relevant_messages stats), w3)
                  | (Raise e, w3) => (Raise e, w3)
                  end
              end
        | (Raise e, w2) => (Raise e, w2)
        end
  | (Raise e, w1) => (Raise e, w1)
  end.
Proof.
  intros Ht Hne. unfold process_message. rewrite Ht.
  destruct text as [|c text]; [done|]. unfold truthy_str, negb.
  rewrite bind_run. destruct (check_duplicate _ w) as [[passed|e] w1]; [|reflexivity].
  destruct passed; simpl negb; cbv iota; [|reflexivity].
  rewrite bind_run.
  destruct (find_message_categories _ _ w1) as [[categories|e] w2]; [|reflexivity].
  destruct (bool_decide (categories = ∅)); [reflexivity|].
  destruct (get_text_with_link message) as [e|twl]; [reflexivity|].
  rewrite bind_run.
  destruct (_save_relevant_message _ _ _ w2) as [[[]|e] w3]; reflexivity.
Qed.

Lemma process_chat_step_run (self : TelegramParser) (message : Message) (fr : Frame) (w : World) :
  process_chat_step self message (fr, w) =
  let n := f_messages_in_chat fr + 1 in
  let fr0 := {| f_telegram_link := f_telegram_link fr; f_stats := f_stats fr;
                f_max_id := f_max_id fr; f_messages_in_chat := n |} in
  if MAX_MESSAGES_PER_CHAT (config self) <? n then (Return false, (fr0, w))
  else
    match msg_chat message with
    | None => (Raise AttributeError, (fr0, w))
    | Some chat =>
        match save_chat_id (f_telegram_link fr) (chat_ident chat) (Some (session_name self)) w with
        | (Raise e, w1) => (Raise e, (fr0, w1))
        | (Return tl1, w1) =>
            let stats := incr_message_count (f_stats fr) in
            match process_message message (chat_ident chat) stats tl1 w1 with
            | (Raise e, w2) =>
                (Raise e, ({| f_telegram_link := tl1; f_stats := stats;
                              f_max_id := f_max_id fr; f_messages_in_chat := n |}, w2))
            | (Return (new_max_id, stats'), w2) =>
                (Return true,
                 (if truthy_opt truthy_int new_max_id
                  then {| f_telegram_link := set_last_check_at (Some (w_now w2)) tl1;
                          f_stats := stats';
                          f_max_id := Z.max (default 0 new_max_id) (f_max_id fr);
                          f_messages_in_chat := n |}
                  else {| f_telegram_link := tl1; f_stats := stats';
                          f_max_id := f_max_id fr; f_messages_in_chat := n |},
                  with_now (w_now w2 + Z.max 0 (random_uniform (w_draws w2)))
                    (with_draws (S (w_draws w2)) w2)))
            end
        end
    end.
Proof.
  unfold process_chat_step. rewrite bind_run. simpl fst. cbv beta iota zeta.
  unfold get_frame at 1. simpl fst. rewrite bind_run. unfold set_frame at 1. simpl snd.
  destruct (MAX_MESSAGES_PER_CHAT (config self) <? f_messages_in_chat fr + 1); [reflexivity|].
  destruct (msg_chat message) as [chat|]; [|reflexivity].
  rewrite bind_run. unfold in_world at 1.
  destruct (save_chat_id _ _ _ w) as [[tl1|e] w1]; [|reflexivity].
  rewrite bind_run. unfold set_frame at 1. simpl snd.
  rewrite bind_run. unfold in_world at 1.
  destruct (process_message _ _ _ _ w1) as [[[new_max_id stats']|e] w2]; [|reflexivity].
  rewrite bind_run. unfold set_frame at 1. simpl snd.
  rewrite bind_run.
  destruct (truthy_opt truthy_int new_max_id); reflexivity.
Qed.

Lemma anchor_line_has_link (link title : string) :
  str_in link (anchor_line link title) = true.
Proof.
  apply str_in_spec. unfold anchor_line.
  exists (newline +:+ newline +:+ "<a href=" +:+ dquote),
         (dquote +:+ ">" +:+ "Переслано из " +:+ title +:+ "</a>").
  by rewrite !append_assoc.
Qed.

Lemma anchor_line_has_title (link title : string) :
  str_in title (anchor_line link title) = true.
Proof.
  apply str_in_spec. unfold anchor_line.
  exists (newline +:+ newline +:+ "<a href=" +:+ dquote +:+ link +:+ dquote +:+ ">"
          +:+ "Переслано из "), "</a>"%string.
  by rewrite !append_assoc.
Qed.

Lemma anchor_line_length (link title : string) :
  (0 < String.length (anchor_line link title))%nat.
Proof. unfold anchor_line. rewrite append_length. simpl. lia. Qed.

Lemma attribution_line_has_username (username : string) :
  str_in username (attribution_line username) = true.
Proof.
  apply str_in_spec. unfold attribution_line.
  exists (newline +:+ newline +:+ "👉 @"), EmptyString.
  rewrite !append_assoc. f_equal. f_equal. f_equal.
  induction username as [|c u IH]; [reflexivity|]. by rewrite append_cons, <- IH.
Qed.

(** What [get_text_with_link] builds. *)
Lemma get_text_with_link_shape (message : Message) (text_with_link : string) :
  get_text_with_link message = inr text_with_link ->
  exists chat tail,
    msg_chat message = Some chat /\
    text_with_link =
      default EmptyString (msg_text message)
      +:+ anchor_line (msg_link message) (chat_title chat) +:+ tail /\
    match public_username message with
    | Some username => tail = attribution_line username
    | None => tail = EmptyString
    end.
Proof.
  unfold get_text_with_link. destruct (msg_chat message) as [chat|]; [|done].
  destruct (public_username message) as [username|]; intros [= <-].
  - exists chat, (attribution_line username). by rewrite append_assoc.
  - exists chat, EmptyString. split; [done|]. split; [|done].
    rewrite <- append_assoc.
    generalize (default EmptyString (msg_text message)
                +:+ anchor_line (msg_link message) (chat_title chat)).
    intros s. induction s as [|c s IH]; [reflexivity|]. by rewrite append_cons, <- IH.
Qed.

Lemma _save_relevant_message_run (message : Message) (text_with_link : string)
    (categories : gset Z) (chat : Chat) (w : World) :
  msg_chat message = Some chat ->
  exists w',
    _save_relevant_message message text_with_link categories w = (Return tt, w') /\
    w_telegram_links w' = w_telegram_links w /\
    w_never_awaited w' = w_never_awaited w /\
    w_now w' = w_now w /\ w_draws w' = w_draws w /\
    (w_messages w' = w_messages w \/
     exists row, w_messages w' = w_messages w ++ [row] /\ row_text row = text_with_link).
Proof.
  intros Hc. unfold _save_relevant_message. rewrite Hc.
  destruct (negb (truthy_str text_with_link) || bool_decide (categories = ∅)).
  - exists w. repeat split; auto.
  - eexists. split; [reflexivity|]. repeat split; auto.
    right. eexists. split; reflexivity.
Qed.

(** [process_message] returns, leaves the sources alone, and stores at most
    one row, whose text is the one [get_text_with_link] built. *)
Lemma process_message_effect (message : Message) (chat_id : Z) (stats : ParserStats)
    (telegram_link : TelegramLink) (w : World) :
  exists r w',
    process_message message chat_id stats telegram_link w = (Return r, w') /\
    w_telegram_links w' = w_telegram_links w /\
    w_never_awaited w' = w_never_awaited w /\
    w_now w' = w_now w /\ w_draws w' = w_draws w /\
    (w_messages w' = w_messages w \/
     exists text text_with_link row,
       msg_text message = Some text /\
       get_text_with_link message = inr text_with_link /\
       w_messages w' = w_messages w ++ [row] /\ row_text row = text_with_link).
Proof.
  destruct (msg_text message) as [text|] eqn:Ht.
  2:{ exists (None, stats), w. unfold process_message. rewrite Ht. repeat split; auto. }
  destruct (decide (text = EmptyString)) as [->|Hne].
  { exists (None, stats), w. unfold process_message. rewrite Ht. repeat split; auto. }
  rewrite (process_message_run _ _ _ _ _ text Ht Hne).
  destruct (check_duplicate_returns text w) as (passed & w1 & -> & Hoc1).
  destruct passed; simpl negb; cbv iota.
  2:{ eexists _, _. split; [reflexivity|]. destruct Hoc1. repeat split; auto. }
  destruct (find_message_categories_run text telegram_link w1) as (rows & w2 & _ & -> & Hoc2).
  pose proof (only_caches_trans _ _ _ Hoc1 Hoc2) as [].
  destruct (bool_decide (find_in_rows rows text = ∅)).
  { eexists _, _. split; [reflexivity|]. repeat split; auto. }
  destruct (get_text_with_link message) as [e|twl] eqn:Hg.
  { eexists _, _. split; [reflexivity|]. repeat split; auto. }
  destruct (get_text_with_link_shape _ _ Hg) as (chat & tail & Hc & _).
  destruct (_save_relevant_message_run message twl (find_in_rows rows text) chat w2 Hc)
    as (w3 & -> & Hl & Hn & Hnow & Hd & Hm).
  eexists _, _. split; [reflexivity|].
  repeat split; try congruence.
  destruct Hm as [Hm | (row & Hm & Hrow)].
  - left. congruence.
  - right. exists text, twl, row. repeat split; auto. congruence.
Qed.

Lemma save_chat_id_effect (telegram_link : TelegramLink) (chat_id : Z)
    (session : option string) (w : World) :
  exists tl' w',
    save_chat_id telegram_link chat_id session w = (Return tl', w') /\
    tl_id tl' = tl_id telegram_link /\
    tl_last_message_id tl' = tl_last_message_id telegram_link /\
    (cursor_of (tl_id telegram_link) w = Some (tl_last_message_id telegram_link) ->
     cursor_of (tl_id telegram_link) w' = Some (tl_last_message_id telegram_link)) /\
    w_never_awaited w' = w_never_awaited w /\
    w_messages w' = w_messages w.
Proof.
  rewrite save_chat_id_run. destruct (truthy_opt _ _).
  - eexists _, _. by repeat split.
  - eexists _, _. split; [reflexivity|]. repeat split; auto.
    intros _. unfold cursor_of. simpl. by rewrite lookup_insert_eq.
Qed.

Lemma process_chat_step_inv id0 c0 m0 na (self : TelegramParser) (message : Message)
    (s s' : Frame * World) (r : result bool) :
  poll_inv id0 c0 m0 na s ->
  process_chat_step self message s = (r, s') ->
  poll_inv id0 c0 m0 na s'.
Proof.
  destruct s as [fr w]. intros (Hm & Hid & Hc & Hrow & Hna). simpl in *.
  rewrite process_chat_step_run. cbv zeta.
  destruct (_ <? _).
  { intros [= <- <-]. by repeat split. }
  destruct (msg_chat message) as [chat|].
  2:{ intros [= <- <-]. by repeat split. }
  destruct (save_chat_id_effect (f_telegram_link fr) (chat_ident chat)
              (Some (session_name self)) w)
    as (tl2 & w1 & -> & Hid2 & Hc2 & Hrow2 & Hna2 & _).
  rewrite Hid, Hc in *. specialize (Hrow2 Hrow).
  destruct (process_message_effect message (chat_ident chat)
              (incr_message_count (f_stats fr)) tl2 w1)
    as ([new_max_id stats'] & w2 & -> & Hl & Hn & _ & _ & _).
  intros [= <- <-].
  assert (cursor_of id0 w2 = Some c0) as Hrow3 by (unfold cursor_of in *; by rewrite Hl).
  destruct (truthy_opt truthy_int new_max_id); unfold poll_inv; simpl;
    repeat split; auto; try lia; congruence.
Qed.

Lemma process_messages_inv id0 c0 m0 na (self : TelegramParser) (messages : list Message)
    (s s' : Frame * World) (r : result unit) :
  poll_inv id0 c0 m0 na s ->
  process_messages self messages s = (r, s') ->
  poll_inv id0 c0 m0 na s'.
Proof.
  revert s. induction messages as [|message rest IH]; intros s Hinv; simpl.
  - by intros [= <- <-].
  - rewrite bind_run.
    destruct (process_chat_step self message s) as [[continue|e] s1] eqn:Hstep.
    + pose proof (process_chat_step_inv _ _ _ _ _ _ _ _ _ Hinv Hstep) as Hinv1.
      destruct continue; [by apply IH|]. by intros [= <- <-].
    + pose proof (process_chat_step_inv _ _ _ _ _ _ _ _ _ Hinv Hstep) as Hinv1.
      by intros [= <- <-].
Qed.

Lemma process_chat_try_inv id0 c0 m0 na (self : TelegramParser) (chat : ChatRef)
    (s s' : Frame * World) (r : result unit) :
  poll_inv id0 c0 m0 na s ->
  process_chat_try self chat s = (r, s') ->
  poll_inv id0 c0 m0 na s'.
Proof.
  intros Hinv. unfold process_chat_try. rewrite bind_run. unfold get_frame at 1.
  destruct (get_chat (client self) chat) as [e|chat_info].
  { destruct (is_bad_request e); by intros [= <- <-]. }
  cbv zeta.
  destruct (_ && negb (startswith _ _)); [by intros [= <- <-]|].
  rewrite bind_run.
  destruct (bool_decide _ && negb _).
  - destruct (join_chat _ _) as [e|].
    + by intros [= <- <-].
    + apply process_messages_inv. exact Hinv.
  - apply process_messages_inv. exact Hinv.
Qed.

(** The [try] statement of [process_chat] handles every exception, and its
    [finally] clause leaves one coroutine that is never awaited. *)
Lemma process_chat_statement_inv id0 c0 m0 na (self : TelegramParser) (chat : ChatRef)
    (last_check_at : datetime) (s : Frame * World) :
  poll_inv id0 c0 m0 na s ->
  exists fr' w',
    try_finally (try_except (process_chat_try self chat) process_chat_except)
      (process_chat_finally last_check_at) s = (Return tt, (fr', w')) /\
    poll_inv id0 c0 m0
      (na ++ [{| pu_link := f_telegram_link fr'; pu_last_check_at := last_check_at;
                 pu_last_message_id := f_max_id fr' |}]) (fr', w').
Proof.
  intros Hinv. unfold try_finally, try_except.
  destruct (process_chat_try self chat s) as [[[]|e] [fr1 w1]] eqn:Htry;
    pose proof (process_chat_try_inv _ _ _ _ _ _ _ _ _ Hinv Htry) as (Hm & Hid & Hc & Hrow & Hna);
    simpl in Hm, Hid, Hc, Hrow, Hna.
  - eexists _, _. split; [reflexivity|]. unfold poll_inv. simpl. by rewrite Hna.
  - unfold process_chat_except. destruct (is_flood_wait e) as [value|].
    + eexists _, _. split; [reflexivity|]. unfold poll_inv. simpl. by rewrite Hna.
    + eexists _, _. split; [reflexivity|]. unfold poll_inv. simpl. by rewrite Hna.
Qed.

(** Whatever the [try] block does, the statement ends without an exception:
    the two [except] clauses take every exception, and neither they nor the
    [finally] clause raise. *)
Lemma process_chat_statement_returns (body : M (Frame * World) unit)
    (last_check_at : datetime) (s : Frame * World) :
  exists s',
    try_finally (try_except body process_chat_except)
      (process_chat_finally last_check_at) s = (Return tt, s').
Proof.
  unfold try_finally, try_except.
  destruct (body s) as [[[]|e] [fr1 w1]].
  - by eexists.
  - unfold process_chat_except. destruct (is_flood_wait e); by eexists.
Qed.

(** [process_chat] returns on every input: no exception leaves it. *)
Lemma process_chat_returns (self : TelegramParser) (telegram_link : TelegramLink)
    (stats : ParserStats) (w : World) :
  exists r w', process_chat self telegram_link stats w = (Return r, w').
Proof.
  unfold process_chat. destruct (extract_chat telegram_link) as [chat|]; [|by eexists _, _].
  destruct (negb (truthy_chat chat)); [by eexists _, _|].
  rewrite bind_run. unfold utcnow at 1. unfold run_frame.
  match goal with |- context [try_finally ?b ?f ?s] =>
    destruct (process_chat_statement_returns (process_chat_try self chat) (w_now w) s)
      as ([fr' w'] & ->)
  end.
  by eexists _, _.
Qed.

(** The store's cursor of a source is the same after [process_chat], and
    the cursor in the coroutine that is left unawaited is not below the
    stored one. *)
Lemma process_chat_effect (self : TelegramParser) (telegram_link : TelegramLink)
    (stats : ParserStats) (w : World) :
  cursor_of (tl_id telegram_link) w = Some (tl_last_message_id telegram_link) ->
  exists r w',
    process_chat self telegram_link stats w = (Return r, w') /\
    cursor_of (tl_id telegram_link) w' = Some (tl_last_message_id telegram_link) /\
    (w_never_awaited w' = w_never_awaited w \/
     exists pu,
       w_never_awaited w' = w_never_awaited w ++ [pu] /\
       tl_id (pu_link pu) = tl_id telegram_link /\
       pu_last_check_at pu = w_now w /\
       default 0 (tl_last_message_id telegram_link) <= pu_last_message_id pu).
Proof.
  intros Hrow. unfold process_chat.
  destruct (extract_chat telegram_link) as [chat|]; [|eexists _, _; by repeat split; auto].
  destruct (negb (truthy_chat chat)); [eexists _, _; by repeat split; auto|].
  rewrite bind_run. unfold utcnow at 1. unfold run_frame.
  match goal with |- context [try_finally ?b ?f ?s] =>
    destruct (process_chat_statement_inv (tl_id telegram_link)
                (tl_last_message_id telegram_link)
                (default 0 (tl_last_message_id telegram_link))
                (w_never_awaited w) self chat (w_now w) s)
      as (fr' & w' & -> & Hm & Hid & Hc & Hrow' & Hna)
  end.
  { unfold poll_inv. simpl. repeat split; auto. lia. }
  simpl in *. eexists _, _. split; [reflexivity|]. split; [done|].
  right. eexists. split; [exact Hna|]. simpl. by repeat split.
Qed.

(** ** The text of a persisted message *)

(** C10.  When [process_message] persists a message, the stored text is the
    message text, then the anchor line, which contains the permalink and the
    chat title, then a tail.  When the message has an author whose username
    is set and not empty, the tail is the attribution line with that
    username; when the message has no author, or the author has no username
    or the empty one, the tail is empty.  The attribution line is not empty,
    so the stored text ends with it exactly in the first case.  The message
    text is a proper prefix of the stored text. *)
Theorem persisted_text_shape (message : Message) (chat_id : Z) (stats : ParserStats)
    (telegram_link : TelegramLink) (w w' : World) (r : result (option Z * ParserStats)) :
  process_message message chat_id stats telegram_link w = (r, w') ->
  w_messages w' <> w_messages w ->
  exists text chat row tail,
    msg_text message = Some text /\
    msg_chat message = Some chat /\
    w_messages w' = w_messages w ++ [row] /\
    row_text row = text +:+ anchor_line (msg_link message) (chat_title chat) +:+ tail /\
    String.prefix text (row_text row) = true /\
    (String.length text < String.length (row_text row))%nat /\
    str_in (msg_link message) (anchor_line (msg_link message) (chat_title chat)) = true /\
    str_in (chat_title chat) (anchor_line (msg_link message) (chat_title chat)) = true /\
    ((exists user username,
        msg_from_user message = Some user /\
        user_username user = Some username /\
        username <> EmptyString /\
        tail = attribution_line username /\
        tail <> EmptyString /\
        str_in username tail = true)
     \/
     (tail = EmptyString /\
      (msg_from_user message = None \/
       exists user,
         msg_from_user message = Some user /\
         (user_username user = None \/ user_username user = Some EmptyString)))).
Proof.
  intros Hrun Hnew.
  destruct (process_message_effect message chat_id stats telegram_link w)
    as (r0 & w0 & Hrun0 & _ & _ & _ & _ & Hm).
  rewrite Hrun in Hrun0. injection Hrun0 as -> ->.
  destruct Hm as [Hm | (text & twl & row & Ht & Hg & Hm & Hrow)]; [done|].
  destruct (get_text_with_link_shape _ _ Hg) as (chat & tail & Hc & Htwl & Htail).
  rewrite Ht in Htwl. simpl in Htwl.
  exists text, chat, row, tail. rewrite Hrow, Htwl.
  split; [done|]. split; [done|]. split; [done|]. split; [done|].
  split; [apply prefix_spec; by eexists|].
  split; [rewrite !append_length; pose proof (anchor_line_length (msg_link message) (chat_title chat)); lia|].
  split; [apply anchor_line_has_link|]. split; [apply anchor_line_has_title|].
  unfold public_username in Htail.
  destruct (msg_from_user message) as [user|]; [|right; split; [done | by left]].
  destruct (user_username user) as [username|] eqn:Hu.
  2:{ right. split; [done|]. right. exists user. split; [done | by left]. }
  destruct username as [|c username]; simpl in Htail.
  { right. split; [done|]. right. exists user. split; [done | by right]. }
  left. exists user, (String c username). rewrite Htail.
  split; [done|]. split; [done|]. split; [done|]. split; [done|].
  split; [|apply attribution_line_has_username].
  unfold attribution_line, newline. by rewrite !append_cons.
Qed.

(** ** The cursor and the two ways a message is dropped *)

(** C8.  One turn of the loop of [process_chat] on a message that has a text:
    when the duplicate check rejects the text, the in-memory cursor keeps its
    value and nothing is stored; when the check passes and the categorizer
    finds no category, nothing is stored and the in-memory cursor becomes the
    maximum of the message id and its former value.  The id of a message of
    the platform is not 0. *)
Theorem process_chat_step_cursor (self : TelegramParser) (message : Message)
    (text : string) (chat : Chat) (fr : Frame) (w : World) :
  msg_text message = Some text ->
  text <> EmptyString ->
  msg_chat message = Some chat ->
  msg_id message <> 0 ->
  f_messages_in_chat fr + 1 <= MAX_MESSAGES_PER_CHAT (config self) ->
  exists tl1 w1 passed w2 categories w3 fr' w',
    save_chat_id (f_telegram_link fr) (chat_ident chat) (Some (session_name self)) w
      = (Return tl1, w1) /\
    check_duplicate text w1 = (Return passed, w2) /\
    find_message_categories text tl1 w2 = (Return categories, w3) /\
    process_chat_step self message (fr, w) = (Return true, (fr', w')) /\
    (passed = false ->
       f_max_id fr' = f_max_id fr /\ w_messages w' = w_messages w) /\
    (passed = true -> categories = ∅ ->
       w_messages w' = w_messages w /\
       f_max_id fr' = Z.max (msg_id message) (f_max_id fr)).
Proof.
  intros Ht Hne Hc Hid Hlim.
  destruct (save_chat_id_effect (f_telegram_link fr) (chat_ident chat)
              (Some (session_name self)) w) as (tl1 & w1 & Hs & _ & _ & _ & _ & Hm1).
  destruct (check_duplicate_returns text w1) as (passed & w2 & Hd & Hoc2).
  destruct (find_message_categories_run text tl1 w2) as (rows & w3 & _ & Hf & Hoc3).
  rewrite process_chat_step_run. cbv zeta.
  replace (MAX_MESSAGES_PER_CHAT (config self) <? f_messages_in_chat fr + 1) with false
    by (symmetry; apply Z.ltb_ge; lia).
  rewrite Hc, Hs, (process_message_run _ _ _ _ _ text Ht Hne), Hd.
  exists tl1, w1, passed, w2, (find_in_rows rows text), w3.
  destruct passed; simpl negb; cbv iota.
  - rewrite Hf. destruct (bool_decide (find_in_rows rows text = ∅)) eqn:Hcat.
    + eexists _, _. split; [done|]. split; [done|]. split; [done|].
      split; [reflexivity|]. split; [done|]. intros _ _.
      simpl truthy_opt. unfold truthy_int.
      replace (msg_id message =? 0) with false by (symmetry; by apply Z.eqb_neq).
      simpl. split; [|done]. destruct Hoc3, Hoc2. congruence.
    + apply bool_decide_eq_false in Hcat.
      destruct (get_text_with_link message) as [e|twl].
      * eexists _, _. by repeat split.
      * destruct (_save_relevant_message_run message twl (find_in_rows rows text) chat w3 Hc)
          as (w4 & -> & _).
        eexists _, _. by repeat split.
  - eexists _, _. split; [done|]. split; [done|]. split; [done|].
    split; [reflexivity|]. split; [|done]. intros _. simpl.
    split; [done|]. destruct Hoc2. congruence.
Qed.

(** [process_message] returns [None] or the id of its message. *)
Lemma process_message_id (message : Message) (chat_id : Z) (stats stats' : ParserStats)
    (telegram_link : TelegramLink) (w w' : World) (new_max_id : option Z) :
  process_message message chat_id stats telegram_link w = (Return (new_max_id, stats'), w') ->
  new_max_id = None \/ new_max_id = Some (msg_id message).
Proof.
  destruct (msg_text message) as [text|] eqn:Ht.
  2:{ unfold process_message. rewrite Ht. intros [= <- _ _]. by left. }
  destruct (decide (text = EmptyString)) as [->|Hne].
  { unfold process_message. rewrite Ht. intros [= <- _ _]. by left. }
  rewrite (process_message_run _ _ _ _ _ text Ht Hne).
  destruct (check_duplicate text w) as [[[]|e] w1]; simpl; [|intros [= <- _ _]; by left|done].
  destruct (find_message_categories text telegram_link w1) as [[categories|e] w2]; [|done].
  destruct (bool_decide (categories = ∅)); [intros [= <- _ _]; by right|].
  destruct (get_text_with_link message) as [e|twl]; [intros [= <- _ _]; by right|].
  destruct (_save_relevant_message message twl categories w2) as [[[]|e] w3]; [|done].
  intros [= <- _ _]. by right.
Qed.

(** In one turn of the loop the in-memory cursor keeps its value or becomes
    the maximum of the message id and its value. *)
Lemma process_chat_step_max (self : TelegramParser) (message : Message)
    (fr fr' : Frame) (w w' : World) (r : result bool) :
  process_chat_step self message (fr, w) = (r, (fr', w')) ->
  f_max_id fr' = f_max_id fr \/ f_max_id fr' = Z.max (msg_id message) (f_max_id fr).
Proof.
  rewrite process_chat_step_run. cbv zeta.
  destruct (_ <? _); [intros [= _ <- _]; by left|].
  destruct (msg_chat message) as [chat|]; [|intros [= _ <- _]; by left].
  destruct (save_chat_id _ _ _ w) as [[tl1|e] w1]; [|intros [= _ <- _]; by left].
  destruct (process_message _ _ _ _ w1) as [[[new_max_id stats']|e] w2] eqn:Hp;
    [|intros [= _ <- _]; by left].
  destruct (process_message_id _ _ _ _ _ _ _ _ Hp) as [-> | ->]; simpl.
  - intros [= _ <- _]. by left.
  - destruct (truthy_int (msg_id message)); intros [= _ <- _]; [by right | by left].
Qed.

(** [update_telegram_link_last_check], when it runs, stores the cursor it is
    given. *)
Lemma update_telegram_link_last_check_run (telegram_link : TelegramLink)
    (last_check_at : datetime) (last_message_id : Z) (w : World) :
  exists tl' w',
    update_telegram_link_last_check telegram_link last_check_at last_message_id w
      = (Return tl', w') /\
    w_telegram_links w' !! tl_id telegram_link = Some tl' /\
    tl_last_message_id tl' = Some last_message_id /\
    tl_last_check_at tl' = Some last_check_at.
Proof.
  eexists _, _. split; [reflexivity|]. simpl. by rewrite lookup_insert_eq.
Qed.

(** ** Binding a source to its chat *)

(** C9.  [save_chat_id] on a source that is bound to a chat changes neither
    the object nor the store; on a source whose [chat_id] is null it sets
    [chat_id] to the given id and [parser_account] to the session name,
    leaves the other fields, and writes the object to the row of the source.
    A bound source has a [chat_id] other than 0. *)
Theorem save_chat_id_binds_once (telegram_link : TelegramLink) (chat_id : Z)
    (session : option string) (w : World) :
  tl_chat_id telegram_link <> Some 0 ->
  match tl_chat_id telegram_link with
  | Some _ => save_chat_id telegram_link chat_id session w = (Return telegram_link, w)
  | None =>
      exists tl',
        save_chat_id telegram_link chat_id session w
          = (Return tl',
             with_telegram_links (<[ tl_id telegram_link := tl' ]> (w_telegram_links w)) w) /\
        tl_chat_id tl' = Some chat_id /\
        tl_parser_account tl' = session /\
        tl_id tl' = tl_id telegram_link /\
        tl_link tl' = tl_link telegram_link /\
        tl_last_check_at tl' = tl_last_check_at telegram_link /\
        tl_last_message_id tl' = tl_last_message_id telegram_link /\
        tl_invalid tl' = tl_invalid telegram_link
  end.
Proof.
  intros Hnz. rewrite save_chat_id_run.
  destruct (tl_chat_id telegram_link) as [c|] eqn:Hc; simpl.
  - unfold truthy_int. destruct (Z.eqb_spec c 0) as [->|_]; [done|reflexivity].
  - eexists. split; [reflexivity|]. by repeat split.
Qed.

(** ** The duplicate check *)

(** A verdict that the cache holds is returned as it is, whatever the store
    holds by then. *)
Lemma check_duplicate_hit (text : string) (w : World) (e : CacheEntry string bool) :
  cache_lookup text (cache_live (w_now w) (w_check_duplicate_cache w)) = Some e ->
  fst (check_duplicate text w) = Return (ce_value e).
Proof.
  intros He. unfold check_duplicate. rewrite alru_cache_run. simpl. by rewrite He.
Qed.

Lemma cache_lookup_key {K V} `{EqDecision K} (k : K) (c : list (CacheEntry K V))
    (e : CacheEntry K V) :
  cache_lookup k c = Some e -> e ∈ c /\ ce_key e = k.
Proof.
  induction c as [|x c IH]; simpl; [done|].
  destruct (decide (ce_key x = k)) as [Hk|_].
  - intros [= <-]. split; [by left | done].
  - intros H'. destruct (IH H') as [Hin Hk]. split; [by right | done].
Qed.

(** The loop over the stored texts answers [False] as soon as one of them
    scores at or above the threshold, provided no pair before it raises. *)
Lemma scan_sent_texts_rejects (text : string) (messages_texts : list string)
    (sent_text : string) (q : Q) :
  sent_text ∈ messages_texts ->
  tfidf_cosine text (bs_text (split_head anchor_open sent_text)) = inr q ->
  Qle_bool MAX_LEVEL_OF_DUPLICATE_SIMILARITY q = true ->
  (forall s, s ∈ messages_texts ->
             exists q', tfidf_cosine text (bs_text (split_head anchor_open s)) = inr q') ->
  scan_sent_texts text messages_texts = inr false.
Proof.
  intros Hin Hq Hle Hok. induction messages_texts as [|s rest IH]; [by apply elem_of_nil in Hin|].
  simpl. destruct (Hok s) as [q' Hq']; [by left|]. rewrite Hq'.
  destruct (Qle_bool MAX_LEVEL_OF_DUPLICATE_SIMILARITY q') eqn:Hs; [reflexivity|].
  apply elem_of_cons in Hin as [Heq | Hin].
  - subst s. rewrite Hq in Hq'. injection Hq' as <-. congruence.
  - apply IH; [done|]. intros s' Hs'. apply Hok. by right.
Qed.

(** The body of [check_duplicate] on a text that is not empty: the verdict
    of the loop over the texts stored in the last 24 hours, and [True] when
    the loop raises. *)
Lemma check_duplicate_body_run (text : string) (w : World) :
  text <> EmptyString ->
  check_duplicate_body text w =
  (Return
     match scan_sent_texts (bs_text (split_head anchor_open text))
             (map row_text
                (List.filter (fun r => w_now w - 86400 <? row_created_at r) (w_messages w))) with
     | inl _ => true
     | inr passed => passed
     end, w).
Proof.
  intros Hne. unfold check_duplicate_body. destruct text as [|c text]; [done|].
  unfold truthy_str, negb. unfold try_except. rewrite bind_run. simpl.
  by destruct (scan_sent_texts _ _).
Qed.

(** Without a cached verdict, a text whose part before the anchor is that of
    a message stored in the last 24 hours, and scores at or above the
    threshold against it, gets the verdict [False], and [process_message]
    does not store it. *)
Lemma check_duplicate_rejects_uncached (text : string) (w : World) (row : MessageRow) (q : Q) :
  text <> EmptyString ->
  cache_lookup text (cache_live (w_now w) (w_check_duplicate_cache w)) = None ->
  row ∈ w_messages w ->
  w_now w - 86400 < row_created_at row ->
  bs_text (split_head anchor_open (row_text row)) = bs_text (split_head anchor_open text) ->
  tfidf_cosine (bs_text (split_head anchor_open text))
    (bs_text (split_head anchor_open text)) = inr q ->
  Qle_bool MAX_LEVEL_OF_DUPLICATE_SIMILARITY q = true ->
  (forall r, r ∈ w_messages w ->
     exists q', tfidf_cosine (bs_text (split_head anchor_open text))
                  (bs_text (split_head anchor_open (row_text r))) = inr q') ->
  fst (check_duplicate text w) = Return false.
Proof.
  intros Hne Hmiss Hrow Hfresh Hsame Hq Hle Hok.
  unfold check_duplicate. rewrite alru_cache_run. cbv zeta. rewrite Hmiss.
  rewrite (check_duplicate_body_run _ _ Hne). simpl w_now. simpl w_messages.
  rewrite (scan_sent_texts_rejects _ _ (row_text row) q); [reflexivity| |by rewrite Hsame|done|].
  - apply list_elem_of_fmap. exists row. split; [done|].
    apply list_elem_of_In, filter_In. split; [by apply list_elem_of_In|]. by apply Z.ltb_lt.
  - intros s (r & -> & Hr)%list_elem_of_fmap. apply Hok.
    apply list_elem_of_In, filter_In in Hr as [Hr _]. by apply list_elem_of_In.
Qed.

Lemma process_message_skips_duplicate (message : Message) (chat_id : Z) (stats : ParserStats)
    (telegram_link : TelegramLink) (w : World) (text : string) :
  msg_text message = Some text ->
  text <> EmptyString ->
  fst (check_duplicate text w) = Return false ->
  exists w',
    process_message message chat_id stats telegram_link w = (Return (None, stats), w') /\
    w_messages w' = w_messages w.
Proof.
  intros Ht Hne Hd. rewrite (process_message_run _ _ _ _ _ text Ht Hne).
  destruct (check_duplicate_returns text w) as (passed & w1 & Hrun & Hoc).
  rewrite Hrun in Hd |- *. simpl in Hd. injection Hd as ->.
  exists w1. split; [reflexivity|]. by destruct Hoc.
Qed.

(** C5.  On the empty text the body of [check_duplicate] returns [True], and
    so does the cached coroutine when the verdicts its cache holds for the
    empty text are those of the body; for the caller [True] lets the message
    through.  A message without text, or with the empty text, is still not
    stored: [process_message] returns [None] for it before the duplicate
    check, and changes nothing. *)
Theorem check_duplicate_empty_text (w : World) (message : Message) (chat_id : Z)
    (stats : ParserStats) (telegram_link : TelegramLink) :
  (forall e, e ∈ w_check_duplicate_cache w -> ce_key e = EmptyString -> ce_value e = true) ->
  msg_text message = None \/ msg_text message = Some EmptyString ->
  check_duplicate_body EmptyString w = (Return true, w) /\
  fst (check_duplicate EmptyString w) = Return true /\
  process_message message chat_id stats telegram_link w = (Return (None, stats), w).
Proof.
  intros Hcache Htext. split; [reflexivity|]. split.
  - unfold check_duplicate. rewrite alru_cache_run. simpl.
    destruct (cache_lookup _ _) as [e|] eqn:He; [|reflexivity].
    apply cache_lookup_key in He as [Hin Hk]. simpl. f_equal.
    apply Hcache; [|done]. unfold cache_live in Hin.
    apply list_elem_of_In, filter_In in Hin as [Hin _]. by apply list_elem_of_In.
  - unfold process_message. by destruct Htext as [-> | ->].
Qed.

(** ** The categorizer *)




(** ** The batch of a cycle *)

Lemma order_leb_spec (a b : TelegramLink) : order_leb a b = true <-> polled_first a b.
Proof.
  unfold order_leb, order_key, polled_first.
  destruct (tl_last_check_at a) as [ta|], (tl_last_check_at b) as [tb|]; simpl;
    rewrite ?orb_true_iff, ?andb_true_iff, ?Z.ltb_lt, ?Z.leb_le, ?Z.eqb_eq; lia.
Qed.

Lemma polled_first_total (a b : TelegramLink) : polled_first a b \/ polled_first b a.
Proof.
  unfold polled_first.
  destruct (tl_last_check_at a) as [ta|], (tl_last_check_at b) as [tb|]; auto. lia.
Qed.

Lemma polled_first_trans (a b c : TelegramLink) :
  polled_first a b -> polled_first b c -> polled_first a c.
Proof.
  unfold polled_first.
  destruct (tl_last_check_at a), (tl_last_check_at b), (tl_last_check_at c); auto; try done. lia.
Qed.

Lemma insert_by_perm (x : TelegramLink) (l : list TelegramLink) :
  insert_by order_leb x l ≡ₚ x :: l.
Proof.
  induction l as [|y l IH]; simpl; [done|].
  destruct (order_leb x y); [done|]. rewrite IH. apply Permutation_swap.
Qed.

Lemma insert_by_sorted (x : TelegramLink) (l : list TelegramLink) :
  StronglySorted polled_first l -> StronglySorted polled_first (insert_by order_leb x l).
Proof.
  induction l as [|y l IH]; simpl; intros Hs.
  - repeat constructor.
  - apply StronglySorted_inv in Hs as [Hs Hall].
    destruct (order_leb x y) eqn:Hxy.
    + apply order_leb_spec in Hxy. constructor; [by constructor|].
      constructor; [done|]. eapply Forall_impl; [exact Hall|].
      intros z Hz. by eapply polled_first_trans.
    + assert (polled_first y x) as Hyx.
      { destruct (polled_first_total x y) as [H|H]; [|done].
        apply order_leb_spec in H. congruence. }
      constructor; [by apply IH|].
      rewrite insert_by_perm. by constructor.
Qed.

Lemma order_by_perm (l : list TelegramLink) : order_by order_leb l ≡ₚ l.
Proof.
  induction l as [|x l IH]; simpl; [done|].
  unfold order_by in *. simpl. by rewrite insert_by_perm, IH.
Qed.

Lemma order_by_sorted (l : list TelegramLink) :
  StronglySorted polled_first (order_by order_leb l).
Proof.
  induction l as [|x l IH]; simpl; [constructor|].
  by apply insert_by_sorted.
Qed.

Lemma StronglySorted_lookup {A} (R : relation A) (l : list A) (i j : nat) (a b : A) :
  StronglySorted R l -> l !! i = Some a -> l !! j = Some b -> (i < j)%nat -> R a b.
Proof.
  intros Hs. revert i j. induction Hs as [|x l Hs IH Hall]; intros i j Hi Hj Hlt; [done|].
  destruct j as [|j]; [lia|]. simpl in Hj.
  destruct i as [|i]; simpl in Hi.
  - injection Hi as <-. rewrite Forall_forall in Hall. apply Hall.
    by eapply list_elem_of_lookup_2.
  - apply (IH i j); auto. lia.
Qed.

(** C6.  In the default mode a cycle selects at most 30 sources.  The
    selected sources and those left out are together the sources of the table
    that are bound to a chat and are unclaimed or owned by the session.  The
    selected ones are in the order of the query: the sources polled before
    come first, oldest poll first, and the sources never polled come last.
    Every source left out comes after every selected one in that order, and
    sources are left out only when 30 are selected. *)
Theorem get_tg_links_batch (session : option string) (w : World) :
  exists links rest,
    get_tg_links true session w = (Return links, w) /\
    (length links <= 30)%nat /\
    (forall t, t ∈ links ++ rest <->
       (exists k, w_telegram_links w !! k = Some t) /\
       tl_chat_id t <> None /\
       (tl_parser_account t = session \/ tl_parser_account t = None)) /\
    (forall i j a b,
       links !! i = Some a -> links !! j = Some b -> (i < j)%nat -> polled_first a b) /\
    (forall a b, a ∈ links -> b ∈ rest -> polled_first a b) /\
    (rest <> [] -> length links = 30%nat).
Proof.
  set (rows := (map_to_list (w_telegram_links w)).*2).
  set (P := fun t => bool_decide (tl_chat_id t ≠ None) && owned_or_unclaimed session t).
  set (all := order_by order_leb (List.filter P rows)).
  exists (take 30 all), (drop 30 all).
  pose proof (order_by_sorted (List.filter P rows)) as Hs. fold all in Hs.
  rewrite <- (take_drop 30 all) in Hs.
  split; [reflexivity|]. split; [rewrite length_take; lia|]. split; [|split; [|split]].
  - intros t. rewrite take_drop. unfold all. rewrite order_by_perm.
    rewrite list_elem_of_In, filter_In, <- list_elem_of_In. unfold P, rows, owned_or_unclaimed.
    rewrite andb_true_iff, orb_true_iff, !bool_decide_eq_true.
    rewrite list_elem_of_fmap. split.
    + intros [([k t'] & -> & Hin) H]. split; [|done].
      exists k. by apply elem_of_map_to_list.
    + intros [[k Hk] H]. split; [|done]. exists (k, t). split; [done|].
      by apply elem_of_map_to_list.
  - intros i j a b Hi Hj Hlt. apply StronglySorted_app_1_l in Hs.
    by eapply StronglySorted_lookup.
  - intros a b Ha Hb. by eapply StronglySorted_app_1_elem_of.
  - intros Hrest. rewrite length_take.
    destruct (decide (30 <= length all)%nat) as [|Hlt]; [lia|].
    rewrite drop_ge in Hrest by lia. done.
Qed.

(** ** The set of inaccessible chats *)

(** The [for] loop of [run] returns; it never removes a link from the set of
    inaccessible chats, adds the link of each source whose poll raised, polls
    no source whose link is in the set, and skips a selected source only when
    its link is in the set by then. *)
Lemma run_links_spec (poll : Poll) (links : list TelegramLink)
    (inaccessible_chats : gset (option string)) (s : ParserStats * World) :
  exists inaccessible_chats' polled s',
    run_links poll links inaccessible_chats s = (Return (inaccessible_chats', polled), s') /\
    inaccessible_chats ⊆ inaccessible_chats' /\
    (forall t o, (t, o) ∈ polled -> t ∈ links /\ tl_link t ∉ inaccessible_chats) /\
    (forall t e, (t, Some e) ∈ polled -> tl_link t ∈ inaccessible_chats') /\
    (forall t, t ∈ links ->
       (exists o, (t, o) ∈ polled) \/ tl_link t ∈ inaccessible_chats').
Proof.
  revert inaccessible_chats s.
  induction links as [|telegram_link rest IH]; intros inacc s; simpl.
  - exists inacc, [], s. split; [done|]. split; [done|].
    split; [intros t o H; by apply elem_of_nil in H|].
    split; [intros t e H; by apply elem_of_nil in H|].
    intros t H; by apply elem_of_nil in H.
  - destruct (bool_decide (tl_link telegram_link ∈ inacc)) eqn:Hskip.
    + apply bool_decide_eq_true in Hskip.
      destruct (IH inacc s) as (inacc' & polled & s' & -> & Hsub & Hp & Hr & Hall).
      exists inacc', polled, s'. split; [done|]. split; [done|].
      split; [intros t o H; destruct (Hp t o H); split; [by right | done]|].
      split; [done|].
      intros t [-> | Hin]%elem_of_cons; [right; by apply Hsub | by apply Hall].
    + apply bool_decide_eq_false in Hskip.
      rewrite bind_run. simpl. rewrite bind_run. unfold try_except. rewrite bind_run.
      destruct (poll telegram_link _) as [[[]|e] s1].
      * simpl. rewrite bind_run.
        destruct (IH inacc s1) as (inacc' & polled & s' & -> & Hsub & Hp & Hr & Hall).
        eexists _, _, _. split; [reflexivity|]. split; [done|].
        split.
        { intros t o [[= -> ->] | Hin]%elem_of_cons; [split; [by left | done]|].
          destruct (Hp t o Hin). split; [by right | done]. }
        split.
        { intros t e [[=] | Hin]%elem_of_cons. by eapply Hr. }
        intros t [-> | Hin]%elem_of_cons.
        -- left. eexists. by left.
        -- destruct (Hall t Hin) as [[o Ho] | H]; [left; exists o; by right | by right].
      * simpl. rewrite bind_run.
        destruct (IH ({[tl_link telegram_link]} ∪ inacc) s1)
          as (inacc' & polled & s' & -> & Hsub & Hp & Hr & Hall).
        eexists _, _, _. split; [reflexivity|].
        split; [intros x Hx; apply Hsub, elem_of_union; by right|].
        split.
        { intros t o [[= -> ->] | Hin]%elem_of_cons; [split; [by left | done]|].
          destruct (Hp t o Hin) as [H1 H2]. split; [by right|].
          intros Hx. apply H2, elem_of_union. by right. }
        split.
        { intros t e' [[= -> ->] | Hin]%elem_of_cons; [|by eapply Hr].
          apply Hsub, elem_of_union. left. by apply elem_of_singleton. }
        intros t [-> | Hin]%elem_of_cons.
        -- left. eexists. by left.
        -- destruct (Hall t Hin) as [[o Ho] | H]; [left; exists o; by right | by right].
Qed.

Lemma run_iteration_spec (self : TelegramParser) (poll : Poll) (exclude_unknown_chats : bool)
    (inaccessible_chats : gset (option string)) (w : World) :
  exists inaccessible_chats' polled w',
    run_iteration self poll exclude_unknown_chats inaccessible_chats w
      = (Return (inaccessible_chats', polled), w') /\
    inaccessible_chats ⊆ inaccessible_chats' /\
    (forall t o, (t, o) ∈ polled -> tl_link t ∉ inaccessible_chats) /\
    (forall t e, (t, Some e) ∈ polled -> tl_link t ∈ inaccessible_chats').
Proof.
  unfold run_iteration. rewrite bind_run. unfold utcnow at 1. rewrite bind_run.
  destruct (get_tg_links _ _ w) as [[links|e] w1] eqn:Hl.
  2:{ exfalso. unfold get_tg_links in Hl. rewrite bind_run in Hl. simpl in Hl.
      by destruct exclude_unknown_chats. }
  destruct links as [|t0 links].
  - eexists _, _, _. split; [reflexivity|]. split; [done|].
    split; intros t o H; by apply elem_of_nil in H.
  - match goal with |- context [run_links poll ?l ?i ?s] =>
      destruct (run_links_spec poll l i s) as (inacc' & polled & [st' w'] & -> & Hsub & Hp & Hr & _)
    end.
    eexists _, _, _. split; [reflexivity|]. split; [done|]. split; [|done].
    intros t o H. by destruct (Hp t o H).
Qed.

Lemma run_loop_spec (self : TelegramParser) (poll : Poll) (exclude_unknown_chats : bool)
    (n : nat) (inaccessible_chats : gset (option string)) (w : World) :
  exists inaccessible_chats' trace w',
    run_loop self poll exclude_unknown_chats n inaccessible_chats w
      = (Return (inaccessible_chats', trace), w') /\
    length trace = n /\
    inaccessible_chats ⊆ inaccessible_chats' /\
    (forall polled t o, polled ∈ trace -> (t, o) ∈ polled -> tl_link t ∉ inaccessible_chats).
Proof.
  revert inaccessible_chats w. induction n as [|n IH]; intros inacc w; simpl.
  - exists inacc, [], w. split; [done|]. split; [done|]. split; [done|].
    intros polled t o H. by apply elem_of_nil in H.
  - rewrite bind_run.
    destruct (run_iteration_spec self poll exclude_unknown_chats inacc w)
      as (inacc1 & polled1 & w1 & -> & Hsub1 & Hp1 & _).
    simpl. rewrite bind_run.
    destruct (IH inacc1 w1) as (inacc2 & trace & w2 & -> & Hlen & Hsub2 & Hp2).
    eexists _, _, _. split; [reflexivity|]. split; [simpl; by rewrite Hlen|].
    split; [by etrans|].
    intros polled t o [-> | Hin]%elem_of_cons Ht.
    + by eapply Hp1.
    + intros Hx. by apply (Hp2 polled t o Hin Ht), Hsub1.
Qed.

(** With a poll that never raises, the loop leaves the set of inaccessible
    chats as it is; this is the case of [process_chat]. *)
Lemma run_links_quiet (poll : Poll) (links : list TelegramLink)
    (inaccessible_chats : gset (option string)) (s : ParserStats * World) :
  (forall t s0, exists s1, poll t s0 = (Return tt, s1)) ->
  exists polled s',
    run_links poll links inaccessible_chats s = (Return (inaccessible_chats, polled), s').
Proof.
  intros Hquiet. revert s. induction links as [|telegram_link rest IH]; intros s; simpl.
  - by eexists _, _.
  - destruct (bool_decide (tl_link telegram_link ∈ inaccessible_chats)) eqn:Hskip; [apply IH|].
    rewrite bind_run. simpl. rewrite bind_run. unfold try_except. rewrite bind_run.
    destruct (Hquiet telegram_link (incr_chats_count s.1, s.2)) as [s1 ->].
    simpl. rewrite bind_run. destruct (IH s1) as (polled & s' & ->).
    by eexists _, _.
Qed.

Lemma poll_of_quiet (self : TelegramParser) (t : TelegramLink) (s0 : ParserStats * World) :
  exists s1, poll_of self t s0 = (Return tt, s1).
Proof.
  destruct s0 as [stats w]. unfold poll_of.
  destruct (process_chat_returns self t stats w) as ([tl' stats'] & w' & ->). by eexists.
Qed.

Lemma run_never_excludes (self : TelegramParser) (exclude_unknown_chats : bool) (n : nat)
    (w : World) :
  exists trace w', run self exclude_unknown_chats n w = (Return (∅, trace), w').
Proof.
  unfold run, run_with. generalize (∅ : gset (option string)) as inacc.
  revert w. induction n as [|n IH]; intros w inacc; simpl; [by eexists _, _|].
  rewrite bind_run. unfold run_iteration at 1. rewrite bind_run. unfold utcnow at 1.
  rewrite bind_run.
  destruct (get_tg_links _ _ w) as [[links|e] w1] eqn:Hl.
  2:{ exfalso. unfold get_tg_links in Hl. rewrite bind_run in Hl. simpl in Hl.
      by destruct exclude_unknown_chats. }
  destruct links as [|t0 links].
  - simpl. rewrite bind_run.
    match goal with |- context [run_loop _ _ _ n inacc ?w3] =>
      destruct (IH w3 inacc) as (trace & w' & ->)
    end.
    by eexists _, _.
  - match goal with |- context [run_links ?p ?l ?i ?s] =>
      destruct (run_links_quiet p l i s (poll_of_quiet self)) as (polled & [st' w2] & ->)
    end.
    simpl. rewrite bind_run.
    match goal with |- context [run_loop _ _ _ n inacc ?w3] =>
      destruct (IH w3 inacc) as (trace & w' & ->)
    end.
    by eexists _, _.
Qed.

End Proofs.

(** * The definitions at work *)

(** ** The write-back of a poll *)

(** C1.  A poll of the source with cursor 10 whose chat gives the messages
    12 and 11 returns without an exception and stores the one message that
    matches a keyword, and its [finally] clause builds the coroutine of
    [update_telegram_link_last_check] for the cursor 12 and the poll time
    1000 without awaiting it: the row of the source still holds the cursor 10
    and the poll timestamp 50. *)
Theorem process_chat_drops_write_back :
  let history := [Sample.message 12 "big sale"; Sample.message 11 "hello"] in
  let w := Sample.world [Sample.source] in
  exists tl' stats' w',
    process_chat (rt := Sample.runtime) (Sample.parser history) Sample.source Sample.stats w
      = (Return (tl', stats'), w') /\
    length (w_messages w') = 1%nat /\
    w_never_awaited w'
      = [ {| pu_link := tl'; pu_last_check_at := 1000; pu_last_message_id := 12 |} ] /\
    w_telegram_links w' !! "L1"%string = Some Sample.source /\
    tl_last_message_id Sample.source = Some 10 /\
    tl_last_check_at Sample.source = Some 50.
Proof.
  cbv zeta. eexists _, _, _. split; [vm_compute; reflexivity|].
  repeat split; vm_compute; reflexivity.
Qed.

(** ** The cursor after a poll *)

(** C2.  The source has the cursor 10 and its chat gives the messages 12 and
    11.  In the loop of the poll the cursor in memory starts at 10, becomes
    the maximum of 12 and 10 with the first message and stays 12 with the
    second, and the [finally] clause builds the call of
    [update_telegram_link_last_check] with that maximum, 12.  The call is not
    awaited: after the poll the row of the source still holds the cursor 10,
    not the maximum, and the next poll starts from 10 again.  Run on the
    store after the poll, the coroutine would set the cursor of the row to
    12. *)
Theorem poll_cursor_maximum_not_stored :
  let first := Sample.message 12 "big sale" in
  let second := Sample.message 11 "hello" in
  let self := Sample.parser [first; second] in
  let w := Sample.world [Sample.source] in
  let fr := {| f_telegram_link := Sample.source; f_stats := Sample.stats;
               f_max_id := default 0 (tl_last_message_id Sample.source);
               f_messages_in_chat := 0 |} in
  let s1 := snd (process_chat_step (rt := Sample.runtime) self first (fr, w)) in
  let s2 := snd (process_chat_step (rt := Sample.runtime) self second s1) in
  let polled := process_chat (rt := Sample.runtime) self Sample.source Sample.stats w in
  let awaited pu :=
    update_telegram_link_last_check (pu_link pu) (pu_last_check_at pu)
      (pu_last_message_id pu) (snd polled) in
  w_telegram_links w !! "L1"%string = Some Sample.source /\
  f_max_id fr = 10 /\
  f_max_id (fst s1) = Z.max 12 10 /\
  f_max_id (fst s2) = Z.max 11 (Z.max 12 10) /\
  exists tl' stats' pu row,
    polled = (Return (tl', stats'), snd polled) /\
    w_never_awaited (snd polled) = [pu] /\
    pu_last_message_id pu = 12 /\
    w_telegram_links (snd polled) !! "L1"%string = Some row /\
    tl_last_message_id row = Some 10 /\
    default 0 (tl_last_message_id row) < pu_last_message_id pu /\
    (tl_last_message_id <$> w_telegram_links (snd (awaited pu)) !! "L1"%string)
    = Some (Some 12).
Proof.
  cbv zeta. split; [vm_compute; reflexivity|]. split; [reflexivity|].
  split; [vm_compute; reflexivity|]. split; [vm_compute; reflexivity|].
  eexists _, _, _, _. split; [vm_compute; reflexivity|].
  split; [vm_compute; reflexivity|]. split; [reflexivity|].
  split; [vm_compute; reflexivity|]. split; [reflexivity|].
  split; [vm_compute; reflexivity|]. vm_compute. reflexivity.
Qed.

(** ** A text received twice *)

(** C3.  The same text is received twice, one second apart, and the store is
    empty before.  The first message is stored.  For the second one the
    stored text and the candidate have the same part before the anchor, the
    pair scores 1, above the threshold 0.7, and the body of
    [check_duplicate] answers [False]; but the cached coroutine answers the
    [True] it computed for the first message, and the text is stored a second
    time.  So does a poll whose chat gives the two messages. *)
Theorem repeated_text_stored_twice :
  let first := Sample.message 11 Sample.repeated_text in
  let second := Sample.message 12 Sample.repeated_text in
  let w0 := Sample.world [Sample.source] in
  let w1 := snd (process_message (rt := Sample.runtime) first (-100) Sample.stats Sample.source w0) in
  let w2 := snd (sleep 1 w1) in
  let w3 := snd (process_message (rt := Sample.runtime) second (-100) Sample.stats Sample.source w2) in
  let polled :=
    snd (process_chat (rt := Sample.runtime) (Sample.parser [second; first])
           Sample.source Sample.stats w0) in
  w_messages w0 = [] /\
  map (fun row => split_head anchor_open (row_text row)) (w_messages w1) = ["sale now "%string] /\
  split_head anchor_open Sample.repeated_text = "sale now "%string /\
  tfidf_cosine (Runtime := Sample.runtime) "sale now " "sale now " = inr 1%Q /\
  Qle_bool (MAX_LEVEL_OF_DUPLICATE_SIMILARITY (Runtime := Sample.runtime)) 1 = true /\
  fst (check_duplicate_body (rt := Sample.runtime) Sample.repeated_text w2) = Return false /\
  fst (check_duplicate (rt := Sample.runtime) Sample.repeated_text w2) = Return true /\
  map (fun row => split_head anchor_open (row_text row)) (w_messages w3)
    = ["sale now "%string; "sale now "%string] /\
  map (fun row => split_head anchor_open (row_text row)) (w_messages polled)
    = ["sale now "%string; "sale now "%string].
Proof.
  cbv zeta. repeat split; vm_compute; reflexivity.
Qed.

(** ** One turn of the loop, on the sample *)

Lemma process_chat_step_cursor_witness :
  let self := Sample.parser [] in
  let message := Sample.message 11 "hello" in
  let fr := {| f_telegram_link := Sample.source; f_stats := Sample.stats;
               f_max_id := 10; f_messages_in_chat := 0 |} in
  let w := Sample.world [Sample.source] in
  msg_text message = Some "hello"%string /\
  "hello"%string <> EmptyString /\
  msg_chat message = Some Sample.chat /\
  msg_id message <> 0 /\
  f_messages_in_chat fr + 1 <= MAX_MESSAGES_PER_CHAT (config self) /\
  exists tl1 w1 passed w2 categories w3 fr' w',
    save_chat_id (f_telegram_link fr) (chat_ident Sample.chat) (Some (session_name self)) w
      = (Return tl1, w1) /\
    check_duplicate (rt := Sample.runtime) "hello" w1 = (Return passed, w2) /\
    find_message_categories (rt := Sample.runtime) "hello" tl1 w2 = (Return categories, w3) /\
    process_chat_step (rt := Sample.runtime) self message (fr, w) = (Return true, (fr', w')) /\
    (passed = false ->
       f_max_id fr' = f_max_id fr /\ w_messages w' = w_messages w) /\
    (passed = true -> categories = ∅ ->
       w_messages w' = w_messages w /\
       f_max_id fr' = Z.max (msg_id message) (f_max_id fr)).
Proof.
  cbv zeta.
  assert (msg_text (Sample.message 11 "hello") = Some "hello"%string) as H1 by reflexivity.
  assert ("hello"%string <> EmptyString) as H2 by discriminate.
  assert (msg_chat (Sample.message 11 "hello") = Some Sample.chat) as H3 by reflexivity.
  assert (msg_id (Sample.message 11 "hello") <> 0) as H4 by (simpl; lia).
  assert (0 + 1 <= MAX_MESSAGES_PER_CHAT (config (Sample.parser []))) as H5 by (simpl; lia).
  repeat (split; [assumption|]).
  exact (process_chat_step_cursor (rt := Sample.runtime) (Sample.parser [])
           (Sample.message 11 "hello") "hello" Sample.chat
           {| f_telegram_link := Sample.source; f_stats := Sample.stats;
              f_max_id := 10; f_messages_in_chat := 0 |}
           (Sample.world [Sample.source]) H1 H2 H3 H4 H5).
Defined.

(** ** Binding, on the sample *)

Lemma save_chat_id_binds_once_witness :
  let w := Sample.world [Sample.source; Sample.unbound_source] in
  (tl_chat_id Sample.source <> Some 0 /\
   save_chat_id Sample.source 77 (Some "me"%string) w = (Return Sample.source, w)) /\
  (tl_chat_id Sample.unbound_source <> Some 0 /\
   exists tl',
     save_chat_id Sample.unbound_source 77 (Some "me"%string) w
       = (Return tl',
          with_telegram_links (<[ "L3"%string := tl' ]> (w_telegram_links w)) w) /\
     tl_chat_id tl' = Some 77 /\
     tl_parser_account tl' = Some "me"%string /\
     tl_id tl' = "L3"%string /\
     tl_link tl' = tl_link Sample.unbound_source /\
     tl_last_check_at tl' = tl_last_check_at Sample.unbound_source /\
     tl_last_message_id tl' = tl_last_message_id Sample.unbound_source /\
     tl_invalid tl' = tl_invalid Sample.unbound_source).
Proof.
  cbv zeta. split.
  - assert (tl_chat_id Sample.source <> Some 0) as H by discriminate.
    split; [assumption|].
    exact (save_chat_id_binds_once Sample.source 77 (Some "me"%string)
             (Sample.world [Sample.source; Sample.unbound_source]) H).
  - assert (tl_chat_id Sample.unbound_source <> Some 0) as H by discriminate.
    split; [assumption|].
    exact (save_chat_id_binds_once Sample.unbound_source 77 (Some "me"%string)
             (Sample.world [Sample.source; Sample.unbound_source]) H).
Defined.

(** ** The stored text, on the sample *)

Lemma persisted_text_shape_witness :
  let message := Sample.message 12 "big sale" in
  let w := Sample.world [Sample.source] in
  let run := process_message (rt := Sample.runtime) message (-100) Sample.stats Sample.source w in
  w_messages (snd run) <> w_messages w /\
  exists text chat row tail,
    msg_text message = Some text /\
    msg_chat message = Some chat /\
    w_messages (snd run) = w_messages w ++ [row] /\
    row_text row = text +:+ anchor_line (msg_link message) (chat_title chat) +:+ tail /\
    String.prefix text (row_text row) = true /\
    (String.length text < String.length (row_text row))%nat /\
    str_in (msg_link message) (anchor_line (msg_link message) (chat_title chat)) = true /\
    str_in (chat_title chat) (anchor_line (msg_link message) (chat_title chat)) = true /\
    ((exists user username,
        msg_from_user message = Some user /\
        user_username user = Some username /\
        username <> EmptyString /\
        tail = attribution_line username /\
        tail <> EmptyString /\
        str_in username tail = true)
     \/
     (tail = EmptyString /\
      (msg_from_user message = None \/
       exists user,
         msg_from_user message = Some user /\
         (user_username user = None \/ user_username user = Some EmptyString)))).
Proof.
  cbv zeta.
  assert (w_messages (snd (process_message (rt := Sample.runtime) (Sample.message 12 "big sale")
                             (-100) Sample.stats Sample.source (Sample.world [Sample.source])))
          <> w_messages (Sample.world [Sample.source])) as H by (vm_compute; discriminate).
  split; [assumption|].
  exact (persisted_text_shape (rt := Sample.runtime) (Sample.message 12 "big sale") (-100)
           Sample.stats Sample.source (Sample.world [Sample.source]) _ _
           (surjective_pairing _) H).
Defined.

(** ** The categorizer, on the sample *)



(** On the sample store, where the keyword [sale] belongs to category 7,
    which is linked to a source, the categorizer gives the set with 7 alone
    for [Big SALE today] in every casing. *)
Example categorize_big_sale_today (text : string) :
  Sample.ascii_lower text = "big sale today"%string ->
  fst (find_message_categories (rt := Sample.runtime) text Sample.source
         (Sample.world [Sample.source])) = Return {[ 7 ]}.
Proof.
  intros Hlow.
  destruct (find_message_categories_run (rt := Sample.runtime) text Sample.source
              (Sample.world [Sample.source])) as (rows & w' & Hr & -> & _).
  vm_compute in Hr. injection Hr as <- _. simpl fst. f_equal.
  unfold find_in_rows. destruct text as [|c text]; [discriminate|].
  simpl negb. cbv iota. cbv zeta.
  change (str_lower (String c text)) with (Sample.ascii_lower (String c text)).
  rewrite Hlow. vm_compute. reflexivity.
Qed.

(** ** The duplicate check on the empty text, on the sample *)

(** C5, as stated, fails: on the empty text the check returns [True], not
    the verdict [False] on which the caller skips a message as a
    duplicate. *)
Lemma empty_text_is_let_through :
  let verdict :=
    fst (check_duplicate (rt := Sample.runtime) EmptyString (Sample.world [Sample.source])) in
  verdict = Return true /\ verdict <> Return false.
Proof.
  cbv zeta. split; [vm_compute; reflexivity | vm_compute; discriminate].
Qed.

Lemma check_duplicate_empty_text_witness :
  let w := Sample.world [Sample.source] in
  let message :=
    {| msg_id := 13; msg_text := Some EmptyString; msg_date := None;
       msg_chat := Some Sample.chat; msg_from_user := None; msg_link := EmptyString |} in
  (forall e, e ∈ w_check_duplicate_cache w -> ce_key e = EmptyString -> ce_value e = true) /\
  (msg_text message = None \/ msg_text message = Some EmptyString) /\
  check_duplicate_body (rt := Sample.runtime) EmptyString w = (Return true, w) /\
  fst (check_duplicate (rt := Sample.runtime) EmptyString w) = Return true /\
  process_message (rt := Sample.runtime) message (-100) Sample.stats Sample.source w
    = (Return (None, Sample.stats), w).
Proof.
  cbv zeta.
  assert (forall e : CacheEntry string bool,
            e ∈ w_check_duplicate_cache (Sample.world [Sample.source]) ->
            ce_key e = EmptyString -> ce_value e = true) as H1.
  { intros e He. simpl in He. by apply elem_of_nil in He. }
  split; [assumption|]. split; [right; reflexivity|].
  exact (check_duplicate_empty_text (rt := Sample.runtime) (Sample.world [Sample.source])
           {| msg_id := 13; msg_text := Some EmptyString; msg_date := None;
              msg_chat := Some Sample.chat; msg_from_user := None; msg_link := EmptyString |}
           (-100) Sample.stats Sample.source H1 (or_intror eq_refl)).
Defined.

(** ** The batch, on the sample *)

(** C6, as stated, fails: of a source polled at time 50 and a source never
    polled, the batch lists the polled one first. *)
Lemma never_polled_source_comes_last :
  let w := Sample.world [Sample.fresh_source; Sample.source] in
  get_tg_links (rt := Sample.runtime) true (Some "me"%string) w
    = (Return [Sample.source; Sample.fresh_source], w) /\
  tl_last_check_at Sample.source = Some 50 /\
  tl_last_check_at Sample.fresh_source = None.
Proof.
  cbv zeta. split; [vm_compute; reflexivity|]. split; reflexivity.
Qed.


(** * More of the code *)

(** ** More on strings *)

Lemma prefix_append (p s : string) : String.prefix p (p +:+ s) = true.
Proof. apply prefix_spec. by exists s. Qed.

Lemma substring_append (p s : string) :
  String.substring (String.length p) (String.length s) (p +:+ s) = s.
Proof.
  induction p as [|c p IH].
  - rewrite append_nil_l. simpl. induction s as [|c s IH]; [reflexivity|]. simpl. by rewrite IH.
  - rewrite append_cons. simpl. exact IH.
Qed.

(** [(p + s).removeprefix(p)] is [s]. *)
Lemma removeprefix_append (p s : string) : removeprefix (p +:+ s) p = s.
Proof.
  unfold removeprefix. rewrite prefix_append, append_length.
  replace (String.length p + String.length s - String.length p)%nat
    with (String.length s) by lia.
  apply substring_append.
Qed.

Lemma startswith_append (p q s : string) :
  startswith (p +:+ s) (p +:+ q) = startswith s q.
Proof.
  unfold startswith. induction p as [|c p IH]; [reflexivity|].
  rewrite !append_cons. simpl. destruct (ascii_dec c c); [exact IH | done].
Qed.

(** X1. A link of the form [t.me/...] decides the chat on its own, whatever
    chat id the source holds: an invite link, [t.me/+...], is passed on
    whole, and any other link loses the prefix [t.me/]. *)
Theorem extract_chat_of_link (telegram_link : TelegramLink) (rest : string) :
  tl_link telegram_link = Some ("t.me/" +:+ rest)%string ->
  extract_chat telegram_link
  = Some (ChatStr (if startswith rest "+" then "t.me/" +:+ rest else rest)).
Proof.
  intros Hl. unfold extract_chat. rewrite Hl.
  change (truthy_str ("t.me/" +:+ rest)) with true. cbv iota. simpl negb. cbv iota.
  change "t.me/+"%string with ("t.me/" +:+ "+")%string.
  rewrite (startswith_append "t.me/" "+" rest).
  destruct (startswith rest "+"); [reflexivity|].
  change (startswith ("t.me/" +:+ rest) "t.me/")
    with (startswith ("t.me/" +:+ rest) ("t.me/" +:+ "")).
  rewrite (startswith_append "t.me/" "" rest).
  replace (startswith rest "") with true by (unfold startswith; by destruct rest).
  by rewrite removeprefix_append.
Qed.

(** A separator without the character [c] starts [s + c + r] only when it
    starts [s]. *)
Lemma prefix_before_char (sep s r : string) (c : ascii) :
  str_in (String c EmptyString) sep = false ->
  String.prefix sep (s +:+ String c r) = String.prefix sep s.
Proof.
  revert s. induction sep as [|a sep IH]; intros s Hc.
  - by destruct s.
  - rewrite str_in_cons in Hc. apply orb_false_elim in Hc as [Ha Hc].
    assert (a <> c) as Hne.
    { intros ->. simpl in Ha. destruct (ascii_dec c c); [|done]. by destruct sep. }
    destruct s as [|b s].
    + rewrite append_nil_l. simpl. destruct (ascii_dec a c); [done | reflexivity].
    + rewrite append_cons. simpl. destruct (ascii_dec a b); [by apply IH | reflexivity].
Qed.

Lemma split_head_before_char (sep s r : string) (c : ascii) :
  str_in (String c EmptyString) sep = false ->
  split_head sep (s +:+ String c r)
  = if str_in sep s then split_head sep s else s +:+ split_head sep (String c r).
Proof.
  intros Hc. induction s as [|b s IH].
  - rewrite append_nil_l, str_in_nil, orb_false_r.
    destruct sep as [|a sep]; [reflexivity|]. reflexivity.
  - rewrite append_cons, str_in_cons.
    change (split_head sep (String b (s +:+ String c r)))
      with (if String.prefix sep (String b (s +:+ String c r)) then EmptyString
            else String b (split_head sep (s +:+ String c r))).
    rewrite <- append_cons, (prefix_before_char _ _ _ _ Hc), IH.
    change (split_head sep (String b s))
      with (if String.prefix sep (String b s) then EmptyString
            else String b (split_head sep s)).
    destruct (String.prefix sep (String b s)); [reflexivity|]. simpl orb.
    destruct (str_in sep s); [reflexivity|]. by rewrite append_cons.
Qed.

Lemma split_head_prefix (sep s : string) :
  String.prefix sep s = true -> split_head sep s = EmptyString.
Proof.
  intros H. destruct s as [|c s].
  - by destruct sep.
  - change (split_head sep (String c s))
      with (if String.prefix sep (String c s) then EmptyString
            else String c (split_head sep s)).
    by rewrite H.
Qed.

(** X2.  The form in which [check_duplicate] compares a stored message: the
    text that [get_text_with_link] built, cut at the first anchor, is the
    original text followed by the two line breaks that precede the appended
    anchor, unless the original text holds an anchor itself, in which case
    it is the original text cut at that anchor. *)
Theorem stored_text_comparison_form (text link title tail : string) :
  split_head anchor_open (text +:+ anchor_line link title +:+ tail)
  = if str_in anchor_open text then split_head anchor_open text
    else text +:+ newline +:+ newline.
Proof.
  unfold anchor_line. rewrite !append_assoc.
  change (newline +:+ newline +:+ "<a href=" +:+ dquote +:+ link +:+ dquote +:+ ">"
          +:+ "Переслано из " +:+ title +:+ "</a>" +:+ tail)
    with (String (ascii_of_nat 10)
            (String (ascii_of_nat 10)
               (anchor_open +:+ link +:+ dquote +:+ ">" +:+ "Переслано из " +:+ title
                +:+ "</a>" +:+ tail))).
  rewrite split_head_before_char by reflexivity.
  destruct (str_in anchor_open text); [reflexivity|]. f_equal.
  set (rest := link +:+ _).
  change (split_head anchor_open (String (ascii_of_nat 10)
            (String (ascii_of_nat 10) (anchor_open +:+ rest))))
    with (String (ascii_of_nat 10) (String (ascii_of_nat 10)
            (split_head anchor_open (anchor_open +:+ rest)))).
  change (newline +:+ newline) with
    (String (ascii_of_nat 10) (String (ascii_of_nat 10) EmptyString)).
  do 2 f_equal. apply split_head_prefix, prefix_append.
Qed.

Lemma str_in_empty (s : string) : str_in EmptyString s = true.
Proof. by destruct s. Qed.

Section More.

Context `{rt : Runtime}.

(** X3.  The categories found over two lists of keyword rows together are
    the union of those found over each, so neither the order of the rows nor
    a repeated row changes the result. *)
Theorem find_in_rows_app (rows1 rows2 : list Keyword) (text : string) :
  find_in_rows (rows1 ++ rows2) text = find_in_rows rows1 text ∪ find_in_rows rows2 text /\
  find_in_rows (rows2 ++ rows1) text = find_in_rows (rows1 ++ rows2) text /\
  find_in_rows (rows1 ++ rows1) text = find_in_rows rows1 text.
Proof.
  assert (forall r1 r2, find_in_rows (r1 ++ r2) text
                        = find_in_rows r1 text ∪ find_in_rows r2 text) as Happ.
  { intros r1 r2. apply set_eq. intros c.
    rewrite elem_of_union, !find_in_rows_spec. split.
    - intros [Hne (k & [Hk | Hk]%elem_of_app & H)]; [left | right]; split; eauto.
    - intros [[Hne (k & Hk & H)] | [Hne (k & Hk & H)]]; (split; [done|]);
        exists k; (split; [|done]); apply elem_of_app; auto. }
  split; [apply Happ|]. rewrite !Happ.
  split; [apply (comm_L (∪)) | apply (idemp_L (∪))].
Qed.

(** X4.  A keyword row with the empty text assigns its category to every
    message that has a text. *)
Theorem empty_keyword_matches_every_text (keyword_rows : list Keyword) (k : Keyword)
    (text : string) :
  k ∈ keyword_rows ->
  kw_keyword k = EmptyString ->
  text <> EmptyString ->
  kw_category_id k ∈ find_in_rows keyword_rows text.
Proof.
  intros Hk He Hne. apply find_in_rows_spec. split; [done|].
  exists k. rewrite He. split; [done|]. split; [done|]. apply str_in_empty.
Qed.

(** ** What a poll keeps true *)

(** A property of the local variables and the store that every turn of the
    loop keeps is kept by the loop. *)
Lemma process_messages_preserves (P : Frame * World -> Prop) (self : TelegramParser) :
  (forall message s r s', P s -> process_chat_step self message s = (r, s') -> P s') ->
  forall messages s r s', P s -> process_messages self messages s = (r, s') -> P s'.
Proof.
  intros Hstep messages. induction messages as [|message rest IH]; intros s r s' HP; simpl.
  - by intros [= <- <-].
  - rewrite bind_run.
    destruct (process_chat_step self message s) as [[continue|e] s1] eqn:Hs;
      pose proof (Hstep _ _ _ _ HP Hs) as HP1.
    + destruct continue; [by apply IH | by intros [= <- <-]].
    + by intros [= <- <-].
Qed.

Lemma process_chat_try_preserves (P : Frame * World -> Prop) (self : TelegramParser) :
  (forall message s r s', P s -> process_chat_step self message s = (r, s') -> P s') ->
  forall chat s r s', P s -> process_chat_try self chat s = (r, s') -> P s'.
Proof.
  intros Hstep chat s r s' HP. unfold process_chat_try. rewrite bind_run. unfold get_frame at 1.
  destruct (get_chat (client self) chat) as [e|chat_info].
  { destruct (is_bad_request e); by intros [= <- <-]. }
  cbv zeta.
  destruct (_ && negb (startswith _ _)); [by intros [= <- <-]|].
  rewrite bind_run.
  destruct (bool_decide _ && negb _).
  - destruct (join_chat _ _) as [e|]; [by intros [= <- <-]|].
    by apply process_messages_preserves.
  - by apply process_messages_preserves.
Qed.

(** The whole [try] statement keeps such a property when sleeping and noting
    an unawaited coroutine keep it. *)
Lemma process_chat_statement_preserves (P : Frame * World -> Prop) (self : TelegramParser)
    (chat : ChatRef) (last_check_at : datetime) (s : Frame * World) :
  (forall message s r s', P s -> process_chat_step self message s = (r, s') -> P s') ->
  (forall fr w v, P (fr, w) -> P (fr, with_now (w_now w + Z.max 0 v) w)) ->
  (forall fr w l, P (fr, w) -> P (fr, with_never_awaited l w)) ->
  P s ->
  exists s',
    try_finally (try_except (process_chat_try self chat) process_chat_except)
      (process_chat_finally last_check_at) s = (Return tt, s') /\ P s'.
Proof.
  intros Hstep Hsleep Hna HP. unfold try_finally, try_except.
  destruct (process_chat_try self chat s) as [[[]|e] [fr1 w1]] eqn:Htry;
    pose proof (process_chat_try_preserves P self Hstep _ _ _ _ HP Htry) as HP1.
  - eexists. split; [reflexivity|]. by apply Hna.
  - unfold process_chat_except. destruct (is_flood_wait e) as [value|].
    + eexists. split; [reflexivity|]. simpl. by apply Hna, Hsleep.
    + eexists. split; [reflexivity|]. by apply Hna.
Qed.

(** [process_chat] as the run of its [try] statement, for a source from
    which a chat can be extracted. *)
Lemma process_chat_run (self : TelegramParser) (telegram_link : TelegramLink)
    (stats : ParserStats) (w : World) (chat : ChatRef) :
  extract_chat telegram_link = Some chat ->
  truthy_chat chat = true ->
  process_chat self telegram_link stats w
  = run_frame
      (try_finally (try_except (process_chat_try self chat) process_chat_except)
         (process_chat_finally (w_now w)))
      {| f_telegram_link := telegram_link; f_stats := stats;
         f_max_id := default 0 (tl_last_message_id telegram_link);
         f_messages_in_chat := 0 |} w.
Proof.
  intros He Ht. unfold process_chat. rewrite He, Ht. reflexivity.
Qed.

(** What [process_chat] keeps, from what every turn of its loop keeps. *)
Lemma process_chat_preserves (P : Frame * World -> Prop) (self : TelegramParser)
    (telegram_link : TelegramLink) (stats : ParserStats) (w : World) :
  (forall message s r s', P s -> process_chat_step self message s = (r, s') -> P s') ->
  (forall fr w v, P (fr, w) -> P (fr, with_now (w_now w + Z.max 0 v) w)) ->
  (forall fr w l, P (fr, w) -> P (fr, with_never_awaited l w)) ->
  P ({| f_telegram_link := telegram_link; f_stats := stats;
        f_max_id := default 0 (tl_last_message_id telegram_link);
        f_messages_in_chat := 0 |}, w) ->
  exists fr' w',
    process_chat self telegram_link stats w
      = (Return (f_telegram_link fr', f_stats fr'), w') /\ P (fr', w').
Proof.
  intros Hstep Hsleep Hna HP.
  destruct (extract_chat telegram_link) as [chat|] eqn:He.
  2:{ eexists _, _. unfold process_chat. rewrite He. split; [|exact HP]. reflexivity. }
  destruct (truthy_chat chat) eqn:Ht.
  2:{ eexists _, _. unfold process_chat. rewrite He, Ht. split; [|exact HP]. reflexivity. }
  rewrite (process_chat_run _ _ _ _ _ He Ht). unfold run_frame.
  match goal with |- context [try_finally ?b ?f ?s] =>
    destruct (process_chat_statement_preserves P self chat (w_now w) s Hstep Hsleep Hna HP)
      as ([fr' w'] & -> & HP')
  end.
  by eexists _, _.
Qed.

(** [process_message] either stores nothing and leaves the statistics, or
    stores one row and counts one relevant message. *)
Lemma process_message_counts (message : Message) (chat_id : Z) (stats : ParserStats)
    (telegram_link : TelegramLink) (w : World) :
  exists new_max_id stats' w',
    process_message message chat_id stats telegram_link w
      = (Return (new_max_id, stats'), w') /\
    w_telegram_links w' = w_telegram_links w /\
    w_now w' = w_now w /\
    ((stats' = stats /\ w_messages w' = w_messages w) \/
     (stats' = incr_relevant_messages stats /\ exists row, w_messages w' = w_messages w ++ [row])).
Proof.
  destruct (msg_text message) as [text|] eqn:Ht.
  2:{ exists None, stats, w. unfold process_message. rewrite Ht. repeat split; auto. }
  destruct (decide (text = EmptyString)) as [->|Hne].
  { exists None, stats, w. unfold process_message. rewrite Ht. repeat split; auto. }
  rewrite (process_message_run _ _ _ _ _ text Ht Hne).
  destruct (check_duplicate_returns text w) as (passed & w1 & -> & Hoc1).
  destruct passed; simpl negb; cbv iota.
  2:{ eexists _, _, _. split; [reflexivity|]. destruct Hoc1. repeat split; auto. }
  destruct (find_message_categories_run text telegram_link w1) as (rows & w2 & _ & -> & Hoc2).
  pose proof (only_caches_trans _ _ _ Hoc1 Hoc2) as [Hn12 Hl12 Hm12 _ _ _ _ _ _ _].
  destruct (bool_decide (find_in_rows rows text = ∅)) eqn:Hcat.
  { eexists _, _, _. split; [reflexivity|]. repeat split; auto. }
  destruct (get_text_with_link message) as [e|twl] eqn:Hg.
  { eexists _, _, _. split; [reflexivity|]. repeat split; auto. }
  destruct (get_text_with_link_shape _ _ Hg) as (chat & tail & Hc & Htwl & _).
  rewrite Ht in Htwl. simpl in Htwl.
  assert (truthy_str twl = true) as Htruthy.
  { rewrite Htwl. destruct text as [|c text]; [done|]. by rewrite append_cons. }
  unfold _save_relevant_message. rewrite Hc, Htruthy, Hcat. simpl.
  eexists _, _, _. split; [reflexivity|]. simpl. repeat split; auto.
  right. split; [done|]. eexists. by rewrite Hm12.
Qed.

Lemma process_chat_step_counts (self : TelegramParser) (stats0 : ParserStats) (w0 : World)
    (message : Message) (s s' : Frame * World) (r : result bool) :
  count_inv stats0 w0 (MAX_MESSAGES_PER_CHAT (config self)) s ->
  process_chat_step self message s = (r, s') ->
  count_inv stats0 w0 (MAX_MESSAGES_PER_CHAT (config self)) s'.
Proof.
  destruct s as [fr w]. unfold count_inv. simpl. intros (Hic & Hk0 & Hks & Hs & Hk).
  rewrite process_chat_step_run. cbv zeta.
  destruct (_ <? _) eqn:Hlim.
  { intros [= <- <-]. simpl. apply Z.ltb_lt in Hlim. repeat split; lia. }
  apply Z.ltb_ge in Hlim.
  destruct (msg_chat message) as [chat|].
  2:{ intros [= <- <-]. simpl. repeat split; lia. }
  destruct (save_chat_id_effect (f_telegram_link fr) (chat_ident chat)
              (Some (session_name self)) w) as (tl2 & w1 & -> & _ & _ & _ & _ & Hm1).
  destruct (process_message_counts message (chat_ident chat)
              (incr_message_count (f_stats fr)) tl2 w1)
    as (new_max_id & stats' & w2 & -> & _ & _ & Hcases).
  intros [= <- <-].
  destruct Hcases as [[-> Hm2] | [-> [row Hm2]]];
    destruct (truthy_opt truthy_int new_max_id); simpl;
    rewrite Hm2, ?length_app, Hm1; simpl; repeat split; lia.
Qed.

(** X5.  A poll handles at most [MAX_MESSAGES_PER_CHAT] messages: the count
    of messages seen grows by no more than the limit, the count of relevant
    messages grows by exactly the number of rows the poll adds to the
    messages table, and no more rows are added than messages were seen. *)
Theorem process_chat_counts (self : TelegramParser) (telegram_link : TelegramLink)
    (stats : ParserStats) (w : World) :
  0 <= MAX_MESSAGES_PER_CHAT (config self) ->
  exists tl' stats' w',
    process_chat self telegram_link stats w = (Return (tl', stats'), w') /\
    st_relevant_messages stats' - st_relevant_messages stats
      = Z.of_nat (length (w_messages w')) - Z.of_nat (length (w_messages w)) /\
    0 <= st_relevant_messages stats' - st_relevant_messages stats /\
    st_relevant_messages stats' - st_relevant_messages stats
      <= st_message_count stats' - st_message_count stats /\
    st_message_count stats' - st_message_count stats <= MAX_MESSAGES_PER_CHAT (config self).
Proof.
  intros Hmax.
  destruct (process_chat_preserves
              (count_inv stats w (MAX_MESSAGES_PER_CHAT (config self)))
              self telegram_link stats w) as (fr' & w' & Hrun & Hinv).
  - intros message s r s'. apply process_chat_step_counts.
  - intros fr w1 v H. exact H.
  - intros fr w1 l H. exact H.
  - unfold count_inv. simpl. repeat split; lia.
  - exists (f_telegram_link fr'), (f_stats fr'), w'. split; [done|].
    unfold count_inv in Hinv. simpl in Hinv. lia.
Qed.

(** X6.  A poll of a source that is bound to a chat writes nothing to the
    table of sources: not the cursor, not the poll timestamp, not the
    owner. *)
Theorem process_chat_bound_source_writes_no_source (self : TelegramParser)
    (telegram_link : TelegramLink) (stats : ParserStats) (w : World) :
  truthy_opt truthy_int (tl_chat_id telegram_link) = true ->
  exists r w',
    process_chat self telegram_link stats w = (Return r, w') /\
    w_telegram_links w' = w_telegram_links w.
Proof.
  intros Hbound.
  destruct (process_chat_preserves
              (fun s => truthy_opt truthy_int (tl_chat_id (f_telegram_link (fst s))) = true /\
                        w_telegram_links (snd s) = w_telegram_links w)
              self telegram_link stats w) as (fr' & w' & Hrun & _ & Hl).
  - intros message [fr w1] r s'. simpl. intros [Hb Hl].
    rewrite process_chat_step_run. cbv zeta.
    destruct (_ <? _); [by intros [= <- <-]|].
    destruct (msg_chat message) as [chat|]; [|by intros [= <- <-]].
    rewrite save_chat_id_run, Hb.
    destruct (process_message_counts message (chat_ident chat)
                (incr_message_count (f_stats fr)) (f_telegram_link fr) w1)
      as (new_max_id & stats' & w2 & -> & Hl2 & _).
    intros [= <- <-]. destruct (truthy_opt truthy_int new_max_id); simpl; split; congruence.
  - intros fr w1 v H. exact H.
  - intros fr w1 l H. exact H.
  - by split.
  - by eexists _, _.
Qed.

Lemma save_chat_id_clock (telegram_link : TelegramLink) (chat_id : Z)
    (session : option string) (w : World) :
  exists tl' w',
    save_chat_id telegram_link chat_id session w = (Return tl', w') /\ w_now w' = w_now w.
Proof.
  rewrite save_chat_id_run. destruct (truthy_opt _ _); by eexists _, _.
Qed.

(** The clock does not run backwards during a poll. *)
Lemma process_chat_clock (self : TelegramParser) (telegram_link : TelegramLink)
    (stats : ParserStats) (w : World) :
  exists r w', process_chat self telegram_link stats w = (Return r, w') /\ w_now w <= w_now w'.
Proof.
  destruct (process_chat_preserves (fun s => w_now w <= w_now (snd s))
              self telegram_link stats w) as (fr' & w' & Hrun & Hle).
  - intros message [fr w1] r s'. simpl. intros Hle.
    rewrite process_chat_step_run. cbv zeta.
    destruct (_ <? _); [by intros [= <- <-]|].
    destruct (msg_chat message) as [chat|]; [|by intros [= <- <-]].
    destruct (save_chat_id_clock (f_telegram_link fr) (chat_ident chat)
                (Some (session_name self)) w1) as (tl2 & w1' & -> & Hn1).
    destruct (process_message_counts message (chat_ident chat)
                (incr_message_count (f_stats fr)) tl2 w1')
      as (new_max_id & stats' & w2 & -> & _ & Hn & _).
    intros [= <- <-]. simpl. lia.
  - intros fr w1 v H. simpl in *. lia.
  - intros fr w1 l H. exact H.
  - simpl. lia.
  - by eexists _, _.
Qed.

(** ** Polls that end before the loop *)

Lemma startswith_longer (s : string) :
  startswith s "t.me/" = false -> startswith s "t.me/+" = false.
Proof.
  unfold startswith. intros H. destruct (String.prefix "t.me/+" s) eqn:Hp; [|done].
  apply prefix_spec in Hp as [t ->].
  change ("t.me/+" +:+ t)%string with ("t.me/" +:+ ("+" +:+ t))%string in H.
  by rewrite prefix_append in H.
Qed.

(** X7.  A source from which no chat can be taken is left alone: with no
    link, with the empty link or the bare link [t.me/], or with a link of
    another form and a chat id that is null or 0, the poll returns at once,
    changes nothing in the store and notes no poll time. *)
Theorem process_chat_skips_unusable_source (self : TelegramParser)
    (telegram_link : TelegramLink) (stats : ParserStats) (w : World) :
  tl_link telegram_link = None \/
  tl_link telegram_link = Some EmptyString \/
  tl_link telegram_link = Some "t.me/"%string \/
  (exists l, tl_link telegram_link = Some l /\ startswith l "t.me/" = false /\
             (tl_chat_id telegram_link = None \/ tl_chat_id telegram_link = Some 0)) ->
  process_chat self telegram_link stats w = (Return (telegram_link, stats), w).
Proof.
  unfold process_chat, extract_chat.
  intros [-> | [-> | [-> | (l & -> & Hs & Hc)]]]; try reflexivity.
  rewrite Hs, (startswith_longer _ Hs).
  destruct (negb (truthy_str l)); [reflexivity|].
  by destruct Hc as [-> | ->].
Qed.

(** X8.  When resolving the chat fails, the poll processes no message and
    stores nothing.  On a rate limit it sleeps the signalled number of
    seconds, on any other error it does not sleep.  In each case it returns,
    and its [finally] clause has the stored cursor, or 0, and the time of
    the start of the poll for the write-back. *)
Theorem process_chat_resolution_error (self : TelegramParser) (telegram_link : TelegramLink)
    (stats : ParserStats) (w : World) (chat : ChatRef) (e : exn) :
  extract_chat telegram_link = Some chat ->
  truthy_chat chat = true ->
  get_chat (client self) chat = inl e ->
  exists w',
    process_chat self telegram_link stats w = (Return (telegram_link, stats), w') /\
    w_messages w' = w_messages w /\
    w_telegram_links w' = w_telegram_links w /\
    w_now w' = w_now w + match e with FloodWait value => Z.max 0 value | _ => 0 end /\
    w_never_awaited w'
      = w_never_awaited w ++
        [ {| pu_link := telegram_link; pu_last_check_at := w_now w;
             pu_last_message_id := default 0 (tl_last_message_id telegram_link) |} ].
Proof.
  intros He Ht Hg. rewrite (process_chat_run _ _ _ _ _ He Ht).
  unfold run_frame, try_finally, try_except, process_chat_try.
  rewrite bind_run. unfold get_frame at 1. rewrite Hg.
  destruct e; simpl; eexists; (split; [reflexivity|]); simpl; repeat split; lia.
Qed.

(** ** The passes of [run] *)

Lemma get_tg_links_run (exclude_unknown_chats : bool) (session : option string) (w : World) :
  exists links, get_tg_links exclude_unknown_chats session w = (Return links, w).
Proof.
  unfold get_tg_links. rewrite bind_run. simpl. destruct exclude_unknown_chats; by eexists.
Qed.



(** The clock does not run backwards in the loop over a batch. *)
Lemma run_links_clock (self : TelegramParser) (links : list TelegramLink)
    (inaccessible_chats : gset (option string)) (s : ParserStats * World) :
  exists r s',
    run_links (poll_of self) links inaccessible_chats s = (Return r, s') /\
    w_now (snd s) <= w_now (snd s').
Proof.
  revert inaccessible_chats s.
  induction links as [|telegram_link rest IH]; intros inacc s; simpl.
  - eexists _, _. split; [reflexivity|]. lia.
  - destruct (bool_decide (tl_link telegram_link ∈ inacc)); [apply IH|].
    rewrite bind_run. simpl. rewrite bind_run. unfold try_except. rewrite bind_run.
    unfold poll_of at 1. simpl.
    destruct (process_chat_clock self telegram_link (incr_chats_count s.1) s.2)
      as ([tl' stats'] & w1 & -> & Hle).
    simpl. rewrite bind_run.
    destruct (IH inacc (stats', w1)) as ([inacc' polled] & s' & -> & Hle').
    eexists _, _. split; [reflexivity|]. simpl in *. lia.
Qed.

Lemma run_iteration_clock (self : TelegramParser) (exclude_unknown_chats : bool)
    (inaccessible_chats : gset (option string)) (w : World) :
  300 <= PAUSE_AFTER_FULL_PARSING (config self) ->
  exists r w',
    run_iteration self (poll_of self) exclude_unknown_chats inaccessible_chats w
      = (Return r, w') /\
    w_now w + 300 <= w_now w'.
Proof.
  intros Hpause. unfold run_iteration. rewrite bind_run. unfold utcnow at 1. rewrite bind_run.
  destruct (get_tg_links_run exclude_unknown_chats (Some (session_name self)) w) as [links ->].
  destruct links as [|t0 links].
  - eexists _, _. split; [reflexivity|]. simpl. lia.
  - match goal with |- context [run_links ?p ?l ?i ?s] =>
      destruct (run_links_clock self l i s) as (r & [st' w2] & -> & Hle)
    end.
    eexists _, _. split; [reflexivity|]. simpl in *. lia.
Qed.

(** X10.  The loop of [run] does not spin: when the pause after a batch is
    at least the 300 seconds it waits on an empty batch, [n] passes take at
    least [300 * n] seconds, whatever the polls do. *)
Theorem run_paces_itself (self : TelegramParser) (exclude_unknown_chats : bool) (n : nat)
    (w : World) :
  300 <= PAUSE_AFTER_FULL_PARSING (config self) ->
  exists r w',
    run self exclude_unknown_chats n w = (Return r, w') /\
    w_now w + 300 * Z.of_nat n <= w_now w'.
Proof.
  intros Hpause. unfold run, run_with. generalize (∅ : gset (option string)) as inacc.
  revert w. induction n as [|n IH]; intros w inacc.
  - eexists _, _. split; [reflexivity|]. simpl. lia.
  - cbn [run_loop]. rewrite bind_run.
    destruct (run_iteration_clock self exclude_unknown_chats inacc w Hpause)
      as ([inacc1 polled] & w1 & -> & Hle).
    simpl. rewrite bind_run.
    destruct (IH w1 inacc1) as ([inacc2 trace] & w2 & -> & Hle').
    eexists _, _. split; [reflexivity|]. lia.
Qed.

(** ** The verdicts of the duplicate check *)

Lemma scan_sent_texts_false (text : string) (messages_texts : list string) :
  scan_sent_texts text messages_texts = inr false ->
  exists sent_text q,
    sent_text ∈ messages_texts /\
    tfidf_cosine text (bs_text (split_head anchor_open sent_text)) = inr q /\
    Qle_bool MAX_LEVEL_OF_DUPLICATE_SIMILARITY q = true.
Proof.
  induction messages_texts as [|s rest IH]; simpl; [done|].
  destruct (tfidf_cosine text (bs_text (split_head anchor_open s))) as [e|q] eqn:Hq; [done|].
  destruct (Qle_bool MAX_LEVEL_OF_DUPLICATE_SIMILARITY q) eqn:Hle.
  - intros _. exists s, q. split; [by left | done].
  - intros H. destruct (IH H) as (s' & q' & Hin & H'). exists s', q'. split; [by right | done].
Qed.

(** X11.  The body of [check_duplicate] gives the verdict [False] only when
    a message stored less than 24 hours ago scores, against the candidate,
    at or above the threshold; messages stored earlier never make a
    candidate a duplicate. *)
Theorem check_duplicate_body_rejects_only_scored (text : string) (w w' : World) :
  check_duplicate_body text w = (Return false, w') ->
  exists row q,
    row ∈ w_messages w /\
    w_now w - 86400 < row_created_at row /\
    tfidf_cosine (bs_text (split_head anchor_open text))
      (bs_text (split_head anchor_open (row_text row))) = inr q /\
    Qle_bool MAX_LEVEL_OF_DUPLICATE_SIMILARITY q = true.
Proof.
  destruct (decide (text = EmptyString)) as [->|Hne]; [done|].
  rewrite (check_duplicate_body_run _ _ Hne).
  destruct (scan_sent_texts _ _) as [e|passed] eqn:Hscan; [done|].
  intros [= -> _].
  destruct (scan_sent_texts_false _ _ Hscan) as (s & q & Hin & Hq & Hle).
  apply list_elem_of_fmap in Hin as (row & -> & Hrow).
  apply list_elem_of_In, filter_In in Hrow as [Hrow Hfresh].
  exists row, q. split; [by apply list_elem_of_In|]. split; [by apply Z.ltb_lt | done].
Qed.

Lemma scan_sent_texts_raises (text : string) (before after : list string)
    (sent_text : string) (e : exn) :
  (forall s, s ∈ before ->
     exists q, tfidf_cosine text (bs_text (split_head anchor_open s)) = inr q /\
               Qle_bool MAX_LEVEL_OF_DUPLICATE_SIMILARITY q = false) ->
  tfidf_cosine text (bs_text (split_head anchor_open sent_text)) = inl e ->
  scan_sent_texts text (before ++ sent_text :: after) = inl e.
Proof.
  intros Hb He. induction before as [|s before IH]; simpl.
  - by rewrite He.
  - destruct (Hb s) as (q & -> & ->); [by left|]. apply IH. intros s' Hs'. apply Hb. by right.
Qed.

(** X12.  The duplicate check fails open: when scoring the candidate
    against a stored text raises, and no text scanned before it reached the
    threshold, the verdict is [True] and the texts after it are not looked
    at, whatever they are. *)
Theorem check_duplicate_body_fails_open (text : string) (w : World)
    (before after : list string) (sent_text : string) (e : exn) :
  text <> EmptyString ->
  map row_text (List.filter (fun r => w_now w - 86400 <? row_created_at r) (w_messages w))
    = before ++ sent_text :: after ->
  (forall s, s ∈ before ->
     exists q, tfidf_cosine (bs_text (split_head anchor_open text))
                 (bs_text (split_head anchor_open s)) = inr q /\
               Qle_bool MAX_LEVEL_OF_DUPLICATE_SIMILARITY q = false) ->
  tfidf_cosine (bs_text (split_head anchor_open text))
    (bs_text (split_head anchor_open sent_text)) = inl e ->
  check_duplicate_body text w = (Return true, w).
Proof.
  intros Hne Hrows Hb He. rewrite (check_duplicate_body_run _ _ Hne), Hrows.
  by rewrite (scan_sent_texts_raises _ _ _ _ _ Hb He).
Qed.

(** ** The cache of verdicts *)

Lemma cache_lookup_None {K V} `{EqDecision K} (k : K) (c : list (CacheEntry K V)) :
  cache_lookup k c = None <-> forall e, e ∈ c -> ce_key e <> k.
Proof.
  induction c as [|x c IH]; simpl.
  - split; [intros _ e He; by apply elem_of_nil in He | done].
  - destruct (decide (ce_key x = k)) as [Hk|Hk].
    + split; [done|]. intros H. exfalso. apply (H x); [by left | done].
    + rewrite IH. split.
      * intros H e [-> | He]%elem_of_cons; auto.
      * intros H e He. apply H. by right.
Qed.

Lemma cache_live_elem {K V} (now : Z) (c : list (CacheEntry K V)) (e : CacheEntry K V) :
  e ∈ cache_live now c <-> e ∈ c /\ now < ce_expires e.
Proof.
  unfold cache_live. rewrite !list_elem_of_In, filter_In, Z.ltb_lt. done.
Qed.

Lemma check_duplicate_body_cache (text : string) (w : World)
    (c : list (CacheEntry string bool)) :
  check_duplicate_body text (with_check_duplicate_cache c w)
  = (fst (check_duplicate_body text w), with_check_duplicate_cache c w).
Proof.
  destruct (decide (text = EmptyString)) as [->|Hne]; [reflexivity|].
  by rewrite !(check_duplicate_body_run _ _ Hne).
Qed.

(** The store after a call of [check_duplicate] that found no verdict in the
    cache: the new verdict heads the cache and lives 300 seconds. *)
Lemma check_duplicate_miss (text : string) (w : World) :
  cache_lookup text (cache_live (w_now w) (w_check_duplicate_cache w)) = None ->
  exists passed,
    fst (check_duplicate_body text w) = Return passed /\
    check_duplicate text w
    = (Return passed,
       with_check_duplicate_cache
         (take alru_maxsize
            ({| ce_key := text; ce_value := passed; ce_expires := w_now w + 300 |}
               :: cache_live (w_now w) (w_check_duplicate_cache w))) w).
Proof.
  intros Hmiss. unfold check_duplicate. rewrite alru_cache_run. cbv zeta. rewrite Hmiss.
  rewrite check_duplicate_body_cache.
  destruct (check_duplicate_body_returns text w) as [passed ->]. simpl.
  exists passed. split; [done|]. reflexivity.
Qed.

(** X13.  A verdict that [check_duplicate] computed is served again for the
    next 300 seconds: while the cache is as that call left it, a call for
    the same text returns the same verdict and does not look at the store. *)
Theorem check_duplicate_served_from_cache (text : string) (w w1 w2 : World) (passed : bool) :
  cache_lookup text (cache_live (w_now w) (w_check_duplicate_cache w)) = None ->
  check_duplicate text w = (Return passed, w1) ->
  w_check_duplicate_cache w2 = w_check_duplicate_cache w1 ->
  w_now w <= w_now w2 < w_now w + 300 ->
  fst (check_duplicate text w2) = Return passed.
Proof.
  intros Hmiss Hrun Hcache Hnow.
  destruct (check_duplicate_miss text w Hmiss) as (passed' & _ & Hrun').
  rewrite Hrun in Hrun'. injection Hrun' as <- ->.
  simpl in Hcache.
  apply (check_duplicate_hit text w2
           {| ce_key := text; ce_value := passed; ce_expires := w_now w + 300 |}).
  rewrite Hcache. simpl. unfold cache_live at 1. simpl.
  replace (w_now w2 <? w_now w + 300) with true by (symmetry; apply Z.ltb_lt; lia).
  simpl. by rewrite decide_True.
Qed.

(** X14.  A cached verdict is not served beyond 300 seconds: once that time
    has passed since the call that computed it, a call for the same text
    runs the body again and returns its verdict on the store as it is
    then. *)
Theorem check_duplicate_expires (text : string) (w w1 w2 : World) (passed : bool) :
  cache_lookup text (cache_live (w_now w) (w_check_duplicate_cache w)) = None ->
  check_duplicate text w = (Return passed, w1) ->
  w_check_duplicate_cache w2 = w_check_duplicate_cache w1 ->
  w_now w + 300 <= w_now w2 ->
  fst (check_duplicate text w2) = fst (check_duplicate_body text w2).
Proof.
  intros Hmiss Hrun Hcache Hnow.
  destruct (check_duplicate_miss text w Hmiss) as (passed' & _ & Hrun').
  rewrite Hrun in Hrun'. injection Hrun' as <- ->.
  simpl in Hcache.
  assert (cache_lookup text (cache_live (w_now w2) (w_check_duplicate_cache w2)) = None)
    as Hmiss2.
  { apply cache_lookup_None. intros e [He Hlive]%cache_live_elem. rewrite Hcache in He.
    apply elem_of_cons in He as [-> | He]; [simpl in Hlive; lia|].
    apply elem_of_take in He as (i & He & _). apply list_elem_of_lookup_2 in He.
    rewrite cache_lookup_None in Hmiss. by apply Hmiss. }
  destruct (check_duplicate_miss text w2 Hmiss2) as (passed2 & Hb & ->). by rewrite Hb.
Qed.

Lemma cache_remove_elem {K V} `{EqDecision K} (k : K) (c : list (CacheEntry K V))
    (e : CacheEntry K V) :
  e ∈ cache_remove k c <-> e ∈ c /\ ce_key e <> k.
Proof.
  unfold cache_remove. rewrite !list_elem_of_In, filter_In, negb_true_iff, bool_decide_eq_false.
  done.
Qed.

Lemma filter_keys_NoDup {K V} (f : CacheEntry K V -> bool) (c : list (CacheEntry K V)) :
  NoDup (map ce_key c) -> NoDup (map ce_key (List.filter f c)).
Proof.
  induction c as [|x c IH]; simpl; [done|].
  intros [Hx Hc]%NoDup_cons. destruct (f x); simpl; [|by apply IH].
  apply NoDup_cons. split; [|by apply IH].
  intros (e & He & Hin)%list_elem_of_fmap. apply Hx, list_elem_of_fmap. exists e. split; [done|].
  apply list_elem_of_In, filter_In in Hin as [Hin _]. by apply list_elem_of_In.
Qed.

Lemma filter_length_le {A} (f : A -> bool) (l : list A) :
  (length (List.filter f l) <= length l)%nat.
Proof. induction l as [|x l IH]; simpl; [lia|]. destruct (f x); simpl; lia. Qed.

Lemma cache_remove_length {K V} `{EqDecision K} (k : K) (c : list (CacheEntry K V))
    (e : CacheEntry K V) :
  e ∈ c -> ce_key e = k -> (S (length (cache_remove k c)) <= length c)%nat.
Proof.
  intros He Hk. induction c as [|x c IH]; [by apply elem_of_nil in He|].
  unfold cache_remove in *. simpl.
  apply elem_of_cons in He as [<- | He].
  - rewrite bool_decide_eq_true_2 by done. simpl.
    pose proof (filter_length_le (fun e0 => negb (bool_decide (ce_key e0 = k))) c). lia.
  - specialize (IH He). destruct (negb (bool_decide (ce_key x = k))); simpl; lia.
Qed.

(** X15.  The cache of [check_duplicate] stays within its bounds: if it
    holds at most 128 verdicts, no two for the same text, then so it does
    after any call. *)
Theorem check_duplicate_cache_bounded (text : string) (w : World) :
  (length (w_check_duplicate_cache w) <= alru_maxsize)%nat ->
  NoDup (map ce_key (w_check_duplicate_cache w)) ->
  let w' := snd (check_duplicate text w) in
  (length (w_check_duplicate_cache w') <= alru_maxsize)%nat /\
  NoDup (map ce_key (w_check_duplicate_cache w')).
Proof.
  intros Hlen Hnd. cbv zeta.
  pose proof (filter_length_le (fun e => w_now w <? ce_expires e) (w_check_duplicate_cache w))
    as Hlive.
  pose proof (filter_keys_NoDup (fun e => w_now w <? ce_expires e) _ Hnd) as Hndlive.
  fold (cache_live (w_now w) (w_check_duplicate_cache w)) in Hlive, Hndlive.
  destruct (cache_lookup text (cache_live (w_now w) (w_check_duplicate_cache w)))
    as [e|] eqn:Hlook.
  - unfold check_duplicate. rewrite alru_cache_run. cbv zeta. rewrite Hlook. simpl.
    apply cache_lookup_key in Hlook as [Hin Hk]. split.
    + pose proof (cache_remove_length text _ e Hin Hk). lia.
    + apply NoDup_cons. split.
      * intros (e' & He' & [_ Hne]%cache_remove_elem)%list_elem_of_fmap. congruence.
      * by apply filter_keys_NoDup.
  - destruct (check_duplicate_miss text w Hlook) as (passed & _ & ->).
    cbn [snd w_check_duplicate_cache with_check_duplicate_cache]. split.
    + rewrite length_take. unfold alru_maxsize. lia.
    + assert (NoDup (map ce_key
                ({| ce_key := text; ce_value := passed; ce_expires := w_now w + 300 |}
                   :: cache_live (w_now w) (w_check_duplicate_cache w)))) as Hall.
      { simpl. apply NoDup_cons. split; [|done].
        intros (e' & He' & Hin)%list_elem_of_fmap.
        rewrite cache_lookup_None in Hlook. by apply (Hlook e'). }
      revert Hall. generalize alru_maxsize.
      generalize ({| ce_key := text; ce_value := passed; ce_expires := w_now w + 300 |}
                    :: cache_live (w_now w) (w_check_duplicate_cache w)).
      intros l n Hl. apply (sublist_NoDup (map ce_key (take n l)) (map ce_key l)); [exact Hl|].
      apply (fmap_sublist ce_key), sublist_take.
Qed.

(** ** What a stored message looks like in the store *)

(** X16.  When [process_message] stores a message, the duplicate check let
    its text through and the categorizer found at least one category; the
    new row copies the date, the author, the chat and the permalink of the
    message and is stamped with the time of the store; and the rows added to
    [category_message] are one per category found, each once, all for the
    id of the new row. *)
Theorem process_message_stores_with_categories (message : Message) (chat_id : Z)
    (stats : ParserStats) (telegram_link : TelegramLink) (w w' : World)
    (r : result (option Z * ParserStats)) :
  process_message message chat_id stats telegram_link w = (r, w') ->
  w_messages w' <> w_messages w ->
  exists text w1 categories w2 row,
    msg_text message = Some text /\
    check_duplicate text w = (Return true, w1) /\
    find_message_categories text telegram_link w1 = (Return categories, w2) /\
    categories <> ∅ /\
    r = Return (Some (msg_id message), incr_relevant_messages stats) /\
    w_messages w' = w_messages w ++ [row] /\
    row_id row = uuid4 (w_uuids w) /\
    row_created_at row = w_now w /\
    row_date row = msg_date message /\
    row_chat_id row = chat_ident <$> msg_chat message /\
    row_link row = Some (msg_link message) /\
    row_from_user_id row = user_ident <$> msg_from_user message /\
    row_from_username row = msg_from_user message ≫= user_username /\
    w_category_message w'
      = w_category_message w ++
        map (fun category_id =>
               {| cml_category_id := category_id; cml_message_id := row_id row;
                  cml_created_at := w_now w |}) (elements categories) /\
    NoDup (elements categories).
Proof.
  intros Hrun Hnew.
  destruct (msg_text message) as [text|] eqn:Ht.
  2:{ unfold process_message in Hrun. rewrite Ht in Hrun. by injection Hrun as _ <-. }
  destruct (decide (text = EmptyString)) as [->|Hne].
  { unfold process_message in Hrun. rewrite Ht in Hrun. by injection Hrun as _ <-. }
  rewrite (process_message_run _ _ _ _ _ text Ht Hne) in Hrun.
  destruct (check_duplicate_returns text w) as (passed & w1 & Hd & Hoc1). rewrite Hd in Hrun.
  destruct passed; simpl in Hrun.
  2:{ injection Hrun as _ <-. destruct Hoc1. congruence. }
  destruct (find_message_categories_run text telegram_link w1) as (rows & w2 & _ & Hf & Hoc2).
  rewrite Hf in Hrun.
  pose proof (only_caches_trans _ _ _ Hoc1 Hoc2) as [Hn12 _ Hm12 Hcm12 _ _ _ Hu12 _ _].
  destruct (bool_decide (find_in_rows rows text = ∅)) eqn:Hcat.
  { injection Hrun as _ <-. congruence. }
  apply bool_decide_eq_false in Hcat.
  destruct (get_text_with_link message) as [e|twl] eqn:Hg.
  { injection Hrun as _ <-. congruence. }
  destruct (get_text_with_link_shape _ _ Hg) as (chat & tail & Hc & Htwl & _).
  rewrite Ht in Htwl. simpl in Htwl.
  assert (truthy_str twl = true) as Htruthy.
  { rewrite Htwl. destruct text as [|c text]; [done|]. by rewrite append_cons. }
  unfold _save_relevant_message in Hrun.
  rewrite Hc, Htruthy, bool_decide_eq_false_2 in Hrun by done.
  simpl in Hrun. injection Hrun as <- <-.
  exists text, w1, (find_in_rows rows text), w2. eexists.
  split; [done|]. split; [done|]. split; [done|]. split; [done|]. split; [done|].
  simpl. rewrite Hm12, Hcm12, Hu12, Hn12, Hc. simpl.
  repeat (split; [reflexivity|]). apply NoDup_elements.
Qed.

(** ** The keywords of a global category *)

(** X17.  The keywords of a category marked global apply to a source exactly
    when the category is linked to some source: with at least one row in
    [category_telegram_link] they apply to every source, with none they
    apply to no source at all. *)
Theorem global_keywords_need_a_link (telegram_link_id : string) (w : World)
    (k : Keyword) (c : Category) :
  k ∈ w_keywords w ->
  c ∈ w_categories w ->
  cat_id c = kw_category_id k ->
  cat_global_search c = 1 ->
  (k ∈ get_keyword_rows_query telegram_link_id w
   <-> exists l, l ∈ w_category_telegram_link w /\ ctl_category_id l = cat_id c).
Proof.
  intros Hk Hc Hid Hg. unfold get_keyword_rows_query.
  rewrite list_elem_of_In, filter_In, existsb_exists. split.
  - intros [_ (c' & _ & [Hc' (l & Hl & [Hl' _]%andb_true_iff)%existsb_exists]%andb_true_iff)].
    exists l. apply Z.eqb_eq in Hc', Hl'. split; [by apply list_elem_of_In | congruence].
  - intros (l & Hl & Hlc). split; [by apply list_elem_of_In|].
    exists c. split; [by apply list_elem_of_In|].
    apply andb_true_iff. split; [by apply Z.eqb_eq|].
    apply existsb_exists. exists l. split; [by apply list_elem_of_In|].
    apply andb_true_iff. split; [by apply Z.eqb_eq|].
    apply orb_true_iff. right. by apply Z.eqb_eq.
Qed.

(** ** Binding, unbinding and flagging a source *)

Lemma well_keyed_insert (w : World) (t : TelegramLink) :
  well_keyed w ->
  well_keyed (with_telegram_links (<[ tl_id t := t ]> (w_telegram_links w)) w).
Proof.
  intros Hw k t'. simpl. rewrite lookup_insert. case_decide as Hk.
  - by intros [= <-].
  - apply Hw.
Qed.

(** X18.  Unbinding undoes the binding but not the claim: after
    [save_chat_id] by a session on a source that is not bound,
    [set_telegram_link_chat_id_null] by the same session writes the source
    back with a null [chat_id] and with that session still as its owner; by
    any other session, and by the session [velinapp], it changes nothing. *)
Theorem bind_then_unbind (telegram_link : TelegramLink) (chat_id : Z) (session : string)
    (other : option string) (w : World) :
  tl_chat_id telegram_link = None ->
  exists tl1 w1,
    save_chat_id telegram_link chat_id (Some session) w = (Return tl1, w1) /\
    set_telegram_link_chat_id_null tl1 other w1
    = if bool_decide (other = Some session) && negb (bool_decide (session = "velinapp"%string))
      then (Return (set_parser_account (Some session) telegram_link),
            with_telegram_links
              (<[ tl_id telegram_link := set_parser_account (Some session) telegram_link ]>
                 (w_telegram_links w)) w)
      else (Return tl1, w1).
Proof.
  intros Hnull. rewrite save_chat_id_run, Hnull. simpl.
  eexists _, _. split; [reflexivity|].
  unfold set_telegram_link_chat_id_null. simpl.
  destruct (decide (other = Some session)) as [->|Hne].
  - rewrite !bool_decide_eq_true_2 by done. simpl.
    destruct (decide (session = "velinapp"%string)) as [->|Hv].
    + reflexivity.
    + rewrite (bool_decide_eq_false_2 (session = _)) by done.
      rewrite bool_decide_eq_false_2 by congruence. simpl.
      rewrite bind_run. simpl. unfold with_telegram_links. simpl.
      rewrite insert_insert_eq.
      destruct telegram_link; simpl in *; subst; reflexivity.
  - rewrite (bool_decide_eq_false_2 (Some session = other)) by congruence.
    rewrite (bool_decide_eq_false_2 (other = Some session)) by done. reflexivity.
Qed.

Lemma rows_elem (w : World) (t : TelegramLink) :
  t ∈ (map_to_list (w_telegram_links w)).*2 <-> exists k, w_telegram_links w !! k = Some t.
Proof.
  rewrite list_elem_of_fmap. split.
  - intros ([k t'] & -> & Hin). exists k. by apply elem_of_map_to_list.
  - intros [k Hk]. exists (k, t). split; [done|]. by apply elem_of_map_to_list.
Qed.

(** What both queries of [get_tg_links] guarantee of each source they
    return, when the random order of the second one is an order of the rows
    it is given. *)
Lemma get_tg_links_elem (exclude_unknown_chats : bool) (session : option string)
    (w w' : World) (links : list TelegramLink) (t : TelegramLink) :
  (forall l x, x ∈ func_rand l -> x ∈ l) ->
  get_tg_links exclude_unknown_chats session w = (Return links, w') ->
  t ∈ links ->
  (exists k, w_telegram_links w !! k = Some t) /\
  (tl_parser_account t = session \/ tl_parser_account t = None) /\
  if exclude_unknown_chats then tl_chat_id t <> None
  else tl_chat_id t = None /\ tl_invalid t <> Some true.
Proof.
  intros Hrand. unfold get_tg_links. rewrite bind_run. simpl.
  destruct exclude_unknown_chats; intros [= <- _] Hin.
  - apply elem_of_take in Hin as (i & Hin & _). apply list_elem_of_lookup_2 in Hin.
    rewrite order_by_perm in Hin.
    apply list_elem_of_In, filter_In in Hin as [Hin Hp]. apply list_elem_of_In, rows_elem in Hin.
    apply andb_true_iff in Hp as [Hb Ho]. apply bool_decide_eq_true in Hb.
    unfold owned_or_unclaimed in Ho. apply orb_true_iff in Ho.
    rewrite !bool_decide_eq_true in Ho. done.
  - apply elem_of_take in Hin as (i & Hin & _). apply list_elem_of_lookup_2 in Hin.
    apply Hrand in Hin.
    apply list_elem_of_In, filter_In in Hin as [Hin Hp]. apply list_elem_of_In, rows_elem in Hin.
    apply andb_true_iff in Hp as [[Hb Ho]%andb_true_iff Hi]. apply bool_decide_eq_true in Hb.
    unfold owned_or_unclaimed in Ho. apply orb_true_iff in Ho, Hi.
    rewrite !bool_decide_eq_true in Ho, Hi.
    split; [done|]. split; [done|]. split; [done|]. destruct Hi as [-> | ->]; done.
Qed.

(** X19.  The discovery query ([exclude_unknown_chats] false) returns at
    most one source, and that source is in the table, not bound to a chat,
    not flagged invalid, and unclaimed or owned by the session. *)
Theorem get_tg_links_discovery (session : option string) (w w' : World)
    (links : list TelegramLink) :
  (forall l x, x ∈ func_rand l -> x ∈ l) ->
  get_tg_links false session w = (Return links, w') ->
  w' = w /\
  (length links <= 1)%nat /\
  forall t, t ∈ links ->
    (exists k, w_telegram_links w !! k = Some t) /\
    tl_chat_id t = None /\
    tl_invalid t <> Some true /\
    (tl_parser_account t = session \/ tl_parser_account t = None).
Proof.
  intros Hrand Hrun. split; [|split].
  - unfold get_tg_links in Hrun. rewrite bind_run in Hrun. simpl in Hrun. by injection Hrun.
  - unfold get_tg_links in Hrun. rewrite bind_run in Hrun. simpl in Hrun.
    injection Hrun as <- _. rewrite length_take. lia.
  - intros t Ht. destruct (get_tg_links_elem false session w w' links t Hrand Hrun Ht)
      as (Hk & Ho & Hc & Hi). done.
Qed.

(** X20.  Binding claims the source: once [save_chat_id] has bound an
    unbound source for a session, neither query of [get_tg_links] returns
    that source to any other session, and the discovery query returns it to
    no one. *)
Theorem bound_source_is_claimed (telegram_link : TelegramLink) (chat_id : Z)
    (session : string) (w w1 w2 : World) (tl1 : TelegramLink)
    (exclude_unknown_chats : bool) (asking : option string)
    (links : list TelegramLink) (t : TelegramLink) :
  (forall l x, x ∈ func_rand l -> x ∈ l) ->
  well_keyed w ->
  tl_chat_id telegram_link = None ->
  save_chat_id telegram_link chat_id (Some session) w = (Return tl1, w1) ->
  get_tg_links exclude_unknown_chats asking w1 = (Return links, w2) ->
  t ∈ links ->
  tl_id t = tl_id telegram_link ->
  exclude_unknown_chats = true /\ asking = Some session.
Proof.
  intros Hrand Hw Hnull Hsave Hq Ht Hid.
  rewrite save_chat_id_run, Hnull in Hsave. simpl in Hsave. injection Hsave as <- <-.
  destruct (get_tg_links_elem _ _ _ _ _ _ Hrand Hq Ht) as ([k Hk] & Ho & Hmode).
  pose proof (well_keyed_insert w
                (set_parser_account (Some session) (set_chat_id (Some chat_id) telegram_link)) Hw)
    as Hw1.
  pose proof (Hw1 k t Hk) as Hkey. simpl in Hk.
  rewrite <- Hkey, Hid, lookup_insert_eq in Hk. injection Hk as <-.
  simpl in Ho, Hmode. destruct exclude_unknown_chats.
  - split; [done|]. by destruct Ho as [<- | ?].
  - by destruct Hmode.
Qed.

(** X21.  A source flagged by [set_telegram_link_invalid] is never returned
    by the discovery query again, to any session. *)
Theorem invalid_source_is_not_discovered (telegram_link : TelegramLink) (w w1 w2 : World)
    (tl1 : TelegramLink) (asking : option string) (links : list TelegramLink)
    (t : TelegramLink) :
  (forall l x, x ∈ func_rand l -> x ∈ l) ->
  well_keyed w ->
  set_telegram_link_invalid telegram_link w = (Return tl1, w1) ->
  get_tg_links false asking w1 = (Return links, w2) ->
  t ∈ links ->
  tl_id t <> tl_id telegram_link.
Proof.
  intros Hrand Hw Hset Hq Ht Hid.
  unfold set_telegram_link_invalid in Hset. rewrite bind_run in Hset. simpl in Hset.
  injection Hset as <- <-.
  destruct (get_tg_links_elem _ _ _ _ _ _ Hrand Hq Ht) as ([k Hk] & _ & _ & Hinv).
  pose proof (well_keyed_insert w (set_invalid (Some true) telegram_link) Hw) as Hw1.
  pose proof (Hw1 k t Hk) as Hkey. simpl in Hk.
  rewrite <- Hkey, Hid in Hk.
  change (tl_id telegram_link) with (tl_id (set_invalid (Some true) telegram_link)) in Hk.
  rewrite lookup_insert_eq in Hk. injection Hk as <-. by apply Hinv.
Qed.

(** X22.  The default query does not look at the flag: a bound source that
    is unclaimed or owned by the session is still in the batch after
    [set_telegram_link_invalid] has flagged it, when the table holds fewer
    than 30 sources. *)
Theorem invalid_source_is_still_polled (telegram_link : TelegramLink) (w w1 : World)
    (tl1 : TelegramLink) (session : option string) :
  tl_chat_id telegram_link <> None ->
  tl_parser_account telegram_link = session \/ tl_parser_account telegram_link = None ->
  (size (w_telegram_links w) < 30)%nat ->
  set_telegram_link_invalid telegram_link w = (Return tl1, w1) ->
  tl_invalid tl1 = Some true /\
  exists links,
    get_tg_links true session w1 = (Return links, w1) /\ tl1 ∈ links.
Proof.
  intros Hbound Hown Hsize Hset.
  unfold set_telegram_link_invalid in Hset. rewrite bind_run in Hset. simpl in Hset.
  injection Hset as <- <-. split; [reflexivity|].
  unfold get_tg_links. rewrite bind_run. simpl.
  eexists. split; [reflexivity|].
  set (m := <[tl_id telegram_link:=set_invalid (Some true) telegram_link]> (w_telegram_links w)).
  set (P := fun t => bool_decide (tl_chat_id t ≠ None) && owned_or_unclaimed session t).
  assert (set_invalid (Some true) telegram_link ∈ order_by order_leb (List.filter P (map_to_list m).*2))
    as Hin.
  { rewrite order_by_perm. apply list_elem_of_In, filter_In. split.
    - apply list_elem_of_In, list_elem_of_fmap. exists (tl_id telegram_link, set_invalid (Some true) telegram_link).
      split; [done|]. apply elem_of_map_to_list. unfold m. apply lookup_insert_eq.
    - unfold P, owned_or_unclaimed. simpl. apply andb_true_iff. split.
      + by apply bool_decide_eq_true.
      + apply orb_true_iff. rewrite !bool_decide_eq_true. done. }
  rewrite firstn_all2; [exact Hin|].
  rewrite (Permutation_length (order_by_perm _)).
  etrans; [apply filter_length_le|].
  rewrite length_fmap, length_map_to_list. unfold m.
  pose proof (map_size_insert (tl_id telegram_link) (set_invalid (Some true) telegram_link)
                (w_telegram_links w)) as Hs.
  destruct (w_telegram_links w !! tl_id telegram_link); simpl in Hs; rewrite Hs; lia.
Qed.

(** ** A poll that hits an error, and the next pass *)





End More.

(** * More of the code, on the sample *)

Lemma sample_store_well_keyed (keywords : list Keyword) (sources : list TelegramLink) :
  well_keyed (Sample.store keywords sources).
Proof.
  intros k t Hk. simpl in Hk. apply elem_of_list_to_map_2 in Hk.
  apply list_elem_of_fmap in Hk as (t' & [= -> ->] & _). reflexivity.
Qed.

Lemma sample_func_rand (l : list TelegramLink) (x : TelegramLink) :
  x ∈ func_rand (Runtime := Sample.runtime) l -> x ∈ l.
Proof. intros H. exact H. Qed.

Lemma extract_chat_of_link_witness :
  tl_link Sample.source = Some ("t.me/" +:+ "chan")%string /\
  extract_chat Sample.source
  = Some (ChatStr (if startswith "chan" "+" then ("t.me/" +:+ "chan")%string else "chan"%string)).
Proof.
  assert (tl_link Sample.source = Some ("t.me/" +:+ "chan")%string) as H by reflexivity.
  split; [exact H|]. exact (extract_chat_of_link Sample.source "chan" H).
Defined.

Lemma empty_keyword_matches_every_text_witness :
  let keyword_rows := [Sample.keyword "sale" 7; Sample.keyword "" 8] in
  Sample.keyword "" 8 ∈ keyword_rows /\
  kw_keyword (Sample.keyword "" 8) = EmptyString /\
  "hello"%string <> EmptyString /\
  kw_category_id (Sample.keyword "" 8)
    ∈ find_in_rows (rt := Sample.runtime) keyword_rows "hello".
Proof.
  cbv zeta.
  assert (Sample.keyword "" 8 ∈ [Sample.keyword "sale" 7; Sample.keyword "" 8]) as H1
    by (apply list_elem_of_further, list_elem_of_here).
  assert (kw_keyword (Sample.keyword "" 8) = EmptyString) as H2 by reflexivity.
  assert ("hello"%string <> EmptyString) as H3 by discriminate.
  split; [exact H1|]. split; [exact H2|]. split; [exact H3|].
  exact (empty_keyword_matches_every_text (rt := Sample.runtime) _ _ _ H1 H2 H3).
Defined.

Lemma process_chat_counts_witness :
  let self := Sample.parser [Sample.message 12 "big sale"; Sample.message 11 "hello"] in
  let w := Sample.world [Sample.source] in
  0 <= MAX_MESSAGES_PER_CHAT (config self) /\
  exists tl' stats' w',
    process_chat (rt := Sample.runtime) self Sample.source Sample.stats w
      = (Return (tl', stats'), w') /\
    st_relevant_messages stats' - st_relevant_messages Sample.stats
      = Z.of_nat (length (w_messages w')) - Z.of_nat (length (w_messages w)) /\
    0 <= st_relevant_messages stats' - st_relevant_messages Sample.stats /\
    st_relevant_messages stats' - st_relevant_messages Sample.stats
      <= st_message_count stats' - st_message_count Sample.stats /\
    st_message_count stats' - st_message_count Sample.stats <= MAX_MESSAGES_PER_CHAT (config self).
Proof.
  cbv zeta.
  assert (0 <= MAX_MESSAGES_PER_CHAT
                 (config (Sample.parser [Sample.message 12 "big sale"; Sample.message 11 "hello"])))
    as H by (simpl; lia).
  split; [exact H|].
  exact (process_chat_counts (rt := Sample.runtime) _ Sample.source Sample.stats
           (Sample.world [Sample.source]) H).
Defined.

Lemma process_chat_bound_source_writes_no_source_witness :
  let self := Sample.parser [Sample.message 12 "big sale"; Sample.message 11 "hello"] in
  let w := Sample.world [Sample.source] in
  truthy_opt truthy_int (tl_chat_id Sample.source) = true /\
  exists r w',
    process_chat (rt := Sample.runtime) self Sample.source Sample.stats w = (Return r, w') /\
    w_telegram_links w' = w_telegram_links w.
Proof.
  cbv zeta.
  assert (truthy_opt truthy_int (tl_chat_id Sample.source) = true) as H by reflexivity.
  split; [exact H|].
  exact (process_chat_bound_source_writes_no_source (rt := Sample.runtime) _ Sample.source
           Sample.stats (Sample.world [Sample.source]) H).
Defined.

Lemma process_chat_skips_unusable_source_witness :
  let self := Sample.parser [Sample.message 12 "big sale"] in
  let w := Sample.world [Sample.bare_source] in
  (tl_link Sample.bare_source = None \/
   tl_link Sample.bare_source = Some EmptyString \/
   tl_link Sample.bare_source = Some "t.me/"%string \/
   (exists l, tl_link Sample.bare_source = Some l /\ startswith l "t.me/" = false /\
              (tl_chat_id Sample.bare_source = None \/ tl_chat_id Sample.bare_source = Some 0))) /\
  process_chat (rt := Sample.runtime) self Sample.bare_source Sample.stats w
    = (Return (Sample.bare_source, Sample.stats), w).
Proof.
  cbv zeta.
  assert (tl_link Sample.bare_source = None \/
          tl_link Sample.bare_source = Some EmptyString \/
          tl_link Sample.bare_source = Some "t.me/"%string \/
          (exists l, tl_link Sample.bare_source = Some l /\ startswith l "t.me/" = false /\
             (tl_chat_id Sample.bare_source = None \/ tl_chat_id Sample.bare_source = Some 0)))
    as H by (right; right; left; reflexivity).
  split; [exact H|].
  exact (process_chat_skips_unusable_source (rt := Sample.runtime) _ Sample.bare_source
           Sample.stats (Sample.world [Sample.bare_source]) H).
Defined.

Lemma process_chat_resolution_error_witness :
  let self := Sample.failing_parser (FloodWait 30) in
  let w := Sample.world [Sample.source] in
  extract_chat Sample.source = Some (ChatStr "chan") /\
  truthy_chat (ChatStr "chan") = true /\
  get_chat (client self) (ChatStr "chan") = inl (FloodWait 30) /\
  exists w',
    process_chat (rt := Sample.runtime) self Sample.source Sample.stats w
      = (Return (Sample.source, Sample.stats), w') /\
    w_messages w' = w_messages w /\
    w_telegram_links w' = w_telegram_links w /\
    w_now w' = w_now w + Z.max 0 30 /\
    w_never_awaited w'
      = w_never_awaited w ++
        [ {| pu_link := Sample.source; pu_last_check_at := w_now w;
             pu_last_message_id := default 0 (tl_last_message_id Sample.source) |} ].
Proof.
  cbv zeta.
  assert (extract_chat Sample.source = Some (ChatStr "chan")) as H1 by reflexivity.
  assert (truthy_chat (ChatStr "chan") = true) as H2 by reflexivity.
  assert (get_chat (client (Sample.failing_parser (FloodWait 30))) (ChatStr "chan")
          = inl (FloodWait 30)) as H3 by reflexivity.
  split; [exact H1|]. split; [exact H2|]. split; [exact H3|].
  exact (process_chat_resolution_error (rt := Sample.runtime) _ Sample.source Sample.stats
           (Sample.world [Sample.source]) _ _ H1 H2 H3).
Defined.


Lemma run_paces_itself_witness :
  let self := Sample.parser [Sample.message 11 "hello"] in
  let w := Sample.world [Sample.source] in
  300 <= PAUSE_AFTER_FULL_PARSING (config self) /\
  exists r w',
    run (rt := Sample.runtime) self true 2 w = (Return r, w') /\
    w_now w + 300 * Z.of_nat 2 <= w_now w'.
Proof.
  cbv zeta.
  assert (300 <= PAUSE_AFTER_FULL_PARSING (config (Sample.parser [Sample.message 11 "hello"])))
    as H by (simpl; lia).
  split; [exact H|].
  exact (run_paces_itself (rt := Sample.runtime) _ true 2 (Sample.world [Sample.source]) H).
Defined.

Lemma check_duplicate_body_rejects_only_scored_witness :
  let w := Sample.world_with_rows [Sample.stored Sample.repeated_text 990] in
  check_duplicate_body (rt := Sample.runtime) Sample.repeated_text w = (Return false, w) /\
  exists row q,
    row ∈ w_messages w /\
    w_now w - 86400 < row_created_at row /\
    tfidf_cosine (Runtime := Sample.runtime)
      (bs_text (Runtime := Sample.runtime) (split_head anchor_open Sample.repeated_text))
      (bs_text (Runtime := Sample.runtime) (split_head anchor_open (row_text row))) = inr q /\
    Qle_bool (MAX_LEVEL_OF_DUPLICATE_SIMILARITY (Runtime := Sample.runtime)) q = true.
Proof.
  cbv zeta.
  assert (check_duplicate_body (rt := Sample.runtime) Sample.repeated_text
            (Sample.world_with_rows [Sample.stored Sample.repeated_text 990])
          = (Return false, Sample.world_with_rows [Sample.stored Sample.repeated_text 990]))
    as H by (vm_compute; reflexivity).
  split; [exact H|].
  exact (check_duplicate_body_rejects_only_scored (rt := Sample.runtime) _ _ _ H).
Defined.

Lemma check_duplicate_body_fails_open_witness :
  let w := Sample.world_with_rows
             [Sample.stored Sample.anchor_only_text 990;
              Sample.stored Sample.anchor_only_text 995] in
  let before : list string := [] in
  let after := [Sample.anchor_only_text] in
  Sample.anchor_only_text <> EmptyString /\
  map row_text (List.filter (fun r => w_now w - 86400 <? row_created_at r) (w_messages w))
    = before ++ Sample.anchor_only_text :: after /\
  (forall s, s ∈ before ->
     exists q, tfidf_cosine (Runtime := Sample.runtime)
                 (bs_text (Runtime := Sample.runtime)
                    (split_head anchor_open Sample.anchor_only_text))
                 (bs_text (Runtime := Sample.runtime) (split_head anchor_open s)) = inr q /\
               Qle_bool (MAX_LEVEL_OF_DUPLICATE_SIMILARITY (Runtime := Sample.runtime)) q
               = false) /\
  tfidf_cosine (Runtime := Sample.runtime)
    (bs_text (Runtime := Sample.runtime) (split_head anchor_open Sample.anchor_only_text))
    (bs_text (Runtime := Sample.runtime) (split_head anchor_open Sample.anchor_only_text))
    = inl (OtherError "empty vocabulary") /\
  check_duplicate_body (rt := Sample.runtime) Sample.anchor_only_text w = (Return true, w).
Proof.
  cbv zeta.
  assert (Sample.anchor_only_text <> EmptyString) as H1 by discriminate.
  assert (map row_text
            (List.filter
               (fun r => w_now (Sample.world_with_rows
                                  [Sample.stored Sample.anchor_only_text 990;
                                   Sample.stored Sample.anchor_only_text 995]) - 86400
                         <? row_created_at r)
               (w_messages (Sample.world_with_rows
                              [Sample.stored Sample.anchor_only_text 990;
                               Sample.stored Sample.anchor_only_text 995])))
          = [] ++ Sample.anchor_only_text :: [Sample.anchor_only_text]) as H2
    by (vm_compute; reflexivity).
  assert (forall s, s ∈ @nil string ->
     exists q, tfidf_cosine (Runtime := Sample.runtime)
                 (bs_text (Runtime := Sample.runtime)
                    (split_head anchor_open Sample.anchor_only_text))
                 (bs_text (Runtime := Sample.runtime) (split_head anchor_open s)) = inr q /\
               Qle_bool (MAX_LEVEL_OF_DUPLICATE_SIMILARITY (Runtime := Sample.runtime)) q
               = false) as H3 by (intros s Hs; by apply elem_of_nil in Hs).
  assert (tfidf_cosine (Runtime := Sample.runtime)
            (bs_text (Runtime := Sample.runtime) (split_head anchor_open Sample.anchor_only_text))
            (bs_text (Runtime := Sample.runtime) (split_head anchor_open Sample.anchor_only_text))
          = inl (OtherError "empty vocabulary")) as H4 by (vm_compute; reflexivity).
  split; [exact H1|]. split; [exact H2|]. split; [exact H3|]. split; [exact H4|].
  exact (check_duplicate_body_fails_open (rt := Sample.runtime) _ _ _ _ _ _ H1 H2 H3 H4).
Defined.

Lemma check_duplicate_served_from_cache_witness :
  let w := Sample.world [Sample.source] in
  let w1 := snd (check_duplicate (rt := Sample.runtime) "hello" w) in
  let w2 := Sample.world_with_rows [Sample.stored "hello" 1005] in
  let w2 := with_now 1010 (with_check_duplicate_cache (w_check_duplicate_cache w1) w2) in
  cache_lookup "hello"%string (cache_live (w_now w) (w_check_duplicate_cache w)) = None /\
  check_duplicate (rt := Sample.runtime) "hello" w = (Return true, w1) /\
  w_check_duplicate_cache w2 = w_check_duplicate_cache w1 /\
  w_now w <= w_now w2 < w_now w + 300 /\
  fst (check_duplicate (rt := Sample.runtime) "hello" w2) = Return true.
Proof.
  cbv zeta.
  set (w := Sample.world [Sample.source]).
  set (w1 := snd (check_duplicate (rt := Sample.runtime) "hello" w)).
  set (w2 := with_now 1010 (with_check_duplicate_cache (w_check_duplicate_cache w1)
                              (Sample.world_with_rows [Sample.stored "hello" 1005]))).
  assert (cache_lookup "hello"%string (cache_live (w_now w) (w_check_duplicate_cache w)) = None)
    as H1 by reflexivity.
  assert (check_duplicate (rt := Sample.runtime) "hello" w = (Return true, w1)) as H2
    by (vm_compute; reflexivity).
  assert (w_check_duplicate_cache w2 = w_check_duplicate_cache w1) as H3 by reflexivity.
  assert (w_now w <= w_now w2 < w_now w + 300) as H4 by (simpl; lia).
  split; [exact H1|]. split; [exact H2|]. split; [exact H3|]. split; [exact H4|].
  exact (check_duplicate_served_from_cache (rt := Sample.runtime) "hello" w w1 w2 true
           H1 H2 H3 H4).
Defined.

Lemma check_duplicate_expires_witness :
  let w := Sample.world [Sample.source] in
  let w1 := snd (check_duplicate (rt := Sample.runtime) "hello" w) in
  let w2 := Sample.world_with_rows [Sample.stored "hello" 1005] in
  let w2 := with_now 1300 (with_check_duplicate_cache (w_check_duplicate_cache w1) w2) in
  cache_lookup "hello"%string (cache_live (w_now w) (w_check_duplicate_cache w)) = None /\
  check_duplicate (rt := Sample.runtime) "hello" w = (Return true, w1) /\
  w_check_duplicate_cache w2 = w_check_duplicate_cache w1 /\
  w_now w + 300 <= w_now w2 /\
  fst (check_duplicate (rt := Sample.runtime) "hello" w2)
  = fst (check_duplicate_body (rt := Sample.runtime) "hello" w2).
Proof.
  cbv zeta.
  set (w := Sample.world [Sample.source]).
  set (w1 := snd (check_duplicate (rt := Sample.runtime) "hello" w)).
  set (w2 := with_now 1300 (with_check_duplicate_cache (w_check_duplicate_cache w1)
                              (Sample.world_with_rows [Sample.stored "hello" 1005]))).
  assert (cache_lookup "hello"%string (cache_live (w_now w) (w_check_duplicate_cache w)) = None)
    as H1 by reflexivity.
  assert (check_duplicate (rt := Sample.runtime) "hello" w = (Return true, w1)) as H2
    by (vm_compute; reflexivity).
  assert (w_check_duplicate_cache w2 = w_check_duplicate_cache w1) as H3 by reflexivity.
  assert (w_now w + 300 <= w_now w2) as H4 by (simpl; lia).
  split; [exact H1|]. split; [exact H2|]. split; [exact H3|]. split; [exact H4|].
  exact (check_duplicate_expires (rt := Sample.runtime) "hello" w w1 w2 true H1 H2 H3 H4).
Defined.

Lemma check_duplicate_cache_bounded_witness :
  let w := Sample.world [Sample.source] in
  (length (w_check_duplicate_cache w) <= alru_maxsize)%nat /\
  NoDup (map ce_key (w_check_duplicate_cache w)) /\
  (length (w_check_duplicate_cache (snd (check_duplicate (rt := Sample.runtime) "hello" w)))
   <= alru_maxsize)%nat /\
  NoDup (map ce_key
           (w_check_duplicate_cache (snd (check_duplicate (rt := Sample.runtime) "hello" w)))).
Proof.
  cbv zeta.
  assert (length (w_check_duplicate_cache (Sample.world [Sample.source])) <= alru_maxsize)%nat
    as H1 by (simpl; unfold alru_maxsize; lia).
  assert (NoDup (map ce_key (w_check_duplicate_cache (Sample.world [Sample.source])))) as H2
    by (simpl; apply NoDup_nil_2).
  split; [exact H1|]. split; [exact H2|].
  exact (check_duplicate_cache_bounded (rt := Sample.runtime) "hello"
           (Sample.world [Sample.source]) H1 H2).
Defined.

Lemma process_message_stores_with_categories_witness :
  let message := Sample.message 12 "big sale" in
  let w := Sample.world [Sample.source] in
  let run := process_message (rt := Sample.runtime) message (-100) Sample.stats Sample.source w in
  run = (fst run, snd run) /\
  w_messages (snd run) <> w_messages w /\
  exists text w1 categories w2 row,
    msg_text message = Some text /\
    check_duplicate (rt := Sample.runtime) text w = (Return true, w1) /\
    find_message_categories (rt := Sample.runtime) text Sample.source w1
      = (Return categories, w2) /\
    categories <> ∅ /\
    fst run = Return (Some (msg_id message), incr_relevant_messages Sample.stats) /\
    w_messages (snd run) = w_messages w ++ [row] /\
    row_id row = uuid4 (Runtime := Sample.runtime) (w_uuids w) /\
    row_created_at row = w_now w /\
    row_date row = msg_date message /\
    row_chat_id row = chat_ident <$> msg_chat message /\
    row_link row = Some (msg_link message) /\
    row_from_user_id row = user_ident <$> msg_from_user message /\
    row_from_username row = msg_from_user message ≫= user_username /\
    w_category_message (snd run)
      = w_category_message w ++
        map (fun category_id =>
               {| cml_category_id := category_id; cml_message_id := row_id row;
                  cml_created_at := w_now w |}) (elements categories) /\
    NoDup (elements categories).
Proof.
  cbv zeta.
  assert (w_messages (snd (process_message (rt := Sample.runtime) (Sample.message 12 "big sale")
                             (-100) Sample.stats Sample.source (Sample.world [Sample.source])))
          <> w_messages (Sample.world [Sample.source])) as H by (vm_compute; discriminate).
  split; [exact (surjective_pairing _)|]. split; [exact H|].
  exact (process_message_stores_with_categories (rt := Sample.runtime)
           (Sample.message 12 "big sale") (-100) Sample.stats Sample.source
           (Sample.world [Sample.source]) _ _ (surjective_pairing _) H).
Defined.

Lemma global_keywords_need_a_link_witness :
  let w := Sample.world [Sample.source] in
  let k := Sample.keyword "sale" 7 in
  let c := {| cat_id := 7; cat_name := "offers"; cat_global_search := 1 |} in
  k ∈ w_keywords w /\
  c ∈ w_categories w /\
  cat_id c = kw_category_id k /\
  cat_global_search c = 1 /\
  (k ∈ get_keyword_rows_query "L9" w
   <-> exists l, l ∈ w_category_telegram_link w /\ ctl_category_id l = cat_id c).
Proof.
  cbv zeta.
  assert (Sample.keyword "sale" 7 ∈ w_keywords (Sample.world [Sample.source])) as H1
    by apply list_elem_of_here.
  assert ({| cat_id := 7; cat_name := "offers"; cat_global_search := 1 |}
            ∈ w_categories (Sample.world [Sample.source])) as H2 by apply list_elem_of_here.
  assert (cat_id {| cat_id := 7; cat_name := "offers"; cat_global_search := 1 |}
          = kw_category_id (Sample.keyword "sale" 7)) as H3 by reflexivity.
  assert (cat_global_search {| cat_id := 7; cat_name := "offers"; cat_global_search := 1 |} = 1)
    as H4 by reflexivity.
  split; [exact H1|]. split; [exact H2|]. split; [exact H3|]. split; [exact H4|].
  exact (global_keywords_need_a_link "L9" (Sample.world [Sample.source]) _ _ H1 H2 H3 H4).
Defined.

Lemma bind_then_unbind_witness :
  let w := Sample.world [Sample.unbound_source] in
  tl_chat_id Sample.unbound_source = None /\
  exists tl1 w1,
    save_chat_id Sample.unbound_source 77 (Some "me"%string) w = (Return tl1, w1) /\
    set_telegram_link_chat_id_null tl1 (Some "me"%string) w1
    = if bool_decide (Some "me"%string = Some "me"%string)
         && negb (bool_decide ("me"%string = "velinapp"%string))
      then (Return (set_parser_account (Some "me"%string) Sample.unbound_source),
            with_telegram_links
              (<[ tl_id Sample.unbound_source
                  := set_parser_account (Some "me"%string) Sample.unbound_source ]>
                 (w_telegram_links w)) w)
      else (Return tl1, w1).
Proof.
  cbv zeta.
  assert (tl_chat_id Sample.unbound_source = None) as H by reflexivity.
  split; [exact H|].
  exact (bind_then_unbind Sample.unbound_source 77 "me" (Some "me"%string)
           (Sample.world [Sample.unbound_source]) H).
Defined.

Lemma get_tg_links_discovery_witness :
  let w := Sample.world [Sample.unbound_source; Sample.source] in
  let links := [Sample.unbound_source] in
  (forall l x, x ∈ func_rand (Runtime := Sample.runtime) l -> x ∈ l) /\
  get_tg_links (rt := Sample.runtime) false (Some "me"%string) w = (Return links, w) /\
  w = w /\
  (length links <= 1)%nat /\
  forall t, t ∈ links ->
    (exists k, w_telegram_links w !! k = Some t) /\
    tl_chat_id t = None /\
    tl_invalid t <> Some true /\
    (tl_parser_account t = Some "me"%string \/ tl_parser_account t = None).
Proof.
  cbv zeta.
  assert (get_tg_links (rt := Sample.runtime) false (Some "me"%string)
            (Sample.world [Sample.unbound_source; Sample.source])
          = (Return [Sample.unbound_source],
             Sample.world [Sample.unbound_source; Sample.source])) as H
    by (vm_compute; reflexivity).
  split; [exact sample_func_rand|]. split; [exact H|].
  exact (get_tg_links_discovery (rt := Sample.runtime) _ _ _ _ sample_func_rand H).
Defined.

Lemma bound_source_is_claimed_witness :
  let w := Sample.world [Sample.unbound_source] in
  let tl1 := set_parser_account (Some "me"%string) (set_chat_id (Some 77) Sample.unbound_source) in
  let w1 := snd (save_chat_id Sample.unbound_source 77 (Some "me"%string) w) in
  (forall l x, x ∈ func_rand (Runtime := Sample.runtime) l -> x ∈ l) /\
  well_keyed w /\
  tl_chat_id Sample.unbound_source = None /\
  save_chat_id Sample.unbound_source 77 (Some "me"%string) w = (Return tl1, w1) /\
  get_tg_links (rt := Sample.runtime) true (Some "me"%string) w1 = (Return [tl1], w1) /\
  tl1 ∈ [tl1] /\
  tl_id tl1 = tl_id Sample.unbound_source /\
  true = true /\ Some "me"%string = Some "me"%string.
Proof.
  cbv zeta.
  set (w := Sample.world [Sample.unbound_source]).
  set (tl1 := set_parser_account (Some "me"%string)
                (set_chat_id (Some 77) Sample.unbound_source)).
  set (w1 := snd (save_chat_id Sample.unbound_source 77 (Some "me"%string) w)).
  assert (well_keyed w) as H2 by apply sample_store_well_keyed.
  assert (tl_chat_id Sample.unbound_source = None) as H3 by reflexivity.
  assert (save_chat_id Sample.unbound_source 77 (Some "me"%string) w = (Return tl1, w1)) as H4
    by (vm_compute; reflexivity).
  assert (get_tg_links (rt := Sample.runtime) true (Some "me"%string) w1 = (Return [tl1], w1))
    as H5 by (vm_compute; reflexivity).
  assert (tl1 ∈ [tl1]) as H6 by apply list_elem_of_here.
  assert (tl_id tl1 = tl_id Sample.unbound_source) as H7 by reflexivity.
  split; [exact sample_func_rand|]. split; [exact H2|]. split; [exact H3|].
  split; [exact H4|]. split; [exact H5|]. split; [exact H6|]. split; [exact H7|].
  exact (bound_source_is_claimed (rt := Sample.runtime) Sample.unbound_source 77 "me"
           w w1 w1 tl1 true (Some "me"%string) [tl1] tl1 sample_func_rand H2 H3 H4 H5 H6 H7).
Defined.

Lemma invalid_source_is_not_discovered_witness :
  let w := Sample.world [Sample.unbound_source; Sample.unbound_source2] in
  let tl1 := set_invalid (Some true) Sample.unbound_source in
  let w1 := snd (set_telegram_link_invalid Sample.unbound_source w) in
  (forall l x, x ∈ func_rand (Runtime := Sample.runtime) l -> x ∈ l) /\
  well_keyed w /\
  set_telegram_link_invalid Sample.unbound_source w = (Return tl1, w1) /\
  get_tg_links (rt := Sample.runtime) false (Some "me"%string) w1
    = (Return [Sample.unbound_source2], w1) /\
  Sample.unbound_source2 ∈ [Sample.unbound_source2] /\
  tl_id Sample.unbound_source2 <> tl_id Sample.unbound_source.
Proof.
  cbv zeta.
  set (w := Sample.world [Sample.unbound_source; Sample.unbound_source2]).
  set (tl1 := set_invalid (Some true) Sample.unbound_source).
  set (w1 := snd (set_telegram_link_invalid Sample.unbound_source w)).
  assert (well_keyed w) as H2 by apply sample_store_well_keyed.
  assert (set_telegram_link_invalid Sample.unbound_source w = (Return tl1, w1)) as H3
    by (vm_compute; reflexivity).
  assert (get_tg_links (rt := Sample.runtime) false (Some "me"%string) w1
          = (Return [Sample.unbound_source2], w1)) as H4 by (vm_compute; reflexivity).
  assert (Sample.unbound_source2 ∈ [Sample.unbound_source2]) as H5 by apply list_elem_of_here.
  split; [exact sample_func_rand|]. split; [exact H2|]. split; [exact H3|].
  split; [exact H4|]. split; [exact H5|].
  exact (invalid_source_is_not_discovered (rt := Sample.runtime) Sample.unbound_source
           w w1 w1 tl1 (Some "me"%string) [Sample.unbound_source2] Sample.unbound_source2
           sample_func_rand H2 H3 H4 H5).
Defined.

Lemma invalid_source_is_still_polled_witness :
  let w := Sample.world [Sample.source] in
  let tl1 := set_invalid (Some true) Sample.source in
  let w1 := snd (set_telegram_link_invalid Sample.source w) in
  tl_chat_id Sample.source <> None /\
  (tl_parser_account Sample.source = Some "me"%string \/ tl_parser_account Sample.source = None) /\
  (size (w_telegram_links w) < 30)%nat /\
  set_telegram_link_invalid Sample.source w = (Return tl1, w1) /\
  tl_invalid tl1 = Some true /\
  exists links,
    get_tg_links (rt := Sample.runtime) true (Some "me"%string) w1 = (Return links, w1) /\
    tl1 ∈ links.
Proof.
  cbv zeta.
  set (w := Sample.world [Sample.source]).
  set (tl1 := set_invalid (Some true) Sample.source).
  set (w1 := snd (set_telegram_link_invalid Sample.source w)).
  assert (tl_chat_id Sample.source <> None) as H1 by discriminate.
  assert (tl_parser_account Sample.source = Some "me"%string
          \/ tl_parser_account Sample.source = None) as H2 by (vm_compute; auto).
  assert (size (w_telegram_links w) < 30)%nat as H3 by (vm_compute; lia).
  assert (set_telegram_link_invalid Sample.source w = (Return tl1, w1)) as H4
    by (vm_compute; reflexivity).
  split; [exact H1|]. split; [exact H2|]. split; [exact H3|]. split; [exact H4|].
  exact (invalid_source_is_still_polled (rt := Sample.runtime) Sample.source w w1 tl1
           (Some "me"%string) H1 H2 H3 H4).
Defined.

